(** * Sustainable-Energy-Systems: formal model of the ranking core

    A shallow embedding of the computational core of the repository:

    - [tools.py]: the time-of-use EV charging cost loop [ev_tou_cost], on
      exact rationals and on binary64 values;
    - [models.py]: the [Site] and [ScenarioInput] dataclasses;
    - [recommender.py]: [simple_payback], [lcoe] and
      [Recommender.score_options];
    - [feature_transition_generation.py]: [_pv_kwh_year], [_wind_kwh_year],
      [_goal_weights] and [_rank_options];
    - [eia_client.py], [nrel_client.py]: the fallible remote look-ups.

    Numbers.  Python floats are modelled by exact rationals ([Q]); the
    values that pandas/numpy columns can additionally hold (positive and
    negative infinity, not-a-number) are modelled by the type [fnum].
    Rounding error, overflow and signed zeros of binary64 are not modelled
    there.  Where a result depends on the rounding itself (the total of
    the worked charging example, the round trip of a unit conversion) a
    second model computes on binary64 values with the primitive floats of
    the kernel ([Tools64], [Conversions64]).
    Equality of rationals is [Qeq] ([==]). *)

From Stdlib Require Import QArith Qround Qminmax Qabs Lqa Lia ZArith List Bool.
From Stdlib Require Import Ascii String Permutation Sorted Qpower.
From Stdlib Require PrimFloat SpecFloat FloatOps.
Import ListNotations.

Open Scope Q_scope.

(* ================================================================== *)
(** * Python scalar helpers *)

Module Py.

(** [x % m] on floats, for a positive modulus: the result has the sign of
    the divisor, i.e. [x - m * floor (x / m)]. *)
Definition fmod (x m : Q) : Q := x - m * inject_Z (Qfloor (x / m)).

(** [round(x, 1)]: round to one decimal, ties to the even neighbour. *)
Definition round1 (x : Q) : Q :=
  let y := x * 10 in
  let z := Qfloor y in
  let frac := y - inject_Z z in
  let r := match frac ?= 1 # 2 with
           | Lt => z
           | Gt => (z + 1)%Z
           | Eq => if Z.even z then z else (z + 1)%Z
           end in
  inject_Z r / 10.

(** [x or d] for an [Optional[float]]: [None] and [0] are falsy. *)
Definition or_default (x : option Q) (d : Q) : Q :=
  match x with
  | Some v => if Qeq_bool v 0 then d else v
  | None => d
  end.

(** [x or d] for a float. *)
Definition or_num (x d : Q) : Q := if Qeq_bool x 0 then d else x.

(** Boolean comparisons [a < b] and [a <= b]. *)
Definition ltb (a b : Q) : bool :=
  match a ?= b with Lt => true | _ => false end.
Definition leb (a b : Q) : bool :=
  match a ?= b with Gt => false | _ => true end.

End Py.

(* ================================================================== *)
(** * tools.py: time-of-use EV charging cost *)

Module Tools.

(** A tariff block [((s, e), price)]: hours [s <= h < e] cost [price]. *)
Definition tariff_block : Type := (Z * Z) * Q.

Definition step_h : Q := 1 # 4.
Definition eps : Q := 1 # 1000000000.

(** The loop state: accumulated cost, clock [h], hours still to charge. *)
Record ev_state : Type := mk_ev
  { cost : Q; h : Q; remaining : Q }.

(** [block_matches hm b]: the test [(h % 24) >= s and (h % 24) < e]. *)
Definition block_matches (hm : Q) (b : tariff_block) : bool :=
  let '((s, e), _) := b in
  Py.leb (inject_Z s) hm && Py.ltb hm (inject_Z e).

(** The inner [for] loop with its [break]: the first matching block. *)
Fixpoint first_match (hm : Q) (blocks : list tariff_block)
  : option tariff_block :=
  match blocks with
  | [] => None
  | b :: rest => if block_matches hm b then Some b else first_match hm rest
  end.

(** One iteration of the [while] body. *)
Definition ev_step (charger_kw : Q) (blocks : list tariff_block)
           (st : ev_state) : ev_state :=
  match first_match (Py.fmod (h st) 24) blocks with
  | Some (_, price) =>
      let use := Qmin step_h (remaining st) in
      {| cost := cost st + price * charger_kw * use;
         h := h st + step_h;
         remaining := remaining st - use |}
  | None =>
      {| cost := cost st; h := h st + step_h; remaining := remaining st |}
  end.

(** The [while remaining > 1e-9] loop, with a bound on the number of
    iterations; [None] means the bound was reached with the guard
    still true. *)
Fixpoint ev_loop (fuel : nat) (charger_kw : Q) (blocks : list tariff_block)
         (st : ev_state) : option ev_state :=
  if Py.ltb eps (remaining st) then
    match fuel with
    | O => None
    | S fuel' => ev_loop fuel' charger_kw blocks (ev_step charger_kw blocks st)
    end
  else Some st.

Definition ev_init (kwh_needed : Q) (start_hour : Z) (charger_kw : Q)
  : ev_state :=
  {| cost := 0;
     h := inject_Z start_hour;
     remaining := kwh_needed / Qmax charger_kw eps |}.

Definition ev_tou_cost (fuel : nat) (kwh_needed : Q) (start_hour : Z)
           (charger_kw : Q) (blocks : list tariff_block) : option Q :=
  option_map cost
    (ev_loop fuel charger_kw blocks (ev_init kwh_needed start_hour charger_kw)).

(** No block of [blocks] contains any hour of the day. *)
Definition covers_no_hour (blocks : list tariff_block) : Prop :=
  forall x : Q, 0 <= x -> x < 24 -> first_match x blocks = None.

(** C6, as stated: every positive [kwh_needed] with an uncovered day makes
    the loop run for ever.  *)
Definition ev_idle_claim : Prop :=
  forall (kwh_needed : Q) (start_hour : Z) (charger_kw : Q)
         (blocks : list tariff_block),
    0 < kwh_needed -> covers_no_hour blocks ->
    forall fuel, ev_tou_cost fuel kwh_needed start_hour charger_kw blocks = None.

End Tools.

(* ================================================================== *)
(** * tools.py in binary64

    The figures of the charging loop depend on the rounding of every
    addition and multiplication.  This second model of [ev_tou_cost]
    computes on binary64 values with the operations of IEEE 754, as
    CPython does. *)

Module Binary64.
Import PrimFloat SpecFloat FloatOps.
#[local] Set Warnings "-inexact-float".

(** The rational number that a binary64 value stands for; [None] for the
    infinities and NaN. *)
Definition to_Q (x : float) : option Q :=
  match Prim2SF x with
  | S754_zero _ => Some 0
  | S754_finite s m e => Some (inject_Z (cond_Zopp s (Zpos m)) * 2 ^ e)
  | S754_infinity _ | S754_nan => None
  end.

(** [float(n)] for a Python int: the nearest binary64 value, ties to
    even; [None] stands for [OverflowError]. *)
Definition of_Z (n : Z) : option float :=
  match binary_normalize prec emax n 0 false with
  | S754_infinity _ => None
  | x => Some (SF2Prim x)
  end.

(** C's [fmod(x, w)] for a positive integer [w]: the remainder of the
    truncated division, exact, with the sign of [x]. *)
Definition fmod (x : float) (w : Z) : float :=
  match Prim2SF x with
  | S754_zero _ => x
  | S754_finite s m e =>
      let '(num, ex) :=
        if (0 <=? e)%Z then (Z.modulo (Zpos m * 2 ^ e) w, 0%Z)
        else (Z.modulo (Zpos m) (w * 2 ^ (- e)), e) in
      SF2Prim (binary_normalize prec emax (cond_Zopp s num) ex s)
  | S754_infinity _ | S754_nan => nan
  end.

(** Python's [x % w] for a float [x] and a positive int [w], with [wf]
    the float of [w]: [fmod], moved into the range of [w] when it is
    negative; a zero remainder is [+0.0]. *)
Definition py_mod (x : float) (w : Z) (wf : float) : float :=
  let m := fmod x w in
  if PrimFloat.eqb m zero then zero
  else if PrimFloat.ltb m zero then PrimFloat.add m wf
  else m.

(** Python compares a float with an int exactly. *)
Definition compare_int (x : float) (n : Z) : option comparison :=
  match Prim2SF x with
  | S754_nan => None
  | S754_infinity neg => Some (if neg then Lt else Gt)
  | _ => match to_Q x with
         | Some q => Some (q ?= inject_Z n)
         | None => None
         end
  end.

Definition ge_int (x : float) (n : Z) : bool :=
  match compare_int x n with Some Lt | None => false | Some _ => true end.
Definition lt_int (x : float) (n : Z) : bool :=
  match compare_int x n with Some Lt => true | _ => false end.

(** [max(a, b)] and [min(a, b)] of Python: the first argument unless the
    second is strictly beyond it. *)
Definition py_max (a b : float) : float := if PrimFloat.ltb a b then b else a.
Definition py_min (a b : float) : float := if PrimFloat.ltb b a then b else a.

End Binary64.

Module Tools64.
Import PrimFloat Binary64.
#[local] Set Warnings "-inexact-float".

(** A tariff block [((s, e), price)] with a binary64 price. *)
Definition tariff_block : Type := (Z * Z) * float.

(** The clock [h]: the int [start_hour] until the first [h += step_h]
    makes it a float. *)
Inductive clock : Type :=
| IntClock (z : Z)
| FloatClock (f : float).

Record ev_state : Type := mk_ev
  { cost : float; h : clock; remaining : float }.

Definition step_h : float := 0.25%float.
Definition eps : float := 1e-9%float.

(** The test [(h % 24) >= s and (h % 24) < e]. *)
Definition block_matches (h : clock) (b : tariff_block) : bool :=
  let '((s, e), _) := b in
  match h with
  | IntClock z => ((s <=? z mod 24) && (z mod 24 <? e))%Z
  | FloatClock f =>
      let hm := py_mod f 24 24%float in ge_int hm s && lt_int hm e
  end.

(** The inner [for] loop with its [break]: the first matching block. *)
Fixpoint first_match (h : clock) (blocks : list tariff_block)
  : option tariff_block :=
  match blocks with
  | [] => None
  | b :: rest => if block_matches h b then Some b else first_match h rest
  end.

(** [h += step_h]; [None] stands for the [OverflowError] of converting
    an int beyond the binary64 range. *)
Definition advance (h : clock) : option clock :=
  match h with
  | IntClock z =>
      match of_Z z with
      | Some f => Some (FloatClock (PrimFloat.add f step_h))
      | None => None
      end
  | FloatClock f => Some (FloatClock (PrimFloat.add f step_h))
  end.

(** One iteration of the [while] body; [None] when it raises. *)
Definition ev_step (charger_kw : float) (blocks : list tariff_block)
           (st : ev_state) : option ev_state :=
  match advance (h st) with
  | None => None
  | Some h' =>
      match first_match (h st) blocks with
      | Some (_, price) =>
          let use := py_min step_h (remaining st) in
          Some {| cost := PrimFloat.add (cost st)
                            (PrimFloat.mul (PrimFloat.mul price charger_kw) use);
                  h := h';
                  remaining := PrimFloat.sub (remaining st) use |}
      | None =>
          Some {| cost := cost st; h := h'; remaining := remaining st |}
      end
  end.

(** The outcome of a run: the returned cost, an exception, or the bound
    on the number of iterations reached with the guard still true. *)
Inductive run : Type :=
| Returned (c : float)
| Raised
| Unfinished.

(** The [while remaining > 1e-9] loop. *)
Fixpoint ev_loop (fuel : nat) (charger_kw : float) (blocks : list tariff_block)
         (st : ev_state) : run :=
  if PrimFloat.ltb eps (remaining st) then
    match fuel with
    | O => Unfinished
    | S fuel' =>
        match ev_step charger_kw blocks st with
        | Some st' => ev_loop fuel' charger_kw blocks st'
        | None => Raised
        end
    end
  else Returned (cost st).

Definition ev_tou_cost (fuel : nat) (kwh_needed : float) (start_hour : Z)
           (charger_kw : float) (blocks : list tariff_block) : run :=
  ev_loop fuel charger_kw blocks
    {| cost := zero;
       h := IntClock start_hour;
       remaining := PrimFloat.div kwh_needed (py_max charger_kw eps) |}.

(** The worked example: 30 kWh on a 7 kW charger under the off-peak
    tariff, and the total [30 * 0.14] that the example expects. *)
Definition example_kwh : float := 30%float.
Definition example_charger_kw : float := 7%float.
Definition offpeak_blocks : list tariff_block :=
  [ ((19, 24)%Z, 0.14%float); ((0, 7)%Z, 0.14%float) ].
Definition example_expected : float := PrimFloat.mul 30%float 0.14%float.

(** What the loop returns on the example: 4.200000000000001. *)
Definition example_returned : float := 0x1.0cccccccccccep+2%float.

End Tools64.

(* ================================================================== *)
(** * Column values: rationals extended with infinities and NaN *)

Module Num.

Inductive fnum : Type :=
| Fin (q : Q)
| PInf
| NInf
| NaN.

Definition is_finite (x : fnum) : bool :=
  match x with Fin _ => true | _ => false end.

Definition isna (x : fnum) : bool :=
  match x with NaN => true | _ => false end.

(** Numeric equality ([==] on floats): NaN differs from everything. *)
Definition feq (x y : fnum) : Prop :=
  match x, y with
  | Fin a, Fin b => a == b
  | PInf, PInf | NInf, NInf => True
  | _, _ => False
  end.

Definition feqb (x y : fnum) : bool :=
  match x, y with
  | Fin a, Fin b => Qeq_bool a b
  | PInf, PInf | NInf, NInf => true
  | _, _ => false
  end.

(** [x < y]; false as soon as one side is NaN. *)
Definition fltb (x y : fnum) : bool :=
  match x, y with
  | NaN, _ | _, NaN => false
  | Fin a, Fin b => Py.ltb a b
  | NInf, NInf | PInf, _ => false
  | NInf, _ | Fin _, PInf => true
  | Fin _, NInf => false
  end.

(** [x <= y]; false as soon as one side is NaN. *)
Definition fleb (x y : fnum) : bool :=
  match x, y with
  | NaN, _ | _, NaN => false
  | Fin a, Fin b => Py.leb a b
  | NInf, _ | _, PInf => true
  | PInf, _ | Fin _, NInf => false
  end.

Definition fneg (x : fnum) : fnum :=
  match x with
  | Fin a => Fin (- a)
  | PInf => NInf
  | NInf => PInf
  | NaN => NaN
  end.

Definition fadd (x y : fnum) : fnum :=
  match x, y with
  | NaN, _ | _, NaN => NaN
  | Fin a, Fin b => Fin (a + b)
  | PInf, NInf | NInf, PInf => NaN
  | PInf, _ | _, PInf => PInf
  | NInf, _ | _, NInf => NInf
  end.

Definition fsub (x y : fnum) : fnum := fadd x (fneg y).

(** An infinity with the sign of [a] times the sign [pos]; NaN for 0. *)
Definition signed_inf (pos : bool) (a : Q) : fnum :=
  match a ?= 0 with
  | Eq => NaN
  | Gt => if pos then PInf else NInf
  | Lt => if pos then NInf else PInf
  end.

Definition fmul (x y : fnum) : fnum :=
  match x, y with
  | NaN, _ | _, NaN => NaN
  | Fin a, Fin b => Fin (a * b)
  | Fin a, PInf | PInf, Fin a => signed_inf true a
  | Fin a, NInf | NInf, Fin a => signed_inf false a
  | PInf, PInf | NInf, NInf => PInf
  | PInf, NInf | NInf, PInf => NInf
  end.

(** numpy division: a finite value over zero is an infinity (NaN for
    0/0), anything finite over an infinity is 0, and an infinity over an
    infinity is NaN.  Zero is taken as positive. *)
Definition fdiv (x y : fnum) : fnum :=
  match x, y with
  | NaN, _ | _, NaN => NaN
  | Fin a, Fin b => if Qeq_bool b 0 then signed_inf true a else Fin (a / b)
  | Fin _, _ => Fin 0
  | PInf, Fin b => if Py.ltb b 0 then NInf else PInf
  | NInf, Fin b => if Py.ltb b 0 then PInf else NInf
  | _, _ => NaN
  end.

End Num.

(* ================================================================== *)
(** * pandas / numpy operations on columns *)

Module Pandas.
Import Num.

(** A [Series] of floats. *)
Definition series : Type := list fnum.

(** [Series.max()] and [Series.min()]: NaN entries are skipped; the
    result is NaN when nothing is left. *)
Definition max_step (acc x : fnum) : fnum :=
  if isna x then acc
  else if isna acc then x
  else if fltb acc x then x else acc.

Definition min_step (acc x : fnum) : fnum :=
  if isna x then acc
  else if isna acc then x
  else if fltb x acc then x else acc.

Definition col_max (x : series) : fnum := fold_left max_step x NaN.
Definition col_min (x : series) : fnum := fold_left min_step x NaN.

(** [Series.fillna(v)]. *)
Definition fillna (v : fnum) (x : series) : series :=
  map (fun e => if isna e then v else e) x.

(** [Series.replace(0, nan)] and [Series.replace([inf, 0], nan)]. *)
Definition replace_zero (x : series) : series :=
  map (fun e => if feqb e (Fin 0) then NaN else e) x.

Definition replace_inf_zero (x : series) : series :=
  map (fun e => if feqb e PInf || feqb e (Fin 0) then NaN else e) x.

(** [Series.clip(lower=lo)] and [Series.clip(lower=lo, upper=hi)]; NaN
    stays NaN. *)
Definition clip_lower1 (lo e : fnum) : fnum := if fltb e lo then lo else e.
Definition clip1 (lo hi e : fnum) : fnum :=
  let e' := clip_lower1 lo e in if fltb hi e' then hi else e'.

Definition clip_lower (lo : fnum) (x : series) : series :=
  map (clip_lower1 lo) x.
Definition clip (lo hi : fnum) (x : series) : series := map (clip1 lo hi) x.

(** [Series.isna().all()]. *)
Definition isna_all (x : series) : bool := forallb isna x.

(** Truthiness of a float in [v or d]: only zero is falsy (NaN is
    truthy). *)
Definition or_float (v d : fnum) : fnum := if feqb v (Fin 0) then d else v.

(** ** [DataFrame.sort_values(col, ascending=False)]

    pandas separates the rows whose key is NaN (they go last, in their
    original order) and orders the others with [numpy.argsort], with
    [kind] left at its default ['quicksort'].  That algorithm is taken
    as a parameter: a [sorter] reorders rows by decreasing key. *)
Definition sorter : Type := forall A : Type, (A -> fnum) -> list A -> list A.

Definition sort_values_desc (srt : sorter) {A : Type} (key : A -> fnum)
           (df : list A) : list A :=
  srt A key (filter (fun r => negb (isna (key r))) df)
    ++ filter (fun r => isna (key r)) df.

(** Rows in non-increasing order of [key]. *)
Definition sorted_desc {A : Type} (key : A -> fnum) (l : list A) : Prop :=
  StronglySorted (fun a b => fleb (key b) (key a) = true) l.

(** What numpy documents for every [kind]: the result is a rearrangement
    of the input, in order. *)
Definition sorter_ok (srt : sorter) : Prop :=
  forall (A : Type) (key : A -> fnum) (l : list A),
    (forall r, In r l -> isna (key r) = false) ->
    Permutation l (srt A key l) /\ sorted_desc key (srt A key l).



(** A stable instance: insertion sort by decreasing key, as numpy's
    quicksort does on short arrays without vector instructions. *)
Fixpoint insert_desc {A : Type} (key : A -> fnum) (x : A) (l : list A)
  : list A :=
  match l with
  | [] => [x]
  | y :: rest =>
      if fltb (key x) (key y) then y :: insert_desc key x rest
      else x :: l
  end.

Definition insertion_sorter : sorter :=
  fun A key l => fold_right (insert_desc key) [] l.

(** The sort that runs on the frames ranked here.  With [kind] at its
    default numpy's [argsort] is its quicksort, which handles an array of
    at most 16 elements by straight insertion: each element in turn moves
    left past the elements whose key is greater.  [sorted_rev] is the
    part already in place, read from the right. *)
Definition numpy_argsort_small {A : Type} (key : A -> fnum) (l : list A)
  : list A :=
  rev (fold_left (fun sorted_rev x => insert_desc key x sorted_rev) l []).

(** For [ascending=False] pandas reverses the rows, calls [argsort], and
    reverses the result. *)
Definition small_frame_sorter : sorter :=
  fun A key l => rev (numpy_argsort_small key (rev l)).

(** ** Notions used to state properties of columns *)

Definition no_nan (x : series) : Prop := forall e, In e x -> isna e = false.

Definition all_fin (x : series) : Prop :=
  forall e, In e x -> exists q, e = Fin q.

Definition fillna1 (d v : fnum) : fnum := if isna v then d else v.

End Pandas.

(* ================================================================== *)
(** * models.py *)

Module Models.

Record Site : Type := mk_Site
  { country : string;
    state : option string;
    county : option string;
    city : option string;
    zipcode : option string;
    lat : option Q;
    lon : option Q;
    building_type : string;
    floor_area_m2 : option Q;
    annual_electricity_kwh : option Q;
    annual_gas_therms : option Q }.

Record ScenarioInput : Type := mk_ScenarioInput
  { site : Site;
    elec_rate_usd_per_kwh : Q;
    gas_rate_usd_per_therm : Q;
    demand_charge_usd_per_kw : Q;
    discount_rate : Q;
    analysis_years : Z;
    grid_emissions_kgco2e_per_kwh : Q }.

(** The dataclass defaults. *)
Definition default_Site : Site :=
  {| country := "USA"; state := None; county := None; city := None;
     zipcode := None; lat := None; lon := None;
     building_type := "residential"; floor_area_m2 := None;
     annual_electricity_kwh := None; annual_gas_therms := None |}.

Definition default_ScenarioInput (s : Site) (elec_rate gas_rate : Q)
  : ScenarioInput :=
  {| site := s;
     elec_rate_usd_per_kwh := elec_rate;
     gas_rate_usd_per_therm := gas_rate;
     demand_charge_usd_per_kw := 0;
     discount_rate := 7 # 100;
     analysis_years := 25;
     grid_emissions_kgco2e_per_kwh := 38 # 100 |}.

End Models.

(* ================================================================== *)
(** * data_connectors.py (stubbed look-ups) *)

Module DataConnectors.

(** [solar_resource(lat, lon)["GHI_kWhm2_day"]]: the stub returns the
    same dictionary everywhere. *)
Definition solar_resource_GHI (lat lon : Q) : Q := 42 # 10.

End DataConnectors.

(* ================================================================== *)
(** * recommender.py *)

Module Recommender.
Import Num Pandas Models.

(** The [kwh_per_kw_year is None] path, the only one used. *)
Definition pv_energy_yield_kw (lat lon system_kwdc : Q) : Q :=
  let ghi := DataConnectors.solar_resource_GHI lat lon in
  let kwh_per_kw_year := 300 * ghi in
  system_kwdc * kwh_per_kw_year.

Definition pv_capex_usd (system_kwdc : Q) : Q := system_kwdc * 1800.

Definition simple_payback (capex annual_savings : Q) : fnum :=
  if Py.ltb 0 annual_savings then Fin (capex / annual_savings) else PInf.

(** [b ** n] for a float base and an int exponent; [None] stands for the
    [ZeroDivisionError] of [0.0 ** negative]. *)
Definition py_pow (b : Q) (n : Z) : option Q :=
  if Qeq_bool b 0 && (n <? 0)%Z then None else Some (Qpower b n).

(** [a / b] on Python floats; [None] stands for [ZeroDivisionError]. *)
Definition py_div (a b : Q) : option Q :=
  if Qeq_bool b 0 then None else Some (a / b).

(** [lcoe]; [None] when the capital recovery factor raises. *)
Definition lcoe (capex annual_om annual_gen discount : Q) (years : Z)
  : option fnum :=
  match py_pow (1 + discount) years with
  | None => None
  | Some p =>
      match py_div (discount * p) (p - 1) with
      | None => None
      | Some crf =>
          let aac := capex * crf + annual_om in
          Some (if Py.leb annual_gen 0 then PInf else Fin (aac / annual_gen))
      end
  end.

(** The [Option] column; the size shown in the PV label is kept as data. *)
Inductive option_label : Type :=
| SolarPV (pv_size_kw : Q)
| EfficiencyLED
| HeatPumpWaterHeater
| TransportEV
| TransportModeShift.

Definition is_HeatPumpWaterHeater (l : option_label) : bool :=
  match l with HeatPumpWaterHeater => true | _ => false end.

Record option_row : Type := mk_row
  { Option_label : option_label;
    Category : string;
    Capex_USD : fnum;
    Annual_Gen_kWh : fnum;
    Annual_Savings_USD : fnum;
    Simple_Payback_yr : fnum;
    LCOE_USD_per_kWh : fnum;
    CO2e_Reduction_tpy : fnum;
    Practicality : fnum }.

(** A row of the returned frame: the option columns and the five score
    columns added by the MCDA step. *)
Record scored_row : Type := mk_scored
  { option_cols : option_row;
    score_payback : fnum;
    score_savings : fnum;
    score_co2e : fnum;
    score_practicality : fnum;
    MCDA_Score_0to1 : fnum }.

(** Shared transport assumptions. *)
Definition veh_vmt : Q := 12000.
Definition mpg_gas : Q := 25.
Definition gas_price : Q := 35 # 10.
Definition ef_gas : Q := 889 # 100.
Definition kwh_per_mile_bev : Q := 30 # 100.

(** The [rows] list of [score_options], before the frame is built. *)
Definition option_rows (scen : ScenarioInput) : option (list option_row) :=
  let annual_kwh := Py.or_default (annual_electricity_kwh (site scen)) 10000 in
  let pv_size_kw := Qmax 1 (Py.round1 (annual_kwh / 1400)) in
  let lat := Py.or_default (lat (site scen)) (423 # 10) in
  let lon := Py.or_default (lon (site scen)) (- (831 # 10)) in
  let pv_gen := pv_energy_yield_kw lat lon pv_size_kw in
  let pv_capex := pv_capex_usd pv_size_kw in
  let pv_om := (15 # 1000) * pv_capex in
  let rate := elec_rate_usd_per_kwh scen in
  let annual_savings := Qmin pv_gen annual_kwh * rate in
  let payback := simple_payback pv_capex annual_savings in
  match lcoe pv_capex pv_om pv_gen (discount_rate scen) (analysis_years scen)
  with
  | None => None
  | Some pv_lcoe =>
      let co2e_red :=
        Qmin pv_gen annual_kwh * grid_emissions_kgco2e_per_kwh scen in
      let pv_row :=
        {| Option_label := SolarPV pv_size_kw;
           Category := "generation";
           Capex_USD := Fin pv_capex;
           Annual_Gen_kWh := Fin pv_gen;
           Annual_Savings_USD := Fin annual_savings;
           Simple_Payback_yr := payback;
           LCOE_USD_per_kWh := pv_lcoe;
           CO2e_Reduction_tpy := Fin (co2e_red / 1000);
           Practicality := Fin (8 # 10) |} in
      let eff_capex := (5 # 100) * pv_capex in
      let eff_savings := (8 # 100) * annual_kwh * rate in
      let eff_row :=
        {| Option_label := EfficiencyLED;
           Category := "efficiency";
           Capex_USD := Fin eff_capex;
           Annual_Gen_kWh := Fin 0;
           Annual_Savings_USD := Fin eff_savings;
           Simple_Payback_yr := simple_payback eff_capex eff_savings;
           LCOE_USD_per_kWh := NaN;
           CO2e_Reduction_tpy :=
             Fin ((8 # 100) * annual_kwh
                  * grid_emissions_kgco2e_per_kwh scen / 1000);
           Practicality := Fin (95 # 100) |} in
      let hpwh_rows :=
        if String.eqb (building_type (site scen)) "residential" then
          let hpwh_capex := 2000 in
          let hpwh_kwh_savings := 1200 in
          [ {| Option_label := HeatPumpWaterHeater;
               Category := "utilities";
               Capex_USD := Fin hpwh_capex;
               Annual_Gen_kWh := Fin 0;
               Annual_Savings_USD := Fin (hpwh_kwh_savings * rate);
               Simple_Payback_yr :=
                 simple_payback hpwh_capex (hpwh_kwh_savings * rate);
               LCOE_USD_per_kWh := NaN;
               CO2e_Reduction_tpy :=
                 Fin (hpwh_kwh_savings
                      * grid_emissions_kgco2e_per_kwh scen / 1000);
               Practicality := Fin (9 # 10) |} ]
        else [] in
      let elec_rate := elec_rate_usd_per_kwh scen in
      let grid_ci := grid_emissions_kgco2e_per_kwh scen in
      let gal_per_year := veh_vmt / mpg_gas in
      let cost_gas := gal_per_year * gas_price in
      let co2_gas_kg := gal_per_year * ef_gas in
      let kwh_ev := veh_vmt * kwh_per_mile_bev in
      let cost_ev := kwh_ev * elec_rate in
      let co2_ev_kg := kwh_ev * grid_ci in
      let ev_savings := Qmax 0 (cost_gas - cost_ev) in
      let ev_co2_saved_kg := Qmax 0 (co2_gas_kg - co2_ev_kg) in
      let ev_capex := 10000 in
      let ev_row :=
        {| Option_label := TransportEV;
           Category := "transport";
           Capex_USD := Fin ev_capex;
           Annual_Gen_kWh := Fin 0;
           Annual_Savings_USD := Fin ev_savings;
           Simple_Payback_yr := simple_payback ev_capex ev_savings;
           LCOE_USD_per_kWh := NaN;
           CO2e_Reduction_tpy := Fin (ev_co2_saved_kg / 1000);
           Practicality := Fin (7 # 10) |} in
      let mode_shift_frac := 25 # 100 in
      let vmt_shifted := veh_vmt * mode_shift_frac in
      let gal_saved := vmt_shifted / mpg_gas in
      let cost_saved_mode := gal_saved * gas_price * (8 # 10) in
      let co2_saved_mode_kg := gal_saved * ef_gas in
      let mode_capex := 500 in
      let mode_row :=
        {| Option_label := TransportModeShift;
           Category := "transport";
           Capex_USD := Fin mode_capex;
           Annual_Gen_kWh := Fin 0;
           Annual_Savings_USD := Fin cost_saved_mode;
           Simple_Payback_yr := simple_payback mode_capex cost_saved_mode;
           LCOE_USD_per_kWh := NaN;
           CO2e_Reduction_tpy := Fin (co2_saved_mode_kg / 1000);
           Practicality := Fin (85 # 100) |} in
      Some ([pv_row; eff_row] ++ hpwh_rows ++ [ev_row; mode_row])
  end.

(** The two normalisations of the MCDA step. *)
Definition norm_min (x : series) : series :=
  let m := col_min x in
  map (fun v => fdiv m v) (replace_zero x).

Definition norm_max (x : series) : series :=
  let mn := col_min x in
  let mx := col_max x in
  map (fun v => fdiv (fsub v mn) (fadd (fsub mx mn) (Fin Tools.eps))) x.

(** The fixed weights [w]. *)
Definition w_Simple_Payback_yr : Q := 30 # 100.
Definition w_Annual_Savings_USD : Q := 25 # 100.
Definition w_CO2e_Reduction_tpy : Q := 25 # 100.
Definition w_Practicality : Q := 20 # 100.

Definition mcda (sp ss sc spr : fnum) : fnum :=
  fadd (fadd (fadd (fmul (Fin w_Simple_Payback_yr) sp)
                   (fmul (Fin w_Annual_Savings_USD) ss))
             (fmul (Fin w_CO2e_Reduction_tpy) sc))
       (fmul (Fin w_Practicality) spr).

(** Attach the score columns to the rows, position by position. *)
Fixpoint attach_scores (df : list option_row) (sp ss sc spr : series)
  : list scored_row :=
  match df, sp, ss, sc, spr with
  | r :: df', a :: sp', b :: ss', c :: sc', d :: spr' =>
      {| option_cols := r; score_payback := a; score_savings := b;
         score_co2e := c; score_practicality := d;
         MCDA_Score_0to1 := mcda a b c d |}
        :: attach_scores df' sp' ss' sc' spr'
  | _, _, _, _, _ => []
  end.

(** The MCDA step on a frame of option rows, up to (not including) the
    final sort. *)
Definition mcda_frame (df : list option_row) : list scored_row :=
  let payback := map Simple_Payback_yr df in
  let sp := norm_min (fillna (col_max payback) payback) in
  let ss := norm_max (fillna (Fin 0) (map Annual_Savings_USD df)) in
  let sc := norm_max (fillna (Fin 0) (map CO2e_Reduction_tpy df)) in
  let spr := norm_max (fillna (Fin 0) (map Practicality df)) in
  attach_scores df sp ss sc spr.

(** [Recommender.score_options]; [None] when building the rows raises. *)
Definition score_options (srt : sorter) (scen : ScenarioInput)
  : option (list scored_row) :=
  match option_rows scen with
  | None => None
  | Some rows => Some (sort_values_desc srt MCDA_Score_0to1 (mcda_frame rows))
  end.

(** ** Row-wise view of the MCDA step *)

Definition norm_min1 (x : series) (v : fnum) : fnum :=
  fdiv (col_min x) (if feqb v (Fin 0) then NaN else v).

Definition norm_max1 (x : series) (v : fnum) : fnum :=
  fdiv (fsub v (col_min x))
       (fadd (fsub (col_max x) (col_min x)) (Fin Tools.eps)).

(** The columns that the MCDA step normalises. *)
Definition payback_col (df : list option_row) : series :=
  map (fun r => fillna1 (col_max (map Simple_Payback_yr df))
                        (Simple_Payback_yr r)) df.
Definition savings_col (df : list option_row) : series :=
  map (fun r => fillna1 (Fin 0) (Annual_Savings_USD r)) df.
Definition co2e_col (df : list option_row) : series :=
  map (fun r => fillna1 (Fin 0) (CO2e_Reduction_tpy r)) df.
Definition practicality_col (df : list option_row) : series :=
  map (fun r => fillna1 (Fin 0) (Practicality r)) df.

(** The scored row that [mcda_frame] builds from a row of the frame. *)
Definition score_row (df : list option_row) (r : option_row) : scored_row :=
  let sp := norm_min1 (payback_col df)
              (fillna1 (col_max (map Simple_Payback_yr df))
                       (Simple_Payback_yr r)) in
  let ss := norm_max1 (savings_col df) (fillna1 (Fin 0) (Annual_Savings_USD r)) in
  let sc := norm_max1 (co2e_col df) (fillna1 (Fin 0) (CO2e_Reduction_tpy r)) in
  let spr := norm_max1 (practicality_col df) (fillna1 (Fin 0) (Practicality r)) in
  {| option_cols := r; score_payback := sp; score_savings := ss;
     score_co2e := sc; score_practicality := spr;
     MCDA_Score_0to1 := mcda sp ss sc spr |}.

(** What every row built by [score_options] satisfies: finite metrics,
    a positive capital cost and a payback computed by [simple_payback]. *)
Definition row_ok (r : option_row) : Prop :=
  exists c s e p,
    Capex_USD r = Fin c /\ 0 < c /\
    Annual_Savings_USD r = Fin s /\
    CO2e_Reduction_tpy r = Fin e /\
    Practicality r = Fin p /\
    Simple_Payback_yr r = simple_payback c s.

Definition frame_ok (df : list option_row) : Prop :=
  (forall r, In r df -> row_ok r) /\
  exists r q, In r df /\ Simple_Payback_yr r = Fin q.

End Recommender.

(* ================================================================== *)
(** * feature_transition_generation.py *)

Module Transition.
Import Num Pandas Models.

(** What [_pv_kwh_year] sees of the NREL client: whether an API key is
    configured, and the result of
    [pvwatts_ac_annual(lat, lon, system_capacity_kw, tilt_deg, losses_pct)]
    (the other arguments are constants), a finite number when the call
    succeeds. *)
Record nrel_env : Type := mk_nrel_env
  { nrel_available : bool;
    nrel_pvwatts_ac_annual : Q -> Q -> Q -> Q -> Q -> option Q }.

(** The environment of the scenario of section 8: no API key. *)
Definition no_nrel : nrel_env :=
  {| nrel_available := false;
     nrel_pvwatts_ac_annual := fun _ _ _ _ _ => None |}.

(** The classroom rule of thumb at the end of [_pv_kwh_year]. *)
Definition pv_rule_of_thumb (lat lon : option Q)
           (kwdc tilt_deg shading_pct : Q) : Q :=
  let ghi := match lat, lon with
             | Some la, Some lo => DataConnectors.solar_resource_GHI la lo
             | _, _ => 42 # 10
             end in
  let base := 300 * ghi in
  let tilt_factor := 1 - Qmin (1 # 2) (Qabs (tilt_deg - 30) * (1 # 100)) in
  let shading_factor := Qmax 0 (1 - shading_pct / 100) in
  kwdc * base * tilt_factor * shading_factor.

(** [_pv_kwh_year]: the pair [(kwh_per_year, used_pvwatts)].  The
    diagnostic written to the session state is not part of the result. *)
Definition _pv_kwh_year (env : nrel_env) (lat lon : option Q)
           (kwdc tilt_deg shading_pct losses_pct : Q) : Q * bool :=
  let fallback := (pv_rule_of_thumb lat lon kwdc tilt_deg shading_pct, false) in
  match lat, lon with
  | Some la, Some lo =>
      if nrel_available env then
        match nrel_pvwatts_ac_annual env la lo kwdc tilt_deg losses_pct with
        | Some ac_annual => (ac_annual, true)
        | None => fallback
        end
      else fallback
  | _, _ => fallback
  end.

Definition _wind_kwh_year (acres mw_per_km2 cf : Q) : Q :=
  let km2 := acres / (247105 # 1000) in
  let capacity_mw := km2 * mw_per_km2 in
  capacity_mw * 1000 * 8760 * cf.

(** [_goal_weights]: the weights of (savings, CO2, payback). *)
Definition _goal_weights (goal : string) : Q * Q * Q :=
  if String.eqb goal "Lower my bill" then (6 # 10, 2 # 10, 2 # 10)
  else if String.eqb goal "Maximize CO₂ reduction"
       then (3 # 10, 6 # 10, 1 # 10)
       else (4 # 10, 4 # 10, 2 # 10).

(** The [Technology] column; the figures shown in the labels are kept as
    data. *)
Inductive technology : Type :=
| RooftopPV (kw_roof : Q)
| GroundCarportPV (extra_kw : Q)
| CommunitySolar (sub_pct : Q)
| GreenPower (green_pct : Q)
| OnshoreWind (wind_acres : Q).

Definition is_RooftopPV (t : technology) : bool :=
  match t with RooftopPV _ => true | _ => false end.

Record gen_row : Type := mk_gen_row
  { Technology : technology;
    Type_ : string;
    Capex_USD : fnum;
    Annual_kWh : fnum;
    Load_Covered_pct : fnum;
    Annual_Savings_USD : fnum;
    CO2e_Reduction_tpy : fnum;
    Notes : string }.

(** A row of the returned frame. *)
Record ranked_row : Type := mk_ranked
  { gen_cols : gen_row;
    Payback_yr : fnum;
    Score_0to1 : fnum }.

(** The arguments of [_rank_options]. *)
Record rank_args : Type := mk_rank_args
  { category : string;
    scen : ScenarioInput;
    tilt : Q;
    shading : Q;
    roof_area_m2 : option Q;
    wind_acres : option Q;
    goal : string;
    target_load_pct : Q;
    wind_density_mw_km2 : Q;
    wind_cf : Q;
    pv_rooftop_cost_kw : Q;
    pv_ground_cost_kw : Q;
    wind_cost_kw : Q;
    green_premium_usd_per_kwh : Q;
    community_solar_discount_frac : Q;
    pv_losses_pct : Q }.

Definition pv_note (used_pvwatts : bool) : string :=
  if used_pvwatts
  then "Estimated with PVWatts (AC annual) using local weather data."
  else "Estimated with classroom rule-of-thumb yield adjusted for tilt & shading.".

(** [x and x > 0] for an optional number. *)
Definition positive_opt (x : option Q) : option Q :=
  match x with
  | Some v => if Py.ltb 0 v then Some v else None
  | None => None
  end.

Definition in_list (s : string) (l : list string) : bool :=
  existsb (String.eqb s) l.

(** The quantities of the rooftop block of [_rank_options]. *)
Definition annual_kwh_of (a : rank_args) : Q :=
  Py.or_default (annual_electricity_kwh (site (scen a))) 10000.

Definition grid_kg_per_kwh_of (a : rank_args) : Q :=
  Py.or_num (grid_emissions_kgco2e_per_kwh (scen a)) (38 # 100).

Definition kw_roof_of (a : rank_args) : Q :=
  match positive_opt (roof_area_m2 a) with
  | Some area => Qmax 0 (area * (2 # 10))
  | None => Qmax 1 (Py.round1 (annual_kwh_of a / 1400))
  end.

Definition pv_kwh_of (env : nrel_env) (a : rank_args) : Q * bool :=
  _pv_kwh_year env (lat (site (scen a))) (lon (site (scen a)))
               (kw_roof_of a) (tilt a) (shading a) (pv_losses_pct a).

Definition pv_useful_kwh_of (env : nrel_env) (a : rank_args) : Q :=
  Qmin (fst (pv_kwh_of env a)) (annual_kwh_of a * (target_load_pct a / 100)).

Definition rooftop_row (env : nrel_env) (a : rank_args) : gen_row :=
  let annual_kwh := annual_kwh_of a in
  let kw_roof := kw_roof_of a in
  let '(pv_kwh, used_pvwatts) := pv_kwh_of env a in
  let pv_useful_kwh := pv_useful_kwh_of env a in
  let pv_capex := kw_roof * pv_rooftop_cost_kw a in
  let pv_savings := pv_useful_kwh * elec_rate_usd_per_kwh (scen a) in
  let pv_co2_t := pv_useful_kwh * grid_kg_per_kwh_of a / 1000 in
  {| Technology := RooftopPV kw_roof;
     Type_ := "On-site solar";
     Capex_USD := Fin pv_capex;
     Annual_kWh := Fin pv_kwh;
     Load_Covered_pct := Fin (pv_useful_kwh / annual_kwh * 100);
     Annual_Savings_USD := Fin pv_savings;
     CO2e_Reduction_tpy := Fin pv_co2_t;
     Notes := pv_note used_pvwatts |}.

(** The ground / carport block: the rows it appends and whether PVWatts
    was used. *)
Definition ground_rows (env : nrel_env) (a : rank_args)
  : list gen_row * bool :=
  let annual_kwh := annual_kwh_of a in
  let kw_roof := kw_roof_of a in
  if in_list (category a) ["Business"%string; "Community"%string; "City"%string] then
    let extra_kw := Qmax 0 (annual_kwh / 1000 - kw_roof) in
    if Py.ltb 0 extra_kw then
      let '(extra_kwh, used_pvwatts_2) :=
        _pv_kwh_year env (lat (site (scen a))) (lon (site (scen a)))
                     extra_kw (tilt a) (shading a) (pv_losses_pct a) in
      let extra_useful_kwh :=
        Qmin extra_kwh
             (Qmax 0 (annual_kwh * (target_load_pct a / 100)
                      - pv_useful_kwh_of env a)) in
      let extra_capex := extra_kw * pv_ground_cost_kw a in
      let extra_savings := extra_useful_kwh * elec_rate_usd_per_kwh (scen a) in
      let extra_co2_t := extra_useful_kwh * grid_kg_per_kwh_of a / 1000 in
      ([ {| Technology := GroundCarportPV extra_kw;
            Type_ := "On-site solar";
            Capex_USD := Fin extra_capex;
            Annual_kWh := Fin extra_kwh;
            Load_Covered_pct := Fin (extra_useful_kwh / annual_kwh * 100);
            Annual_Savings_USD := Fin extra_savings;
            CO2e_Reduction_tpy := Fin extra_co2_t;
            Notes := pv_note used_pvwatts_2 |} ], used_pvwatts_2)
    else ([], false)
  else ([], false).

Definition community_solar_row (a : rank_args) : gen_row :=
  let annual_kwh := annual_kwh_of a in
  let sub_pct :=
    if in_list (category a) ["Individual"%string; "Business"%string] then 5 # 10
    else if String.eqb (category a) "Community" then 4 # 10
         else 3 # 10 in
  let cs_kwh := annual_kwh * sub_pct in
  let cs_useful_kwh := cs_kwh * (target_load_pct a / 100) in
  let cs_bill_discount :=
    community_solar_discount_frac a * elec_rate_usd_per_kwh (scen a) in
  let cs_savings := cs_useful_kwh * cs_bill_discount in
  let cs_co2_t := cs_useful_kwh * grid_kg_per_kwh_of a / 1000 in
  {| Technology := CommunitySolar sub_pct;
     Type_ := "Off-site solar";
     Capex_USD := Fin 0;
     Annual_kWh := Fin cs_kwh;
     Load_Covered_pct := Fin (cs_useful_kwh / annual_kwh * 100);
     Annual_Savings_USD := Fin cs_savings;
     CO2e_Reduction_tpy := Fin cs_co2_t;
     Notes := "No upfront capex; assumes a bill credit on the subscribed share (e.g., 10% below standard rate)." |}.

Definition green_power_row (a : rank_args) : gen_row :=
  let annual_kwh := annual_kwh_of a in
  let green_pct :=
    if in_list (category a) ["Individual"%string; "Business"%string] then 5 # 10
    else 3 # 10 in
  let green_kwh := annual_kwh * green_pct * (target_load_pct a / 100) in
  let green_premium := green_premium_usd_per_kwh a in
  let green_cost := green_kwh * green_premium in
  let green_co2_t := green_kwh * grid_kg_per_kwh_of a / 1000 in
  {| Technology := GreenPower green_pct;
     Type_ := "Off-site renewable";
     Capex_USD := Fin 0;
     Annual_kWh := Fin green_kwh;
     Load_Covered_pct := Fin (green_kwh / annual_kwh * 100);
     Annual_Savings_USD := Fin (- green_cost);
     CO2e_Reduction_tpy := Fin green_co2_t;
     Notes := "No capex; adds a small premium to your bill but cuts emissions." |}.

Definition wind_rows (a : rank_args) : list gen_row :=
  let annual_kwh := annual_kwh_of a in
  match positive_opt (wind_acres a) with
  | Some acres =>
      let wind_kwh :=
        _wind_kwh_year acres (wind_density_mw_km2 a) (wind_cf a) in
      let wind_useful_kwh :=
        Qmin wind_kwh (annual_kwh * (target_load_pct a / 100)) in
      let approx_kw :=
        if Py.ltb 0 (wind_cf a) then wind_kwh / (8760 * wind_cf a) else 0 in
      let wind_capex := approx_kw * wind_cost_kw a in
      let wind_savings := wind_useful_kwh * elec_rate_usd_per_kwh (scen a) in
      let wind_co2_t := wind_useful_kwh * grid_kg_per_kwh_of a / 1000 in
      [ {| Technology := OnshoreWind acres;
           Type_ := "On-site wind";
           Capex_USD := Fin wind_capex;
           Annual_kWh := Fin wind_kwh;
           Load_Covered_pct := Fin (wind_useful_kwh / annual_kwh * 100);
           Annual_Savings_USD := Fin wind_savings;
           CO2e_Reduction_tpy := Fin wind_co2_t;
           Notes := "Acreage → MW density → kWh. Uses adjustable density & capacity factor above; for real projects use pro-grade wind resource data." |} ]
  | None => []
  end.

(** The [rows] list of [_rank_options], in insertion order. *)
Definition candidate_rows (env : nrel_env) (a : rank_args) : list gen_row :=
  [rooftop_row env a] ++ fst (ground_rows env a)
    ++ [community_solar_row a; green_power_row a] ++ wind_rows a.

Definition pvwatts_used_any_of (env : nrel_env) (a : rank_args) : bool :=
  snd (pv_kwh_of env a) || snd (ground_rows env a).

(** *** Financial metrics and scoring *)

(** [np.where(df.Annual_Savings_USD > 0, df.Capex_USD / df.Annual_Savings_USD, np.inf)]. *)
Definition payback_of (r : gen_row) : fnum :=
  if fltb (Fin 0) (Annual_Savings_USD r)
  then fdiv (Capex_USD r) (Annual_Savings_USD r)
  else PInf.

Definition savings_clipped (df : list gen_row) : series :=
  clip_lower (Fin 0) (map Annual_Savings_USD df).
Definition co2_clipped (df : list gen_row) : series :=
  clip_lower (Fin 0) (map CO2e_Reduction_tpy df).
Definition payback_clean (df : list gen_row) : series :=
  replace_inf_zero (map payback_of df).

Definition max_s (df : list gen_row) : fnum :=
  or_float (col_max (savings_clipped df)) (Fin 1).
Definition max_c (df : list gen_row) : fnum :=
  or_float (col_max (co2_clipped df)) (Fin 1).
Definition min_p (df : list gen_row) : fnum :=
  if negb (isna_all (payback_clean df)) then col_min (payback_clean df)
  else NaN.

Definition norm_s (df : list gen_row) : series :=
  map (fun v => fdiv v (max_s df)) (savings_clipped df).
Definition norm_c (df : list gen_row) : series :=
  map (fun v => fdiv v (max_c df)) (co2_clipped df).
Definition norm_p (df : list gen_row) : series :=
  map (fun v => if negb (isna v)
                then clip1 (Fin 0) (Fin 1) (fdiv (min_p df) v)
                else Fin 0)
      (payback_clean df).

Definition weighted (w : Q * Q * Q) (s c p : fnum) : fnum :=
  let '(w_s, w_c, w_p) := w in
  fadd (fadd (fmul (Fin w_s) s) (fmul (Fin w_c) c)) (fmul (Fin w_p) p).

Fixpoint score_col (w : Q * Q * Q) (s c p : series) : series :=
  match s, c, p with
  | a :: s', b :: c', d :: p' => weighted w a b d :: score_col w s' c' p'
  | _, _, _ => []
  end.

Fixpoint attach_rank (df : list gen_row) (pay score : series)
  : list ranked_row :=
  match df, pay, score with
  | r :: df', a :: pay', b :: score' =>
      {| gen_cols := r; Payback_yr := a; Score_0to1 := b |}
        :: attach_rank df' pay' score'
  | _, _, _ => []
  end.

(** The metric and scoring step on a frame of candidate rows, up to (not
    including) the final sort. *)
Definition rank_frame (goal : string) (df : list gen_row)
  : list ranked_row :=
  let score :=
    score_col (_goal_weights goal) (norm_s df) (norm_c df) (norm_p df) in
  attach_rank df (map payback_of df) (fillna (Fin 0) score).

(** [_rank_options]: the ranked frame and [pvwatts_used_any]. *)
Definition _rank_options (srt : sorter) (env : nrel_env) (a : rank_args)
  : list ranked_row * bool :=
  (sort_values_desc srt Score_0to1
     (rank_frame (goal a) (candidate_rows env a)),
   pvwatts_used_any_of env a).

(** ** Row-wise view of the scoring step *)

Definition clean1 (v : fnum) : fnum :=
  if feqb v PInf || feqb v (Fin 0) then NaN else v.

(** A "higher is better" metric [p], clipped at zero and divided by the
    column maximum (or by 1 when that maximum is zero). *)
Definition normalised (p : gen_row -> fnum) (df : list gen_row)
           (r : gen_row) : fnum :=
  fdiv (clip_lower1 (Fin 0) (p r))
       (or_float (col_max (clip_lower (Fin 0) (map p df))) (Fin 1)).

Definition norm_p1 (df : list gen_row) (r : gen_row) : fnum :=
  if negb (isna (clean1 (payback_of r)))
  then clip1 (Fin 0) (Fin 1) (fdiv (min_p df) (clean1 (payback_of r)))
  else Fin 0.

Definition rank_row (goal : string) (df : list gen_row) (r : gen_row)
  : ranked_row :=
  {| gen_cols := r;
     Payback_yr := payback_of r;
     Score_0to1 :=
       fillna1 (Fin 0)
         (weighted (_goal_weights goal)
            (normalised Annual_Savings_USD df r)
            (normalised CO2e_Reduction_tpy df r)
            (norm_p1 df r)) |}.

(** Rows whose three metrics are finite numbers. *)
Definition gen_fin (r : gen_row) : Prop :=
  exists c s e,
    Capex_USD r = Fin c /\ Annual_Savings_USD r = Fin s /\
    CO2e_Reduction_tpy r = Fin e.

End Transition.

(* ================================================================== *)
(** * eia_client.py and nrel_client.py: fallible remote look-ups *)

Module Remote.
Import Num.

(** Parsed JSON, as [resp.json()] returns it. *)
#[local] Set Warnings "-register-all".
Inductive json : Type :=
| JNull
| JBool (b : bool)
| JNum (q : Q)
| JStr (s : string)
| JArr (items : list json)
| JObj (fields : list (string * json)).

(** The result of a Python call: a value, or an exception that reaches
    the caller. *)
Inductive outcome (A : Type) : Type :=
| Returned (a : A)
| Raised (exn : string).
Arguments Returned {A} a.
Arguments Raised {A} exn.

(** What [requests.get] can yield: an exception (connection error,
    timeout), or a response with a status code whose [json()] either
    parses ([Some]) or raises ([None]). *)
Inductive http_result : Type :=
| RequestFailed (msg : string)
| Response (status_code : Z) (body : option json).

(** A request: the URL and the query parameters. *)
Definition request : Type := string * list (string * string).

(** Library behaviour that the clients rely on and that is not modelled
    further: the string parsers behind [int()] and [float()], [str()] of
    a JSON value and of a number, and the [DataFrame] constructor on
    data that is not a list of objects. *)
Record py_lib : Type := mk_py_lib
  { int_of_str : string -> option Z;
    float_of_str : string -> option fnum;
    str_of_json : json -> string;
    str_of_int : Z -> string;
    DataFrame_irregular : json -> option (list (list (string * json))) }.

Definition cat (a b : string) : string := String.append a b.

Fixpoint dict_get (k : string) (fields : list (string * json))
  : option json :=
  match fields with
  | [] => None
  | (k', v) :: rest => if String.eqb k k' then Some v else dict_get k rest
  end.

(** [bool(x)] on a JSON value. *)
Definition truthy (j : json) : bool :=
  match j with
  | JNull => false
  | JBool b => b
  | JNum q => negb (Qeq_bool q 0)
  | JStr s => negb (String.eqb s "")
  | JArr l => match l with [] => false | _ => true end
  | JObj f => match f with [] => false | _ => true end
  end.

(** [bool(api_key)]. *)
Definition key_available (api_key : option string) : bool :=
  match api_key with
  | Some k => negb (String.eqb k "")
  | None => false
  end.

(** [resp.raise_for_status()] raises on 4xx and 5xx. *)
Definition is_http_error (status : Z) : bool :=
  ((400 <=? status) && (status <? 600))%Z.

(** [int(v)]; [None] stands for [TypeError] / [ValueError]. *)
Definition py_int (lib : py_lib) (v : json) : option Z :=
  match v with
  | JNum q => Some (Z.quot (Qnum q) (Zpos (Qden q)))
  | JBool b => Some (if b then 1 else 0)%Z
  | JStr s => int_of_str lib s
  | _ => None
  end.

(** [float(v)]; [None] stands for [TypeError] / [ValueError]. *)
Definition py_float (lib : py_lib) (v : json) : option fnum :=
  match v with
  | JNum q => Some (Fin q)
  | JBool b => Some (Fin (if b then 1 else 0))
  | JStr s => float_of_str lib s
  | _ => None
  end.

(** ** EIA *)

Record EIA : Type := mk_EIA
  { api_key : option string;
    last_error : option string;
    last_url : option string }.

Definition base_v2 : string := "https://api.eia.gov/v2".

Definition available (self : EIA) : bool := key_available (api_key self).

Fixpoint lstrip_slash (s : string) : string :=
  match s with
  | String c rest => if Ascii.eqb c "/"%char then lstrip_slash rest else s
  | EmptyString => s
  end.

Definition _normalize_v2_payload (payload : json) : json :=
  match payload with
  | JObj fields =>
      match dict_get "response" fields with
      | Some (JObj inner) => JObj inner
      | _ => payload
      end
  | _ => payload
  end.

Definition set_error (self : EIA) (msg : string) : EIA :=
  {| api_key := api_key self; last_error := Some msg;
     last_url := last_url self |}.

(** The [try] block of [_get_v2]: [inl msg] is an early [return None]
    with that diagnostic, [inr raw] the parsed body, and [Raised] an
    exception for the [except] clause. *)
Definition get_v2_try (r : http_result) : outcome (string + json) :=
  match r with
  | RequestFailed msg => Raised msg
  | Response status body =>
      if (status =? 403)%Z then
        Returned (inl "EIA returned 403 Forbidden. This usually means your API key is invalid, not activated for API v2, or has been revoked. Copy the URL below into a browser; if it still fails, log in at eia.gov/opendata and check the key status."%string)
      else if is_http_error status then Raised "HTTPError"
      else match body with
           | Some raw => Returned (inr raw)
           | None => Raised "JSONDecodeError"
           end
  end.

(** [int(data.get("total", 0))] under its own [try]; any exception
    gives 0. *)
Definition total_of (lib : py_lib) (data : json) : Z :=
  match data with
  | JObj fields =>
      match dict_get "total" fields with
      | Some v => match py_int lib v with Some n => n | None => 0%Z end
      | None => 0%Z
      end
  | _ => 0%Z
  end.

(** [not data.get("data")], evaluated only when [data] is a dict. *)
Definition data_missing (data : json) : bool :=
  match data with
  | JObj fields =>
      match dict_get "data" fields with
      | Some v => negb (truthy v)
      | None => true
      end
  | _ => true
  end.

Definition _get_v2 (lib : py_lib) (http : request -> http_result)
           (self : EIA) (path : string) (params : list (string * string))
  : EIA * outcome (option json) :=
  let self0 := {| api_key := api_key self; last_error := None;
                  last_url := None |} in
  if negb (available self0) then
    (set_error self0
       "No EIA_API_KEY configured (in secrets.toml or environment).",
     Returned None)
  else
    let url := cat base_v2 (cat "/" (lstrip_slash path)) in
    let params :=
      params ++ [("api_key"%string,
                   match api_key self0 with Some k => k | None => ""%string end)] in
    let self1 := {| api_key := api_key self0; last_error := None;
                    last_url := Some url |} in
    match get_v2_try (http (url, params)) with
    | Raised e =>
        (set_error self1 (cat "Exception calling EIA v2: " e), Returned None)
    | Returned (inl msg) => (set_error self1 msg, Returned None)
    | Returned (inr raw) =>
        let data := _normalize_v2_payload raw in
        let total := total_of lib data in
        if (total =? 0)%Z || data_missing data then
          (set_error self1 "No records returned from EIA for this selection.",
           Returned None)
        else (self1, Returned (Some data))
    end.

(** The frame built by [fetch_retail_price]: the rows as received and,
    when there is a [price] column, the two derived columns. *)
Record price_frame : Type := mk_price_frame
  { records : list (list (string * json));
    price_cents_per_kwh : option (list fnum);
    price_usd_per_kwh : option (list fnum);
    request_url : option string }.

(** [pd.DataFrame(rows)] for the [data] member of a payload. *)
Fixpoint rows_of_objects (items : list json)
  : option (list (list (string * json))) :=
  match items with
  | [] => Some []
  | JObj f :: rest =>
      match rows_of_objects rest with
      | Some rs => Some (f :: rs)
      | None => None
      end
  | _ :: _ => None
  end.

Definition DataFrame (lib : py_lib) (rows : json)
  : outcome (list (list (string * json))) :=
  let irregular :=
    match DataFrame_irregular lib rows with
    | Some rs => Returned rs
    | None => Raised "ValueError"
    end in
  match rows with
  | JArr items =>
      match rows_of_objects items with
      | Some rs => Returned rs
      | None => irregular
      end
  | _ => irregular
  end.

Definition has_column (col : string) (rs : list (list (string * json)))
  : bool :=
  existsb (fun r => match dict_get col r with Some _ => true | None => false end)
          rs.

(** [df["price"].astype(float)]: a missing or null cell is NaN, a cell
    that [float()] rejects raises: [TypeError] for a JSON object,
    [ValueError] otherwise. *)
Fixpoint astype_float (lib : py_lib) (col : string)
         (rs : list (list (string * json))) : outcome (list fnum) :=
  match rs with
  | [] => Returned []
  | r :: rest =>
      let cell :=
        match dict_get col r with
        | None | Some JNull => Some NaN
        | Some v => py_float lib v
        end in
      match cell with
      | None =>
          match dict_get col r with
          | Some (JObj _) => Raised "TypeError"
          | _ => Raised "ValueError"
          end
      | Some x =>
          match astype_float lib col rest with
          | Returned xs => Returned (x :: xs)
          | Raised e => Raised e
          end
      end
  end.

Fixpoint upper (s : string) : string :=
  match s with
  | EmptyString => EmptyString
  | String c rest =>
      let n := Ascii.nat_of_ascii c in
      String (if (97 <=? n)%nat && (n <=? 122)%nat
              then Ascii.ascii_of_nat (n - 32) else c)
             (upper rest)
  end.

Fixpoint lower (s : string) : string :=
  match s with
  | EmptyString => EmptyString
  | String c rest =>
      let n := Ascii.nat_of_ascii c in
      String (if (65 <=? n)%nat && (n <=? 90)%nat
              then Ascii.ascii_of_nat (n + 32) else c)
             (lower rest)
  end.

Definition sector_map : list (string * string) :=
  [ ("total", "ALL"); ("all", "ALL"); ("ALL", "ALL");
    ("residential", "RES"); ("RES", "RES");
    ("commercial", "COM"); ("COM", "COM");
    ("industrial", "IND"); ("IND", "IND");
    ("transportation", "TRA"); ("TRA", "TRA");
    ("other", "OTH"); ("OTH", "OTH") ]%string.

Fixpoint assoc (k : string) (m : list (string * string)) : option string :=
  match m with
  | [] => None
  | (k', v) :: rest => if String.eqb k k' then Some v else assoc k rest
  end.

Definition fetch_retail_price (lib : py_lib) (http : request -> http_result)
           (self : EIA) (year : Z) (state sector : string)
  : EIA * outcome (option price_frame) :=
  let sectorid := match assoc sector sector_map with
                  | Some v => v
                  | None => sector
                  end in
  let params :=
    [ ("frequency", "annual"); ("data[0]", "price");
      ("facets[stateid][]", upper state);
      ("facets[sectorid][]", sectorid);
      ("start", str_of_int lib year); ("end", str_of_int lib year);
      ("sort[0][column]", "period"); ("sort[0][direction]", "desc") ]%string in
  match _get_v2 lib http self "electricity/retail-sales/data" params with
  | (self', Raised e) => (self', Raised e)
  | (self', Returned None) => (self', Returned None)
  | (self', Returned (Some raw)) =>
      let fields := match raw with JObj f => f | _ => [] end in
      let rows := match dict_get "data" fields with
                  | Some v => v
                  | None => JArr []
                  end in
      match DataFrame lib rows with
      | Raised e => (self', Raised e)
      | Returned rs =>
          let url :=
            match dict_get "requestUrl" fields with
            | Some v => if truthy v then Some (str_of_json lib v)
                        else last_url self'
            | None => last_url self'
            end in
          if has_column "price" rs then
            match astype_float lib "price" rs with
            | Raised e => (self', Raised e)
            | Returned cents =>
                (self',
                 Returned (Some
                   {| records := rs;
                      price_cents_per_kwh := Some cents;
                      price_usd_per_kwh :=
                        Some (map (fun c => fdiv c (Fin 100)) cents);
                      request_url := url |}))
            end
          else
            (self',
             Returned (Some {| records := rs;
                               price_cents_per_kwh := None;
                               price_usd_per_kwh := None;
                               request_url := url |}))
      end
  end.

Definition fetch_series (lib : py_lib) (http : request -> http_result)
           (self : EIA) (year : Z) (state fuel series sector frequency : string)
  : EIA * outcome (option price_frame) :=
  let fuel := lower fuel in
  let series := lower series in
  if String.eqb fuel "electricity" && String.eqb series "price" then
    fetch_retail_price lib http self year state sector
  else
    (set_error self
       (cat "fetch_series is only implemented for fuel='electricity', series='price'. Requested fuel='"
            (cat fuel (cat "', series='" (cat series (cat "', sector='"
            (cat sector (cat "', frequency='" (cat frequency "'.")))))))),
     Returned None).

(** ** NREL PVWatts *)

Record NRELClient : Type := mk_NREL
  { nrel_api_key : option string;
    nrel_last_error : option string }.

Definition BASE_URL : string :=
  "https://developer.nrel.gov/api/pvwatts/v8.json".

Definition nrel_available (self : NRELClient) : bool :=
  key_available (nrel_api_key self).

(** ["; ".join(errors)]; [None] stands for the [TypeError] raised when
    an item is not a string. *)
Fixpoint join_errors (items : list json) : option string :=
  match items with
  | [] => Some ""%string
  | [JStr s] => Some s
  | JStr s :: rest =>
      match join_errors rest with
      | Some t => Some (cat s (cat "; " t))
      | None => None
      end
  | _ => None
  end.

(** The [try] block of [pvwatts_ac_annual]: [inl msg] is a
    [return None] with that diagnostic, [inr v] the returned value. *)
Definition pvwatts_try (lib : py_lib) (r : http_result)
  : outcome (string + fnum) :=
  match r with
  | RequestFailed msg => Raised msg
  | Response status body =>
      if is_http_error status then Raised "HTTPError"
      else match body with
           | None => Raised "JSONDecodeError"
           | Some (JObj data) =>
               let get k := match dict_get k data with
                            | Some v => v
                            | None => JNull
                            end in
               let errors := if truthy (get "errors"%string)
                             then get "errors"%string
                             else get "error"%string in
               if truthy errors then
                 match errors with
                 | JArr items =>
                     match join_errors items with
                     | Some msg => Returned (inl msg)
                     | None => Raised "TypeError"
                     end
                 | _ => Returned (inl (str_of_json lib errors))
                 end
               else
                 match dict_get "outputs" data with
                 | Some (JObj outputs) =>
                     match dict_get "ac_annual" outputs with
                     | None | Some JNull =>
                         Returned (inl "PVWatts response missing 'outputs.ac_annual'."%string)
                     | Some v =>
                         match py_float lib v with
                         | Some x => Returned (inr x)
                         | None => Raised "ValueError"
                         end
                     end
                 | None =>
                     Returned (inl "PVWatts response missing 'outputs.ac_annual'."%string)
                 | Some _ => Raised "AttributeError"
                 end
           | Some _ => Raised "AttributeError"
           end
  end.

Definition pvwatts_ac_annual (lib : py_lib) (http : request -> http_result)
           (self : NRELClient) (params : list (string * string))
  : NRELClient * outcome (option fnum) :=
  let self0 := {| nrel_api_key := nrel_api_key self;
                  nrel_last_error := None |} in
  if negb (nrel_available self0) then
    ({| nrel_api_key := nrel_api_key self0;
        nrel_last_error :=
          Some "No NREL_API_KEY found in secrets or environment."%string |},
     Returned None)
  else
    match pvwatts_try lib (http (BASE_URL, params)) with
    | Returned (inr x) => (self0, Returned (Some x))
    | Returned (inl msg) =>
        ({| nrel_api_key := nrel_api_key self0;
            nrel_last_error := Some msg |}, Returned None)
    | Raised e =>
        ({| nrel_api_key := nrel_api_key self0;
            nrel_last_error := Some (cat "Exception calling PVWatts: " e) |},
         Returned None)
    end.

End Remote.

(* ================================================================== *)
(** * tools.py: the closed-form formulas *)

Module Formulas.

(** Divisions are Python float divisions: [None] stands for
    [ZeroDivisionError]. *)
Definition pv_area_for_avg_power (p_avg_kw eta G_year_kwh_m2_day : Q)
  : option Q :=
  Recommender.py_div (p_avg_kw * 24) (eta * G_year_kwh_m2_day).

Definition capacity_factor (monthly_kwh ac_kw : Q) (days_in_month : Z)
  : option Q :=
  Recommender.py_div monthly_kwh (ac_kw * 24 * inject_Z days_in_month).

Definition panel_efficiency (p_w area_m2 insolation_w_m2 : Q) : option Q :=
  Recommender.py_div p_w (insolation_w_m2 * area_m2).

Definition carbon_intensity_from_fc_hhv (fc_mass_frac HHV_MJ_per_kg : Q)
  : option Q :=
  Recommender.py_div (fc_mass_frac * (44 / 12)) HHV_MJ_per_kg.

Definition carbon_intensity_from_formula (nC nH : Z) (HHV_MJ_per_kg : Q)
  : option Q :=
  let mC := inject_Z nC * 12 in
  let mH := inject_Z nH * 1 in
  match Recommender.py_div mC (mC + mH) with
  | Some fc => carbon_intensity_from_fc_hhv fc HHV_MJ_per_kg
  | None => None
  end.

Definition wind_region_potential (area_km2 mw_per_km2 cf : Q) : Q :=
  let capacity_mw := area_km2 * mw_per_km2 in
  let annual_mwh := capacity_mw * 8760 * cf in
  annual_mwh / 1000000.

Definition biomass_poplar_land_for_power
           (net_eff cf plant_mw HHV_kJ_per_kg yield_Mg_per_ha_yr : Q)
  : option Q :=
  let annual_elec_MJ := plant_mw * 1000000 * 8760 * cf * (36 # 10) in
  match Recommender.py_div annual_elec_MJ net_eff with
  | None => None
  | Some biomass_MJ_needed =>
      match Recommender.py_div (biomass_MJ_needed * 1000000) HHV_kJ_per_kg with
      | None => None
      | Some kg_needed =>
          Recommender.py_div (kg_needed / 1000) yield_Mg_per_ha_yr
      end
  end.

Definition trucks_per_day (kg_per_year kg_per_truck : Q) : option Q :=
  match Recommender.py_div kg_per_year kg_per_truck with
  | Some t => Some (t / 365)
  | None => None
  end.

(** Every hour of the day lies in a block, and the price of the first
    block that contains it is between [lo] and [hi]. *)
Definition covers_every_hour (blocks : list Tools.tariff_block) (lo hi : Q)
  : Prop :=
  forall x : Q, 0 <= x -> x < 24 ->
    exists b, Tools.first_match x blocks = Some b /\
              lo <= snd b /\ snd b <= hi.

(** The two time-of-use plans of the transport page (app.py). *)
Definition planA : list Tools.tariff_block :=
  [ ((7, 11)%Z, 14 # 100); ((11, 19)%Z, 25 # 100);
    ((19, 24)%Z, 14 # 100); ((0, 7)%Z, 14 # 100) ].

Definition planB : list Tools.tariff_block :=
  [ ((23, 24)%Z, 14 # 100); ((0, 7)%Z, 14 # 100); ((7, 15)%Z, 18 # 100);
    ((15, 19)%Z, 26 # 100); ((19, 23)%Z, 18 # 100) ].

End Formulas.

(* ================================================================== *)
(** * feature_calculations.py: helpers of the calculations page *)

Module Calculations.
Import Num.

(** [_crf]: the capital recovery factor, with its guard for a rate of
    zero or less; [None] stands for [ZeroDivisionError]. *)
Definition _crf (rate : Q) (years : Z) : option Q :=
  if Py.leb rate 0 then Recommender.py_div 1 (inject_Z years)
  else
    match Recommender.py_pow (1 + rate) years with
    | None => None
    | Some p =>
        let num := rate * p in
        let den := p - 1 in
        Recommender.py_div num den
    end.

(** [_optional]: the empty string counts as no value. *)
Definition _optional (val : option string) : option string :=
  match val with
  | Some s => if String.eqb s "" then None else Some s
  | None => None
  end.

(** The result of a helper that reports through [st.error]: the value
    returned and the message shown, if any. *)
Definition reported (A : Type) : Type := option A * option string.

(** [_safe_float]; [float_of_str] is the parser behind [float()]. *)
Definition _safe_float (float_of_str : string -> option fnum)
           (label : string) (val : option string) : reported fnum :=
  match val with
  | None => (None, None)
  | Some s =>
      if String.eqb s "" then (None, None)
      else match float_of_str s with
           | Some x => (Some x, None)
           | None =>
               (None, Some (String.append label ": please enter a number."))
           end
  end.

(** [int(x)] on a float: truncation; NaN raises [ValueError] and an
    infinity raises [OverflowError]. *)
Inductive int_result : Type :=
| IntValue (n : Z)
| IntValueError
| IntOverflowError.

Definition int_of_float (x : fnum) : int_result :=
  match x with
  | Fin q => IntValue (Z.quot (Qnum q) (Zpos (Qden q)))
  | NaN => IntValueError
  | PInf | NInf => IntOverflowError
  end.

(** [_safe_int]: [int(float(val))] under [except ValueError]; an
    [OverflowError] is not caught and reaches the caller. *)
Definition _safe_int (float_of_str : string -> option fnum)
           (label : string) (val : option string)
  : Remote.outcome (reported Z) :=
  match val with
  | None => Remote.Returned (None, None)
  | Some s =>
      if String.eqb s "" then Remote.Returned (None, None)
      else
        let failed :=
          Remote.Returned
            (None, Some (String.append label ": please enter an integer.")) in
        match float_of_str s with
        | None => failed
        | Some x =>
            match int_of_float x with
            | IntValue n => Remote.Returned (Some n, None)
            | IntValueError => failed
            | IntOverflowError => Remote.Raised "OverflowError"
            end
        end
  end.

End Calculations.

(* ================================================================== *)
(** * Views on the candidate rows of [_rank_options] *)

Module Views.
Import Num Models.

(** The kind of technology of a row, without the figures of its label. *)
Inductive tech_kind : Type :=
| KRooftop | KGround | KCommunity | KGreen | KWind.

Definition kind_of (t : Transition.technology) : tech_kind :=
  match t with
  | Transition.RooftopPV _ => KRooftop
  | Transition.GroundCarportPV _ => KGround
  | Transition.CommunitySolar _ => KCommunity
  | Transition.GreenPower _ => KGreen
  | Transition.OnshoreWind _ => KWind
  end.

(** The guards of the two optional blocks. *)
Definition ground_applies (a : Transition.rank_args) : bool :=
  Transition.in_list (Transition.category a)
    ["Business"%string; "Community"%string; "City"%string]
  && Py.ltb 0 (Qmax 0 (Transition.annual_kwh_of a / 1000
                       - Transition.kw_roof_of a)).

Definition wind_applies (a : Transition.rank_args) : bool :=
  match Transition.positive_opt (Transition.wind_acres a) with
  | Some _ => true
  | None => false
  end.

(** The sum of a column of finite numbers (NaN and infinities count as
    0). *)
Definition fin_value (x : fnum) : Q :=
  match x with Fin q => q | _ => 0 end.

End Views.

(** ** The NREL client as the page builds it *)

Module Page.
Import Num Pandas Models.

(** [NRELClient()] with no argument, as [_pv_kwh_year] builds it: the
    constructor reads [st.secrets] and then the process environment.
    [None] stands for the exception that reading [st.secrets] raises
    when the application has no secrets file, [Some env] for the client
    that the constructor otherwise returns. *)
Definition client : Type := option Transition.nrel_env.

(** [_pv_kwh_year] together with the construction of the client, which
    happens only when both coordinates are given and is outside any
    [try]; [None]: the call raises. *)
Definition _pv_kwh_year (c : client) (lat lon : option Q)
           (kwdc tilt_deg shading_pct losses_pct : Q) : option (Q * bool) :=
  match lat, lon with
  | Some _, Some _ =>
      match c with
      | Some env =>
          Some (Transition._pv_kwh_year env lat lon kwdc tilt_deg shading_pct
                  losses_pct)
      | None => None
      end
  | _, _ =>
      Some (Transition._pv_kwh_year Transition.no_nrel lat lon kwdc tilt_deg
              shading_pct losses_pct)
  end.

(** [_rank_options] likewise: its first step is the rooftop call of
    [_pv_kwh_year] with the coordinates of the site. *)
Definition _rank_options (srt : sorter) (c : client) (a : Transition.rank_args)
  : option (list Transition.ranked_row * bool) :=
  match lat (site (Transition.scen a)), lon (site (Transition.scen a)) with
  | Some _, Some _ =>
      match c with
      | Some env => Some (Transition._rank_options srt env a)
      | None => None
      end
  | _, _ => Some (Transition._rank_options srt Transition.no_nrel a)
  end.

End Page.

(* ================================================================== *)
(** * conversions.py *)

Module Conversions.

(** The [UNITS] table: the size of each unit in its base unit. *)
Definition UNITS : list (string * Q) :=
  [ ("J", 1); ("kJ", 1000); ("MJ", 1000000); ("GJ", 1000000000);
    ("Wh", 3600); ("kWh", 3600000); ("MWh", 3600000000);
    ("GWh", 3600000000000);
    ("Btu", 105505585262 # 100000000);
    ("MMBtu", 105505585262 # 100);
    ("cal", 4184 # 1000); ("kcal", 4184);
    ("hp", 745699872 # 1000000);
    ("W", 1); ("kW", 1000); ("MW", 1000000); ("GW", 1000000000);
    ("acre", 40468564224 # 10000000); ("hectare", 10000) ]%string.

(** [UNITS[u]], [None] when [u not in UNITS]. *)
Fixpoint lookup (u : string) (table : list (string * Q)) : option Q :=
  match table with
  | [] => None
  | (k, v) :: rest => if String.eqb u k then Some v else lookup u rest
  end.

(** [convert_value]; [None] stands for [ValueError("Unit not supported")]. *)
Definition convert_value (value : Q) (from_unit to_unit : string)
  : option Q :=
  match lookup from_unit UNITS, lookup to_unit UNITS with
  | Some f, Some t => Some (value * (f / t))
  | _, _ => None
  end.

End Conversions.

(** ** conversions.py in binary64 *)

Module Conversions64.
Import PrimFloat Binary64.
#[local] Set Warnings "-inexact-float".

(** The [UNITS] table with its binary64 values. *)
Definition UNITS : list (string * float) :=
  [ ("J", 1.0%float); ("kJ", 1e3%float); ("MJ", 1e6%float);
    ("GJ", 1e9%float);
    ("Wh", 3600.0%float); ("kWh", 3.6e6%float); ("MWh", 3.6e9%float);
    ("GWh", 3.6e12%float);
    ("Btu", 1055.05585262%float);
    ("MMBtu", 1.05505585262e9%float);
    ("cal", 4.184%float); ("kcal", 4184.0%float);
    ("hp", 745.699872%float);
    ("W", 1.0%float); ("kW", 1e3%float); ("MW", 1e6%float);
    ("GW", 1e9%float);
    ("acre", 4046.8564224%float); ("hectare", 10000.0%float) ]%string.

Fixpoint lookup (u : string) (table : list (string * float)) : option float :=
  match table with
  | [] => None
  | (k, v) :: rest => if String.eqb u k then Some v else lookup u rest
  end.

Inductive result : Type :=
| Value (x : float)
| ValueError
| ZeroDivisionError.

(** [convert_value]: [value * (UNITS[from_unit] / UNITS[to_unit])]. *)
Definition convert_value (value : float) (from_unit to_unit : string)
  : result :=
  match lookup from_unit UNITS, lookup to_unit UNITS with
  | Some f, Some t =>
      if PrimFloat.eqb t zero then ZeroDivisionError
      else Value (PrimFloat.mul value (PrimFloat.div f t))
  | _, _ => ValueError
  end.

(** The value [x] is within [2^-53] of 1. *)
Definition near_one (x : float) : bool :=
  match to_Q x with
  | Some q => Py.leb (Qabs (q - 1)) (1 # 9007199254740992)
  | None => false
  end.

(** For table entries [f] and [t]: no division by zero, and 1.0 converted
    forth and back stays within [2^-53] of 1. *)
Definition round_trip_ok (f t : float) : bool :=
  negb (PrimFloat.eqb f zero) && negb (PrimFloat.eqb t zero)
  && near_one (PrimFloat.mul (PrimFloat.mul one (PrimFloat.div f t))
                             (PrimFloat.div t f)).

End Conversions64.

(* ================================================================== *)
(** * nrel_client.py: the full PVWatts result *)

Module RemoteMore.
Import Num Remote.

(** The [try] block of [pvwatts_full]: [inl msg] is a [return None] with
    that diagnostic, [inr outputs] the returned [outputs] value. *)
Definition pvwatts_full_try (lib : py_lib) (r : http_result)
  : outcome (string + json) :=
  match r with
  | RequestFailed msg => Raised msg
  | Response status body =>
      if is_http_error status then Raised "HTTPError"
      else match body with
           | None => Raised "JSONDecodeError"
           | Some (JObj data) =>
               let get k := match dict_get k data with
                            | Some v => v
                            | None => JNull
                            end in
               let errors := if truthy (get "errors"%string)
                             then get "errors"%string
                             else get "error"%string in
               if truthy errors then
                 match errors with
                 | JArr items =>
                     match join_errors items with
                     | Some msg => Returned (inl msg)
                     | None => Raised "TypeError"
                     end
                 | _ => Returned (inl (str_of_json lib errors))
                 end
               else
                 let outputs := get "outputs"%string in
                 if truthy outputs then Returned (inr outputs)
                 else Returned (inl "PVWatts response missing 'outputs'."%string)
           | Some _ => Raised "AttributeError"
           end
  end.

Definition pvwatts_full (lib : py_lib) (http : request -> http_result)
           (self : NRELClient) (params : list (string * string))
  : NRELClient * outcome (option json) :=
  let self0 := {| nrel_api_key := nrel_api_key self;
                  nrel_last_error := None |} in
  if negb (nrel_available self0) then
    ({| nrel_api_key := nrel_api_key self0;
        nrel_last_error :=
          Some "No NREL_API_KEY found in secrets or environment."%string |},
     Returned None)
  else
    match pvwatts_full_try lib (http (BASE_URL, params)) with
    | Returned (inr outputs) => (self0, Returned (Some outputs))
    | Returned (inl msg) =>
        ({| nrel_api_key := nrel_api_key self0;
            nrel_last_error := Some msg |}, Returned None)
    | Raised e =>
        ({| nrel_api_key := nrel_api_key self0;
            nrel_last_error := Some (cat "Exception calling PVWatts: " e) |},
         Returned None)
    end.

(** The query of [fetch_retail_price]. *)
Definition retail_params (lib : py_lib) (year : Z) (state sector : string)
  : list (string * string) :=
  let sectorid := match assoc sector sector_map with
                  | Some v => v
                  | None => sector
                  end in
  [ ("frequency", "annual"); ("data[0]", "price");
    ("facets[stateid][]", upper state);
    ("facets[sectorid][]", sectorid);
    ("start", str_of_int lib year); ("end", str_of_int lib year);
    ("sort[0][column]", "period"); ("sort[0][direction]", "desc") ]%string.

(** Records whose [price] cell is absent, null, a number or a boolean. *)
Definition numeric_price (r : list (string * json)) : bool :=
  match dict_get "price" r with
  | None | Some JNull | Some (JNum _) | Some (JBool _) => true
  | Some _ => false
  end.

End RemoteMore.

(* ================================================================== *)
(** * Worked scenarios *)

Module Examples.
Import Num Pandas Models.

(** The site of the end-to-end scenario: 10,000 kWh per year, no
    coordinates. *)
Definition site_10000 : Site :=
  {| country := "USA"; state := None; county := None; city := None;
     zipcode := None; lat := None; lon := None;
     building_type := "residential"; floor_area_m2 := None;
     annual_electricity_kwh := Some 10000; annual_gas_therms := None |}.

(** 0.18 USD/kWh and the default grid intensity 0.38 kg/kWh. *)
Definition scenario_10000 : ScenarioInput :=
  default_ScenarioInput site_10000 (18 # 100) (12 # 10).

(** The same site as a commercial building. *)
Definition site_commercial : Site :=
  {| country := "USA"; state := None; county := None; city := None;
     zipcode := None; lat := None; lon := None;
     building_type := "commercial"; floor_area_m2 := None;
     annual_electricity_kwh := Some 10000; annual_gas_therms := None |}.

Definition scenario_commercial : ScenarioInput :=
  default_ScenarioInput site_commercial (18 # 100) (12 # 10).

(** The 10,000 kWh scenario with a discount rate of zero. *)
Definition scenario_zero_discount : ScenarioInput :=
  {| site := site_10000;
     elec_rate_usd_per_kwh := 18 # 100;
     gas_rate_usd_per_therm := 12 # 10;
     demand_charge_usd_per_kw := 0;
     discount_rate := 0;
     analysis_years := 25;
     grid_emissions_kgco2e_per_kwh := 38 # 100 |}.

(** The page defaults of the generation page: tilt 27 degrees, shading
    8 %, target coverage 80 %, goal "Balanced". *)
Definition rank_args_10000 : Transition.rank_args :=
  {| Transition.category := "Individual";
     Transition.scen := scenario_10000;
     Transition.tilt := 27;
     Transition.shading := 8;
     Transition.roof_area_m2 := None;
     Transition.wind_acres := None;
     Transition.goal := "Balanced";
     Transition.target_load_pct := 80;
     Transition.wind_density_mw_km2 := 425 # 100;
     Transition.wind_cf := 40 # 100;
     Transition.pv_rooftop_cost_kw := 1800;
     Transition.pv_ground_cost_kw := 1500;
     Transition.wind_cost_kw := 1500;
     Transition.green_premium_usd_per_kwh := 1 # 100;
     Transition.community_solar_discount_frac := 10 # 100;
     Transition.pv_losses_pct := 14 |}.

(** The same arguments with no community-solar discount: the community
    solar and green power rows then get the same score. *)
Definition rank_args_tie : Transition.rank_args :=
  {| Transition.category := "Individual";
     Transition.scen := scenario_10000;
     Transition.tilt := 27;
     Transition.shading := 8;
     Transition.roof_area_m2 := None;
     Transition.wind_acres := None;
     Transition.goal := "Balanced";
     Transition.target_load_pct := 80;
     Transition.wind_density_mw_km2 := 425 # 100;
     Transition.wind_cf := 40 # 100;
     Transition.pv_rooftop_cost_kw := 1800;
     Transition.pv_ground_cost_kw := 1500;
     Transition.wind_cost_kw := 1500;
     Transition.green_premium_usd_per_kwh := 1 # 100;
     Transition.community_solar_discount_frac := 0;
     Transition.pv_losses_pct := 14 |}.


(** Two candidate rows without savings and without CO2 reduction. *)
Definition idle_gen_row (capex : Q) : Transition.gen_row :=
  {| Transition.Technology := Transition.CommunitySolar (5 # 10);
     Transition.Type_ := "Off-site solar";
     Transition.Capex_USD := Fin capex;
     Transition.Annual_kWh := Fin 0;
     Transition.Load_Covered_pct := Fin 0;
     Transition.Annual_Savings_USD := Fin 0;
     Transition.CO2e_Reduction_tpy := Fin 0;
     Transition.Notes := "" |}.

Definition idle_gen_frame : list Transition.gen_row :=
  [ idle_gen_row 100; idle_gen_row 0 ].

(** *** Remote look-ups *)

(** A minimal stand-in for the library parsers: unsigned decimal
    integers only. *)
Fixpoint digits_value (s : string) (acc : Z) : option Z :=
  match s with
  | EmptyString => Some acc
  | String c rest =>
      let n := Z.of_nat (Ascii.nat_of_ascii c) in
      if ((48 <=? n) && (n <=? 57))%Z
      then digits_value rest (acc * 10 + (n - 48))%Z
      else None
  end.

Definition parse_digits (s : string) : option Z :=
  match s with
  | EmptyString => None
  | _ => digits_value s 0%Z
  end.

Definition digits_lib : Remote.py_lib :=
  {| Remote.int_of_str := parse_digits;
     Remote.float_of_str :=
       fun s => option_map (fun z => Fin (inject_Z z)) (parse_digits s);
     Remote.str_of_json := fun _ => "<json>"%string;
     Remote.str_of_int := fun _ => "2024"%string;
     Remote.DataFrame_irregular := fun _ => None |}.

Definition eia_client : Remote.EIA :=
  {| Remote.api_key := Some "KEY"%string;
     Remote.last_error := None;
     Remote.last_url := None |}.

(** A well-formed EIA v2 answer (HTTP 200) whose single record carries a
    price that is not a number. *)
Definition not_available_payload : Remote.json :=
  Remote.JObj
    [ ("response"%string,
       Remote.JObj
         [ ("total"%string, Remote.JNum 1);
           ("data"%string,
            Remote.JArr
              [ Remote.JObj
                  [ ("period"%string, Remote.JStr "2024");
                    ("stateid"%string, Remote.JStr "MI");
                    ("price"%string, Remote.JStr "Not Available") ] ]) ]) ].

Definition not_available_http (_ : Remote.request) : Remote.http_result :=
  Remote.Response 200 (Some not_available_payload).

End Examples.

(* ================================================================== *)
(** * Statements of the specification that are put to the test *)

Module Stated.
Import Num Pandas Models.

(** "Each higher-is-better column is normalised by dividing each entry
    by the column maximum", read on the savings score of
    [score_options]. *)
Definition savings_score_divides_by_max : Prop :=
  forall srt scen tbl,
    sorter_ok srt ->
    Recommender.score_options srt scen = Some tbl ->
    forall r, In r tbl ->
    feq (Recommender.score_savings r)
        (fdiv (Recommender.Annual_Savings_USD (Recommender.option_cols r))
              (col_max
                 (map (fun r' => Recommender.Annual_Savings_USD
                                   (Recommender.option_cols r')) tbl))).

(** The figures of the end-to-end scenario for the rooftop row:
    about 8,230 kWh/yr after tilt and shading, 8,000 kWh useful,
    1,440 USD saved and 3.04 t CO2 avoided per year. *)
Definition rooftop_scenario_figures (r : Transition.ranked_row) : Prop :=
  exists kwh,
    Transition.Annual_kWh (Transition.gen_cols r) = Fin kwh /\
    8229 <= kwh /\ kwh <= 8231 /\
    feq (Transition.Load_Covered_pct (Transition.gen_cols r)) (Fin 80) /\
    feq (Transition.Annual_Savings_USD (Transition.gen_cols r)) (Fin 1440) /\
    feq (Transition.CO2e_Reduction_tpy (Transition.gen_cols r))
        (Fin (304 # 100)).

End Stated.

Module Stated64.

(** "Returns a total cost equal to 30 x 0.14", read with Python's [==] on
    the value that the loop returns for the inputs of the example. *)
Definition offpeak_cost_is_30_times_price : Prop :=
  exists fuel c,
    Tools64.ev_tou_cost fuel Tools64.example_kwh 22 Tools64.example_charger_kw
      Tools64.offpeak_blocks = Tools64.Returned c /\
    PrimFloat.eqb c Tools64.example_expected = true.

End Stated64.

(* ================================================================== *)
(** * Further scenarios *)

Module FurtherExamples.

(** A business site with 100 acres of land for wind, the other inputs
    at the page defaults. *)
Definition rank_args_wind : Transition.rank_args :=
  {| Transition.category := "Business";
     Transition.scen := Examples.scenario_10000;
     Transition.tilt := 27;
     Transition.shading := 8;
     Transition.roof_area_m2 := None;
     Transition.wind_acres := Some 100;
     Transition.goal := "Balanced";
     Transition.target_load_pct := 80;
     Transition.wind_density_mw_km2 := 425 # 100;
     Transition.wind_cf := 40 # 100;
     Transition.pv_rooftop_cost_kw := 1800;
     Transition.pv_ground_cost_kw := 1500;
     Transition.wind_cost_kw := 1500;
     Transition.green_premium_usd_per_kwh := 1 # 100;
     Transition.community_solar_discount_frac := 10 # 100;
     Transition.pv_losses_pct := 14 |}.

Definition nrel_client : Remote.NRELClient :=
  {| Remote.nrel_api_key := Some "KEY"%string;
     Remote.nrel_last_error := Some "stale"%string |}.

(** A PVWatts answer (HTTP 200) with an annual AC yield of 8,000 kWh. *)
Definition pvwatts_payload : Remote.json :=
  Remote.JObj
    [ ("inputs"%string, Remote.JObj [ ("tilt"%string, Remote.JStr "27") ]);
      ("errors"%string, Remote.JArr []);
      ("outputs"%string,
       Remote.JObj
         [ ("ac_annual"%string, Remote.JNum 8000);
           ("capacity_factor"%string, Remote.JNum (13 # 1)) ]) ].

Definition pvwatts_http (_ : Remote.request) : Remote.http_result :=
  Remote.Response 200 (Some pvwatts_payload).

(** An EIA v2 answer (HTTP 200) with two records: a price of 18.25
    cents/kWh, and a record whose price is null. *)
Definition priced_payload : Remote.json :=
  Remote.JObj
    [ ("response"%string,
       Remote.JObj
         [ ("total"%string, Remote.JNum 2);
           ("data"%string,
            Remote.JArr
              [ Remote.JObj
                  [ ("period"%string, Remote.JStr "2024");
                    ("stateid"%string, Remote.JStr "MI");
                    ("price"%string, Remote.JNum (1825 # 100)) ];
                Remote.JObj
                  [ ("period"%string, Remote.JStr "2024");
                    ("stateid"%string, Remote.JStr "OH");
                    ("price"%string, Remote.JNull) ] ]) ]) ].

Definition priced_http (_ : Remote.request) : Remote.http_result :=
  Remote.Response 200 (Some priced_payload).

End FurtherExamples.

(* ================================================================== *)
(** * Properties *)

(** ** Scalar helpers *)

Lemma ltb_lt a b : Py.ltb a b = true <-> a < b.
Proof.
  unfold Py.ltb. rewrite Qlt_alt. destruct (a ?= b); split; congruence.
Qed.

Lemma ltb_ge a b : Py.ltb a b = false <-> b <= a.
Proof.
  unfold Py.ltb. destruct (a ?= b) eqn:E; split; intro H; try congruence.
  - apply Qeq_alt in E. rewrite E. apply Qle_refl.
  - apply Qlt_alt in E. exfalso. apply (Qlt_irrefl a).
    eapply Qlt_le_trans; eauto.
  - apply Qgt_alt in E. apply Qlt_le_weak. exact E.
Qed.

Lemma leb_le a b : Py.leb a b = true <-> a <= b.
Proof.
  unfold Py.leb. rewrite Qle_alt. destruct (a ?= b); split; congruence.
Qed.

Lemma fmod_range x m : 0 < m -> 0 <= Py.fmod x m /\ Py.fmod x m < m.
Proof.
  intros Hm. unfold Py.fmod.
  pose proof (Qfloor_le (x / m)) as Hlo.
  pose proof (Qlt_floor (x / m)) as Hhi.
  assert (Hx : x == (x / m) * m) by (field; lra).
  rewrite inject_Z_plus in Hhi. change (inject_Z 1) with 1 in Hhi.
  set (f := inject_Z (Qfloor (x / m))) in *.
  split.
  - assert (f * m <= (x / m) * m) by (apply Qmult_le_compat_r; lra). lra.
  - assert ((x / m) * m < (f + 1) * m) by (apply Qmult_lt_compat_r; lra). lra.
Qed.

(** ** tools.py: the EV charging loop *)

Import Tools.

Lemma ev_step_unmatched kw blocks st :
  first_match (Py.fmod (h st) 24) blocks = None ->
  ev_step kw blocks st =
    {| cost := cost st; h := h st + step_h; remaining := remaining st |}.
Proof. intros H. unfold ev_step. rewrite H. reflexivity. Qed.

Lemma ev_loop_idle_forever kw blocks :
  covers_no_hour blocks ->
  forall fuel st, eps < remaining st -> ev_loop fuel kw blocks st = None.
Proof.
  intros Hcov. induction fuel as [|n IH]; intros st Hrem; simpl;
    rewrite (proj2 (ltb_lt _ _) Hrem); [reflexivity|].
  apply IH. rewrite ev_step_unmatched; [exact Hrem|].
  destruct (fmod_range (h st) 24) as [Hlo Hhi]; [reflexivity|].
  apply Hcov; assumption.
Qed.

Lemma covers_no_hour_nil : covers_no_hour [].
Proof. intros x _ _. reflexivity. Qed.

(** The binary64 loop: a run that returned keeps its result under any
    larger bound on the iterations. *)
Lemma ev_loop64_more_fuel kw blocks c :
  forall fuel st,
    Tools64.ev_loop fuel kw blocks st = Tools64.Returned c ->
    forall extra,
      Tools64.ev_loop (extra + fuel) kw blocks st = Tools64.Returned c.
Proof.
  induction fuel as [|n IH]; intros st H extra.
  - simpl in H. destruct extra as [|k]; simpl.
    + exact H.
    + destruct (PrimFloat.ltb Tools64.eps (Tools64.remaining st));
        [discriminate | exact H].
  - replace (extra + S n)%nat with (S (extra + n)) by lia.
    simpl in H |- *.
    destruct (PrimFloat.ltb Tools64.eps (Tools64.remaining st)); [|exact H].
    destruct (Tools64.ev_step kw blocks st) as [st'|]; [|discriminate].
    apply IH. exact H.
Qed.

Lemma offpeak_cost_18 :
  Tools64.ev_tou_cost 18 Tools64.example_kwh 22 Tools64.example_charger_kw
    Tools64.offpeak_blocks
  = Tools64.Returned Tools64.example_returned.
Proof. vm_compute. reflexivity. Qed.

(** Counterexample to C7 as stated: on the inputs of the example the
    loop returns 4.200000000000001, the binary64 value next above
    30 * 0.14, whatever the bound on the iterations; Python's [==] with
    30 * 0.14 is false. *)
Lemma offpeak_cost_is_not_30_times_price :
  Tools64.ev_tou_cost 18 Tools64.example_kwh 22 Tools64.example_charger_kw
    Tools64.offpeak_blocks
  = Tools64.Returned Tools64.example_returned /\
  PrimFloat.eqb Tools64.example_returned Tools64.example_expected = false /\
  ~ Stated64.offpeak_cost_is_30_times_price.
Proof.
  split; [exact offpeak_cost_18|]. split; [vm_compute; reflexivity|].
  intros (fuel & c & H & E).
  pose proof (ev_loop64_more_fuel _ _ _ _ _ H 18) as H1.
  pose proof (ev_loop64_more_fuel _ _ _ _ _ offpeak_cost_18 fuel) as H2.
  replace (fuel + 18)%nat with (18 + fuel)%nat in H2 by lia.
  rewrite H1 in H2. injection H2 as ->. vm_compute in E. discriminate E.
Qed.

(** C7, amended (tools.py, [ev_tou_cost]).  Charging 30 kWh from 22:00
    with a 7 kW charger under the off-peak tariff 0.14 USD/kWh on 19-24
    and 0-7 runs 18 iterations and returns 4.200000000000001: the binary64
    value next above 30 * 0.14, not equal to it, and within 1.1e-15 of
    4.2. *)
Theorem ev_tou_cost_offpeak_example :
  forall fuel,
    (18 <= fuel)%nat ->
    exists c q,
      Tools64.ev_tou_cost fuel Tools64.example_kwh 22
        Tools64.example_charger_kw Tools64.offpeak_blocks
        = Tools64.Returned c /\
      c = PrimFloat.next_up Tools64.example_expected /\
      PrimFloat.eqb c Tools64.example_expected = false /\
      Binary64.to_Q Tools64.example_expected
        = Some (4728779608739021 # 1125899906842624) /\
      Binary64.to_Q c = Some q /\
      42 # 10 < q /\ q < (42 # 10) + (11 # 10) / 10 ^ 15.
Proof.
  intros fuel Hf.
  exists Tools64.example_returned. eexists.
  split.
  - replace fuel with ((fuel - 18) + 18)%nat by lia.
    apply ev_loop64_more_fuel. exact offpeak_cost_18.
  - split; [vm_compute; reflexivity|].
    split; [vm_compute; reflexivity|].
    split; [vm_compute; reflexivity|].
    split; [vm_compute; reflexivity|].
    split; vm_compute; reflexivity.
Qed.

Lemma ev_tou_cost_offpeak_example_witness :
  exists c,
    Tools64.ev_tou_cost 20 Tools64.example_kwh 22 Tools64.example_charger_kw
      Tools64.offpeak_blocks = Tools64.Returned c /\
    PrimFloat.eqb c Tools64.example_expected = false.
Proof.
  destruct (ev_tou_cost_offpeak_example 20) as (c & q & H & _ & E & _).
  - lia.
  - exists c. split; [exact H | exact E].
Defined.

(** The loop does not stop earlier: 17 iterations are not enough. *)
Lemma ev_tou_cost_offpeak_needs_18 :
  Tools64.ev_tou_cost 17 Tools64.example_kwh 22 Tools64.example_charger_kw
    Tools64.offpeak_blocks = Tools64.Unfinished.
Proof. vm_compute. reflexivity. Qed.

(** Counterexample to C6 as stated: a positive energy need below the loop
    tolerance ([kwh_needed = 1e-10] on a 7 kW charger, so that
    [hours_needed < 1e-9]) with the empty tariff list returns 0 at once. *)
Lemma ev_idle_claim_fails_below_tolerance :
  (0 < 1 # 10000000000) /\ covers_no_hour [] /\
  ev_tou_cost 0 (1 # 10000000000) 22 7 [] = Some 0 /\
  ~ ev_idle_claim.
Proof.
  split; [reflexivity|]. split; [apply covers_no_hour_nil|].
  split; [vm_compute; reflexivity|].
  intros H.
  specialize (H (1 # 10000000000) 22%Z 7 [] eq_refl covers_no_hour_nil 0%nat).
  vm_compute in H. discriminate.
Qed.

(** C6 (tools.py, [ev_tou_cost]), amended.  An iteration whose hour of day
    lies in no tariff block advances the clock by 0.25 h and leaves the
    remaining hours and the accumulated cost unchanged; hence, when the
    tariff list covers no hour of the day and
    [kwh_needed / max(charger_kw, 1e-9) > 1e-9], the loop guard stays true
    after any number of iterations: no bound on the iteration count lets
    [ev_tou_cost] return. *)
Theorem ev_tou_cost_idle_diverges :
  (forall kw blocks st,
      first_match (Py.fmod (h st) 24) blocks = None ->
      h (ev_step kw blocks st) = h st + (1 # 4) /\
      remaining (ev_step kw blocks st) = remaining st /\
      cost (ev_step kw blocks st) = cost st) /\
  (forall kwh_needed start_hour charger_kw blocks,
      covers_no_hour blocks ->
      eps < kwh_needed / Qmax charger_kw eps ->
      forall fuel,
        ev_tou_cost fuel kwh_needed start_hour charger_kw blocks = None).
Proof.
  split.
  - intros kw blocks st H. rewrite (ev_step_unmatched _ _ _ H). simpl. auto.
  - intros kwh sh kw blocks Hcov Hrem fuel. unfold ev_tou_cost.
    rewrite (ev_loop_idle_forever kw blocks Hcov); [reflexivity|exact Hrem].
Qed.

Lemma ev_tou_cost_idle_diverges_witness :
  (first_match (Py.fmod 22 24) [] = None ->
   h (ev_step 7 [] (ev_init 30 22 7)) = h (ev_init 30 22 7) + (1 # 4) /\
   remaining (ev_step 7 [] (ev_init 30 22 7)) = remaining (ev_init 30 22 7) /\
   cost (ev_step 7 [] (ev_init 30 22 7)) = cost (ev_init 30 22 7)) /\
  ev_tou_cost 1000 30 22 7 [] = None.
Proof.
  split.
  - apply (proj1 ev_tou_cost_idle_diverges 7 [] (ev_init 30 22 7)).
  - apply (proj2 ev_tou_cost_idle_diverges 30 22%Z 7 []).
    + apply covers_no_hour_nil.
    + vm_compute. reflexivity.
Defined.

(** ** The order on column values *)

Import Num Pandas.

Lemma leb_refl a : Py.leb a a = true.
Proof. apply leb_le. apply Qle_refl. Qed.

Lemma leb_trans a b c :
  Py.leb a b = true -> Py.leb b c = true -> Py.leb a c = true.
Proof. rewrite !leb_le. apply Qle_trans. Qed.

Lemma fltb_false_fleb a b :
  isna a = false -> isna b = false -> fltb a b = false -> fleb b a = true.
Proof.
  destruct a, b; simpl; try congruence; intros _ _ H.
  apply ltb_ge in H. apply leb_le. exact H.
Qed.

Lemma fltb_true_fleb a b : fltb a b = true -> fleb a b = true.
Proof.
  destruct a, b; simpl; try congruence. intros H.
  apply ltb_lt in H. apply leb_le. apply Qlt_le_weak. exact H.
Qed.

Lemma fleb_refl a : isna a = false -> fleb a a = true.
Proof. destruct a; simpl; try congruence. intros _. apply leb_refl. Qed.

Lemma fleb_trans a b c :
  fleb a b = true -> fleb b c = true -> fleb a c = true.
Proof.
  destruct a, b, c; simpl; try congruence. apply leb_trans.
Qed.

Lemma fleb_notna a b : fleb a b = true -> isna a = false /\ isna b = false.
Proof. destruct a, b; simpl; try congruence; auto. Qed.


(** ** Sorting *)

Section Sorters.
Context {A : Type} (key : A -> fnum).

Lemma insert_desc_perm x l : Permutation (x :: l) (insert_desc key x l).
Proof.
  induction l as [|y l IH]; simpl; [apply Permutation_refl|].
  destruct (fltb (key x) (key y)); [|apply Permutation_refl].
  eapply Permutation_trans; [apply perm_swap|].
  apply perm_skip. exact IH.
Qed.

Lemma insert_desc_In x l z :
  In z (insert_desc key x l) <-> z = x \/ In z l.
Proof.
  split; intros H.
  - apply (Permutation_in _ (Permutation_sym (insert_desc_perm x l))) in H.
    destruct H; auto.
  - apply (Permutation_in _ (insert_desc_perm x l)).
    destruct H; [left; auto | right; auto].
Qed.

Lemma insert_desc_sorted x l :
  isna (key x) = false ->
  (forall r, In r l -> isna (key r) = false) ->
  sorted_desc key l -> sorted_desc key (insert_desc key x l).
Proof.
  intros Hx Hl Hs. induction Hs as [|y l Hs IH Hy]; simpl.
  - constructor; [constructor | constructor].
  - destruct (fltb (key x) (key y)) eqn:E.
    + constructor.
      * apply IH. intros r Hr. apply Hl. right. exact Hr.
      * apply Forall_forall. intros z Hz.
        apply insert_desc_In in Hz. destruct Hz as [->|Hz].
        -- apply fltb_true_fleb. exact E.
        -- rewrite Forall_forall in Hy. apply Hy. exact Hz.
    + assert (Hyx : fleb (key y) (key x) = true).
      { apply fltb_false_fleb; auto. apply Hl. left. reflexivity. }
      constructor.
      * constructor; assumption.
      * constructor; [exact Hyx|].
        apply Forall_forall. intros z Hz.
        rewrite Forall_forall in Hy.
        eapply fleb_trans; [apply Hy; exact Hz | exact Hyx].
Qed.


Lemma insertion_sorter_perm l : Permutation l (insertion_sorter A key l).
Proof.
  unfold insertion_sorter. induction l as [|x l IH]; simpl.
  - apply Permutation_refl.
  - eapply Permutation_trans; [apply perm_skip; exact IH|].
    apply insert_desc_perm.
Qed.

Lemma insertion_sorter_sorted l :
  (forall r, In r l -> isna (key r) = false) ->
  sorted_desc key (insertion_sorter A key l).
Proof.
  unfold insertion_sorter. induction l as [|x l IH]; intros Hl; simpl.
  - constructor.
  - apply insert_desc_sorted.
    + apply Hl. left. reflexivity.
    + intros r Hr. apply Hl. right.
      apply (Permutation_in _ (Permutation_sym (insertion_sorter_perm l))).
      exact Hr.
    + apply IH. intros r Hr. apply Hl. right. exact Hr.
Qed.


Lemma filter_all (p : A -> bool) l :
  (forall r, In r l -> p r = true) -> filter p l = l.
Proof.
  induction l as [|x l IH]; intros H; simpl; [reflexivity|].
  rewrite (H x (or_introl eq_refl)). f_equal. apply IH.
  intros r Hr. apply H. right. exact Hr.
Qed.

Lemma filter_none (p : A -> bool) l :
  (forall r, In r l -> p r = false) -> filter p l = [].
Proof.
  induction l as [|x l IH]; intros H; simpl; [reflexivity|].
  rewrite (H x (or_introl eq_refl)). apply IH.
  intros r Hr. apply H. right. exact Hr.
Qed.

(** Without NaN keys, [sort_values] is the sorter itself. *)
Lemma sort_values_desc_notna srt l :
  (forall r, In r l -> isna (key r) = false) ->
  sort_values_desc srt key l = srt A key l.
Proof.
  intros H. unfold sort_values_desc.
  rewrite filter_all, filter_none; [apply app_nil_r | exact H |].
  intros r Hr. rewrite (H r Hr). reflexivity.
Qed.

Lemma sort_values_desc_perm srt l :
  sorter_ok srt ->
  (forall r, In r l -> isna (key r) = false) ->
  Permutation l (sort_values_desc srt key l).
Proof.
  intros Hok H. rewrite sort_values_desc_notna by exact H.
  apply Hok. exact H.
Qed.

Lemma sort_values_desc_sorted srt l :
  sorter_ok srt ->
  (forall r, In r l -> isna (key r) = false) ->
  sorted_desc key (sort_values_desc srt key l).
Proof.
  intros Hok H. rewrite sort_values_desc_notna by exact H.
  apply Hok. exact H.
Qed.

End Sorters.

Lemma insertion_sorter_ok : sorter_ok insertion_sorter.
Proof.
  intros A key l H. split.
  - apply insertion_sorter_perm.
  - apply insertion_sorter_sorted. exact H.
Qed.





(** ** Column minimum and maximum *)

Lemma min_step_notna acc a :
  isna acc = false -> isna a = false ->
  min_step acc a = if fltb a acc then a else acc.
Proof. intros H1 H2. unfold min_step. rewrite H1, H2. reflexivity. Qed.

Lemma max_step_notna acc a :
  isna acc = false -> isna a = false ->
  max_step acc a = if fltb acc a then a else acc.
Proof. intros H1 H2. unfold max_step. rewrite H1, H2. reflexivity. Qed.

Lemma fold_min_spec x : forall acc,
  isna acc = false -> no_nan x ->
  (fold_left min_step x acc = acc \/ In (fold_left min_step x acc) x) /\
  fleb (fold_left min_step x acc) acc = true /\
  (forall e, In e x -> fleb (fold_left min_step x acc) e = true).
Proof.
  induction x as [|a x IH]; intros acc Hacc Hx; simpl.
  - split; [left; reflexivity|]. split; [apply fleb_refl; exact Hacc|].
    intros e [].
  - assert (Ha : isna a = false) by (apply Hx; left; reflexivity).
    assert (Hx' : no_nan x) by (intros e He; apply Hx; right; exact He).
    rewrite (min_step_notna _ _ Hacc Ha).
    destruct (fltb a acc) eqn:E.
    + destruct (IH a Ha Hx') as (Hin & Hle & Hall).
      split; [destruct Hin as [Hin|Hin]; auto|].
      split.
      * eapply fleb_trans; [exact Hle | apply fltb_true_fleb; exact E].
      * intros e [<-|He]; [exact Hle | apply Hall; exact He].
    + destruct (IH acc Hacc Hx') as (Hin & Hle & Hall).
      split; [destruct Hin as [Hin|Hin]; auto|].
      split; [exact Hle|].
      intros e [<-|He]; [|apply Hall; exact He].
      apply (fleb_trans _ acc); [exact Hle | apply fltb_false_fleb; auto].
Qed.

Lemma fold_max_spec x : forall acc,
  isna acc = false -> no_nan x ->
  (fold_left max_step x acc = acc \/ In (fold_left max_step x acc) x) /\
  fleb acc (fold_left max_step x acc) = true /\
  (forall e, In e x -> fleb e (fold_left max_step x acc) = true).
Proof.
  induction x as [|a x IH]; intros acc Hacc Hx; simpl.
  - split; [left; reflexivity|]. split; [apply fleb_refl; exact Hacc|].
    intros e [].
  - assert (Ha : isna a = false) by (apply Hx; left; reflexivity).
    assert (Hx' : no_nan x) by (intros e He; apply Hx; right; exact He).
    rewrite (max_step_notna _ _ Hacc Ha).
    destruct (fltb acc a) eqn:E.
    + destruct (IH a Ha Hx') as (Hin & Hle & Hall).
      split; [destruct Hin as [Hin|Hin]; auto|].
      split.
      * eapply fleb_trans; [apply fltb_true_fleb; exact E | exact Hle].
      * intros e [<-|He]; [exact Hle | apply Hall; exact He].
    + destruct (IH acc Hacc Hx') as (Hin & Hle & Hall).
      split; [destruct Hin as [Hin|Hin]; auto|].
      split; [exact Hle|].
      intros e [<-|He]; [|apply Hall; exact He].
      apply (fleb_trans _ acc); [apply fltb_false_fleb; auto | exact Hle].
Qed.

(** On a non-empty column without NaN, [min()] is an entry below all
    entries and [max()] an entry above all entries. *)
Lemma col_min_spec x :
  x <> [] -> no_nan x ->
  In (col_min x) x /\ forall e, In e x -> fleb (col_min x) e = true.
Proof.
  destruct x as [|a x]; [congruence|]. intros _ Hx.
  assert (Ha : isna a = false) by (apply Hx; left; reflexivity).
  assert (Hx' : no_nan x) by (intros e He; apply Hx; right; exact He).
  unfold col_min. simpl. replace (min_step NaN a) with a
    by (unfold min_step; rewrite Ha; reflexivity).
  destruct (fold_min_spec x a Ha Hx') as (Hin & Hle & Hall).
  split.
  - destruct Hin as [Hin|Hin]; [left; symmetry; exact Hin | right; exact Hin].
  - intros e [<-|He]; [exact Hle | apply Hall; exact He].
Qed.

Lemma col_max_spec x :
  x <> [] -> no_nan x ->
  In (col_max x) x /\ forall e, In e x -> fleb e (col_max x) = true.
Proof.
  destruct x as [|a x]; [congruence|]. intros _ Hx.
  assert (Ha : isna a = false) by (apply Hx; left; reflexivity).
  assert (Hx' : no_nan x) by (intros e He; apply Hx; right; exact He).
  unfold col_max. simpl. replace (max_step NaN a) with a
    by (unfold max_step; rewrite Ha; reflexivity).
  destruct (fold_max_spec x a Ha Hx') as (Hin & Hle & Hall).
  split.
  - destruct Hin as [Hin|Hin]; [left; symmetry; exact Hin | right; exact Hin].
  - intros e [<-|He]; [exact Hle | apply Hall; exact He].
Qed.

(** NaN entries do not count. *)
Lemma fold_min_skipna x : forall acc,
  fold_left min_step x acc =
  fold_left min_step (filter (fun e => negb (isna e)) x) acc.
Proof.
  induction x as [|a x IH]; intros acc; simpl; [reflexivity|].
  destruct (isna a) eqn:Ha; simpl.
  - replace (min_step acc a) with acc
      by (unfold min_step; rewrite Ha; reflexivity).
    apply IH.
  - apply IH.
Qed.

Lemma col_min_skipna x :
  col_min x = col_min (filter (fun e => negb (isna e)) x).
Proof. apply fold_min_skipna. Qed.

Lemma fillna_no_nan v x : isna v = false -> no_nan (fillna v x).
Proof.
  intros Hv e He. unfold fillna in He. apply in_map_iff in He.
  destruct He as (a & <- & _). destruct (isna a) eqn:E; assumption.
Qed.

Lemma fillna_id v x : no_nan x -> fillna v x = x.
Proof.
  intros H. unfold fillna. induction x as [|a x IH]; simpl; [reflexivity|].
  rewrite (H a (or_introl eq_refl)). f_equal. apply IH.
  intros e He. apply H. right. exact He.
Qed.

Lemma map_neq_nil {A B} (f : A -> B) l : l <> [] -> map f l <> [].
Proof. destruct l; simpl; congruence. Qed.

(** ** Columns of finite values *)

Lemma all_fin_no_nan x : all_fin x -> no_nan x.
Proof. intros H e He. destruct (H e He) as (q & ->). reflexivity. Qed.

Lemma all_fin_min_max x :
  x <> [] -> all_fin x ->
  exists m M,
    col_min x = Fin m /\ col_max x = Fin M /\
    In (Fin m) x /\ In (Fin M) x /\
    forall q, In (Fin q) x -> m <= q /\ q <= M.
Proof.
  intros Hne Hfin.
  destruct (col_min_spec x Hne (all_fin_no_nan x Hfin)) as (Hmi & Hml).
  destruct (col_max_spec x Hne (all_fin_no_nan x Hfin)) as (HMi & HMl).
  destruct (Hfin _ Hmi) as (m & Em). destruct (Hfin _ HMi) as (M & EM).
  exists m, M. rewrite Em in *. rewrite EM in *.
  repeat split; auto.
  - specialize (Hml _ H). simpl in Hml. apply leb_le. exact Hml.
  - specialize (HMl _ H). simpl in HMl. apply leb_le. exact HMl.
Qed.

Lemma fillna_map {A} d (p : A -> fnum) (l : list A) :
  fillna d (map p l) = map (fun r => fillna1 d (p r)) l.
Proof. unfold fillna. rewrite map_map. reflexivity. Qed.

Lemma Qdiv_unit_interval a b :
  0 <= a -> a <= b -> 0 < b -> 0 <= a / b /\ a / b <= 1.
Proof.
  intros Ha Hab Hb. split.
  - apply Qle_shift_div_l; [exact Hb | lra].
  - apply Qle_shift_div_r; [exact Hb | lra].
Qed.

Lemma eps_pos : 0 < Tools.eps.
Proof. reflexivity. Qed.

(** ** recommender.py *)

Module RecommenderFacts.
Import Models Recommender.

Lemma norm_min_map {A} (g : A -> fnum) (l : list A) :
  norm_min (map g l) = map (fun r => norm_min1 (map g l) (g r)) l.
Proof.
  unfold norm_min, replace_zero, norm_min1. rewrite !map_map. reflexivity.
Qed.

Lemma norm_max_map {A} (g : A -> fnum) (l : list A) :
  norm_max (map g l) = map (fun r => norm_max1 (map g l) (g r)) l.
Proof. unfold norm_max, norm_max1. rewrite map_map. reflexivity. Qed.

Lemma attach_scores_map (f1 f2 f3 f4 : option_row -> fnum) df :
  attach_scores df (map f1 df) (map f2 df) (map f3 df) (map f4 df) =
  map (fun r => {| option_cols := r; score_payback := f1 r;
                   score_savings := f2 r; score_co2e := f3 r;
                   score_practicality := f4 r;
                   MCDA_Score_0to1 := mcda (f1 r) (f2 r) (f3 r) (f4 r) |}) df.
Proof. induction df as [|r df IH]; simpl; [reflexivity|]. rewrite IH. reflexivity. Qed.

Lemma mcda_frame_map df : mcda_frame df = map (score_row df) df.
Proof.
  unfold mcda_frame. rewrite !fillna_map.
  rewrite norm_min_map, !norm_max_map, attach_scores_map. reflexivity.
Qed.

Lemma norm_max1_bounds x v :
  all_fin x -> In v x ->
  exists q, norm_max1 x v = Fin q /\ 0 <= q /\ q <= 1.
Proof.
  intros Hfin Hv.
  assert (Hne : x <> []) by (destruct x; [destruct Hv | congruence]).
  destruct (all_fin_min_max x Hne Hfin) as (m & M & Em & EM & _ & _ & Hb).
  destruct (Hfin v Hv) as (q & ->).
  destruct (Hb q Hv) as (Hlo & Hhi).
  pose proof eps_pos as He.
  unfold norm_max1. rewrite Em, EM. simpl.
  destruct (Qeq_bool (M + - m + Tools.eps) 0) eqn:E.
  - exfalso. apply Qeq_bool_eq in E. lra.
  - eexists. split; [reflexivity|].
    apply Qdiv_unit_interval; lra.
Qed.

Lemma pv_capex_pos x : 0 < pv_capex_usd (Qmax 1 x).
Proof.
  unfold pv_capex_usd. pose proof (Q.le_max_l 1 x) as H.
  apply Qlt_le_trans with (1 * 1800); [reflexivity|].
  apply Qmult_le_compat_r; [exact H | discriminate].
Qed.

Ltac solve_row_ok :=
  unfold row_ok; cbn [Capex_USD Annual_Savings_USD CO2e_Reduction_tpy
                      Practicality Simple_Payback_yr];
  eexists _, _, _, _;
  split; [reflexivity|]; split; [|repeat split; reflexivity].

(** The rows are PV, efficiency, the heat pump water heater for a
    residential site, the EV and the mode shift, in this order. *)
Lemma option_rows_shape scen rows :
  option_rows scen = Some rows ->
  exists pv eff hp ev mode,
    rows = [pv; eff]
             ++ (if String.eqb (building_type (site scen)) "residential"
                 then [hp] else [])
             ++ [ev; mode] /\
    (exists kw, Option_label pv = SolarPV kw) /\
    Option_label eff = EfficiencyLED /\
    Option_label hp = HeatPumpWaterHeater /\
    Option_label ev = TransportEV /\
    Option_label mode = TransportModeShift /\
    row_ok pv /\ row_ok eff /\ row_ok hp /\ row_ok ev /\ row_ok mode /\
    exists q, Simple_Payback_yr mode = Fin q.
Proof.
  unfold option_rows. intros H.
  destruct (lcoe _ _ _ _ _) as [pv_lcoe|]; [|discriminate].
  injection H as <-.
  do 2 eexists.
  exists {| Option_label := HeatPumpWaterHeater;
            Category := "utilities";
            Capex_USD := Fin 2000;
            Annual_Gen_kWh := Fin 0;
            Annual_Savings_USD := Fin (1200 * elec_rate_usd_per_kwh scen);
            Simple_Payback_yr :=
              simple_payback 2000 (1200 * elec_rate_usd_per_kwh scen);
            LCOE_USD_per_kWh := NaN;
            CO2e_Reduction_tpy :=
              Fin (1200 * grid_emissions_kgco2e_per_kwh scen / 1000);
            Practicality := Fin (9 # 10) |}.
  do 2 eexists.
  split.
  { destruct (String.eqb (building_type (site scen)) "residential");
      reflexivity. }
  split; [eexists; reflexivity|].
  do 4 (split; [reflexivity|]).
  split; [solve_row_ok; apply pv_capex_pos|].
  split.
  { solve_row_ok.
    pose proof (pv_capex_pos
                  (Py.round1
                     (Py.or_default (annual_electricity_kwh (site scen)) 10000
                      / 1400))) as Hp.
    lra. }
  split; [solve_row_ok; reflexivity|].
  split; [solve_row_ok; reflexivity|].
  split; [solve_row_ok; reflexivity|].
  eexists. vm_compute. reflexivity.
Qed.

Lemma option_rows_frame_ok scen rows :
  option_rows scen = Some rows -> frame_ok rows.
Proof.
  intros H.
  destruct (option_rows_shape scen rows H)
    as (pv & eff & hp & ev & mode & -> & _ & _ & _ & _ & _ &
        Hpv & Heff & Hhp & Hev & Hmode & q & Hq).
  split.
  - intros r Hr.
    destruct (String.eqb (building_type (site scen)) "residential");
      simpl in Hr; intuition (subst; assumption).
  - exists mode, q. split; [|exact Hq].
    apply in_or_app. right. apply in_or_app. right. right. left. reflexivity.
Qed.

Lemma simple_payback_cases c s :
  0 < c ->
  (0 < s /\ simple_payback c s = Fin (c / s) /\ 0 < c / s) \/
  (s <= 0 /\ simple_payback c s = PInf).
Proof.
  intros Hc. unfold simple_payback. destruct (Py.ltb 0 s) eqn:E.
  - apply ltb_lt in E. left. repeat split; auto.
    apply Qlt_shift_div_l; [exact E | lra].
  - apply ltb_ge in E. right. auto.
Qed.

Lemma row_ok_payback r :
  row_ok r ->
  (exists q, Simple_Payback_yr r = Fin q /\ 0 < q) \/
  Simple_Payback_yr r = PInf.
Proof.
  intros (c & s & e & p & _ & Hc & _ & _ & _ & Hp). rewrite Hp.
  destruct (simple_payback_cases c s Hc) as [(_ & -> & H)|(_ & ->)]; eauto.
Qed.

Lemma payback_no_nan df :
  (forall r, In r df -> row_ok r) -> no_nan (map Simple_Payback_yr df).
Proof.
  intros H e He. apply in_map_iff in He. destruct He as (r & <- & Hr).
  destruct (row_ok_payback r (H r Hr)) as [(q & -> & _)| ->]; reflexivity.
Qed.

Lemma payback_col_eq df :
  (forall r, In r df -> row_ok r) ->
  payback_col df = map Simple_Payback_yr df.
Proof.
  intros H. unfold payback_col. apply map_ext_in. intros r Hr.
  unfold fillna1.
  destruct (row_ok_payback r (H r Hr)) as [(q & -> & _)| ->]; reflexivity.
Qed.

(** The smallest payback of a well-formed frame is finite and positive. *)
Lemma payback_min_finite df :
  frame_ok df ->
  exists m, col_min (map Simple_Payback_yr df) = Fin m /\ 0 < m /\
            forall r q, In r df -> Simple_Payback_yr r = Fin q -> m <= q.
Proof.
  intros (Hok & r0 & q0 & Hr0 & Hq0).
  assert (Hne : map Simple_Payback_yr df <> []).
  { apply map_neq_nil. destruct df; [destruct Hr0 | congruence]. }
  destruct (col_min_spec _ Hne (payback_no_nan df Hok)) as (Hin & Hle).
  apply in_map_iff in Hin. destruct Hin as (r1 & E1 & Hr1).
  assert (H0 : fleb (col_min (map Simple_Payback_yr df)) (Fin q0) = true).
  { apply Hle. rewrite <- Hq0. apply in_map. exact Hr0. }
  destruct (row_ok_payback r1 (Hok r1 Hr1)) as [(m & Em & Hm)|Einf].
  - exists m. rewrite <- E1, Em. split; [reflexivity|]. split; [exact Hm|].
    intros r q Hr Hq.
    assert (H1 : fleb (col_min (map Simple_Payback_yr df)) (Fin q) = true).
    { apply Hle. rewrite <- Hq. apply in_map. exact Hr. }
    rewrite <- E1, Em in H1. simpl in H1. apply leb_le. exact H1.
  - rewrite <- E1, Einf in H0. simpl in H0. discriminate.
Qed.

Lemma score_payback_bounds df r :
  frame_ok df -> In r df ->
  exists q, score_payback (score_row df r) = Fin q /\ 0 <= q /\ q <= 1.
Proof.
  intros Hf Hr. pose proof Hf as (Hok & _).
  destruct (payback_min_finite df Hf) as (m & Em & Hm & Hmin).
  unfold score_row. cbn [score_payback]. unfold norm_min1.
  rewrite (payback_col_eq df Hok), Em. unfold fillna1.
  destruct (row_ok_payback r (Hok r Hr)) as [(q & Eq & Hq)|Einf].
  - rewrite Eq. simpl.
    destruct (Qeq_bool q 0) eqn:E0.
    { apply Qeq_bool_eq in E0. lra. }
    simpl. rewrite E0. eexists. split; [reflexivity|].
    apply Qdiv_unit_interval; [lra | | exact Hq].
    apply (Hmin r q Hr Eq).
  - rewrite Einf. simpl. exists 0. split; [reflexivity|]. lra.
Qed.

Lemma metric_col_all_fin df (p : option_row -> fnum) :
  (forall r, In r df -> exists q, p r = Fin q) ->
  all_fin (map (fun r => fillna1 (Fin 0) (p r)) df).
Proof.
  intros H e He. apply in_map_iff in He. destruct He as (r & <- & Hr).
  destruct (H r Hr) as (q & ->). exists q. reflexivity.
Qed.

Lemma score_row_bounds df r :
  frame_ok df -> In r df ->
  exists sp ss sc spr,
    score_payback (score_row df r) = Fin sp /\
    score_savings (score_row df r) = Fin ss /\
    score_co2e (score_row df r) = Fin sc /\
    score_practicality (score_row df r) = Fin spr /\
    (0 <= sp /\ sp <= 1) /\ (0 <= ss /\ ss <= 1) /\
    (0 <= sc /\ sc <= 1) /\ (0 <= spr /\ spr <= 1).
Proof.
  intros Hf Hr. pose proof Hf as (Hok & _).
  destruct (score_payback_bounds df r Hf Hr) as (sp & Esp & Hsp).
  assert (Hs : exists q, score_savings (score_row df r) = Fin q
                         /\ 0 <= q /\ q <= 1).
  { apply norm_max1_bounds.
    - apply metric_col_all_fin. intros r' Hr'.
      destruct (Hok r' Hr') as (c & s & e & p & _ & _ & -> & _). eauto.
    - unfold savings_col.
      apply (in_map (fun r => fillna1 (Fin 0) (Annual_Savings_USD r))).
      exact Hr. }
  assert (Hc : exists q, score_co2e (score_row df r) = Fin q
                         /\ 0 <= q /\ q <= 1).
  { apply norm_max1_bounds.
    - apply metric_col_all_fin. intros r' Hr'.
      destruct (Hok r' Hr') as (c & s & e & p & _ & _ & _ & -> & _). eauto.
    - unfold co2e_col.
      apply (in_map (fun r => fillna1 (Fin 0) (CO2e_Reduction_tpy r))).
      exact Hr. }
  assert (Hp : exists q, score_practicality (score_row df r) = Fin q
                         /\ 0 <= q /\ q <= 1).
  { apply norm_max1_bounds.
    - apply metric_col_all_fin. intros r' Hr'.
      destruct (Hok r' Hr') as (c & s & e & p & _ & _ & _ & _ & -> & _). eauto.
    - unfold practicality_col.
      apply (in_map (fun r => fillna1 (Fin 0) (Practicality r))).
      exact Hr. }
  destruct Hs as (ss & Ess & Hss). destruct Hc as (sc & Esc & Hsc).
  destruct Hp as (spr & Espr & Hspr).
  exists sp, ss, sc, spr. auto 10.
Qed.

(** On a well-formed frame every composite score is a finite number of
    the unit interval. *)
Lemma mcda_score_bounds df r :
  frame_ok df -> In r df ->
  exists q, MCDA_Score_0to1 (score_row df r) = Fin q /\ 0 <= q /\ q <= 1.
Proof.
  intros Hf Hr.
  destruct (score_row_bounds df r Hf Hr)
    as (sp & ss & sc & spr & E1 & E2 & E3 & E4 & H1 & H2 & H3 & H4).
  change (MCDA_Score_0to1 (score_row df r))
    with (mcda (score_payback (score_row df r))
               (score_savings (score_row df r))
               (score_co2e (score_row df r))
               (score_practicality (score_row df r))).
  rewrite E1, E2, E3, E4. unfold mcda. simpl.
  eexists. split; [reflexivity|].
  unfold w_Simple_Payback_yr, w_Annual_Savings_USD, w_CO2e_Reduction_tpy,
    w_Practicality. lra.
Qed.

End RecommenderFacts.

(** ** feature_transition_generation.py *)

Module TransitionFacts.
Import Models Transition.

Lemma norm_s_map df :
  norm_s df = map (normalised Annual_Savings_USD df) df.
Proof.
  unfold norm_s, savings_clipped, clip_lower. rewrite !map_map. reflexivity.
Qed.

Lemma norm_c_map df :
  norm_c df = map (normalised CO2e_Reduction_tpy df) df.
Proof.
  unfold norm_c, co2_clipped, clip_lower. rewrite !map_map. reflexivity.
Qed.

Lemma norm_p_map df : norm_p df = map (norm_p1 df) df.
Proof.
  unfold norm_p, payback_clean, replace_inf_zero. rewrite !map_map.
  reflexivity.
Qed.

Lemma score_col_map w (f1 f2 f3 : gen_row -> fnum) df :
  score_col w (map f1 df) (map f2 df) (map f3 df) =
  map (fun r => weighted w (f1 r) (f2 r) (f3 r)) df.
Proof. induction df as [|r df IH]; simpl; [reflexivity|]. rewrite IH. reflexivity. Qed.

Lemma attach_rank_map (g h : gen_row -> fnum) df :
  attach_rank df (map g df) (map h df) =
  map (fun r => {| gen_cols := r; Payback_yr := g r; Score_0to1 := h r |}) df.
Proof. induction df as [|r df IH]; simpl; [reflexivity|]. rewrite IH. reflexivity. Qed.

Lemma rank_frame_map goal df : rank_frame goal df = map (rank_row goal df) df.
Proof.
  unfold rank_frame.
  rewrite norm_s_map, norm_c_map, norm_p_map, score_col_map, fillna_map,
    attach_rank_map.
  reflexivity.
Qed.

Lemma clip_lower1_fin q :
  exists v, clip_lower1 (Fin 0) (Fin q) = Fin v /\ 0 <= v /\
            v == Qmax q 0.
Proof.
  unfold clip_lower1. simpl. destruct (Py.ltb q 0) eqn:E.
  - apply ltb_lt in E. exists 0. split; [reflexivity|]. split; [lra|].
    rewrite Q.max_r; [reflexivity | lra].
  - apply ltb_ge in E. exists q. split; [reflexivity|]. split; [exact E|].
    rewrite Q.max_l; [reflexivity | exact E].
Qed.

(** The normalised value of a finite metric column. *)
Lemma normalised_spec p df r :
  (forall r', In r' df -> exists q, p r' = Fin q) -> In r df ->
  exists v M,
    clip_lower1 (Fin 0) (p r) = Fin v /\
    col_max (clip_lower (Fin 0) (map p df)) = Fin M /\
    0 <= v /\ v <= M /\
    normalised p df r = Fin (v / (if Qeq_bool M 0 then 1 else M)).
Proof.
  intros Hfin Hr.
  set (x := clip_lower (Fin 0) (map p df)).
  assert (Hx : all_fin x).
  { intros e He. unfold x, clip_lower in He. rewrite map_map in He.
    apply in_map_iff in He. destruct He as (r' & <- & Hr').
    destruct (Hfin r' Hr') as (q & ->).
    destruct (clip_lower1_fin q) as (v & -> & _). eauto. }
  assert (Hne : x <> []).
  { unfold x, clip_lower. do 2 apply map_neq_nil.
    destruct df; [destruct Hr | congruence]. }
  destruct (all_fin_min_max x Hne Hx) as (m & M & _ & EM & _ & _ & Hb).
  destruct (Hfin r Hr) as (q & Eq).
  destruct (clip_lower1_fin q) as (v & Ev & Hv & _).
  assert (Hin : In (Fin v) x).
  { unfold x, clip_lower. rewrite map_map. rewrite <- Ev, <- Eq.
    apply (in_map (fun r => clip_lower1 (Fin 0) (p r))). exact Hr. }
  exists v, M. rewrite Eq, Ev. fold x. rewrite EM.
  split; [reflexivity|]. split; [reflexivity|]. split; [exact Hv|].
  split; [apply (Hb v Hin)|].
  unfold normalised. fold x. rewrite Eq, Ev, EM. unfold or_float. simpl.
  destruct (Qeq_bool M 0) eqn:E; simpl; [reflexivity|].
  rewrite E. reflexivity.
Qed.

Lemma normalised_bounds p df r :
  (forall r', In r' df -> exists q, p r' = Fin q) -> In r df ->
  exists q, normalised p df r = Fin q /\ 0 <= q /\ q <= 1.
Proof.
  intros Hfin Hr.
  destruct (normalised_spec p df r Hfin Hr) as (v & M & _ & _ & Hv & HM & ->).
  eexists. split; [reflexivity|].
  destruct (Qeq_bool M 0) eqn:E.
  - apply Qeq_bool_eq in E. apply Qdiv_unit_interval; lra.
  - apply Qeq_bool_neq in E. apply Qdiv_unit_interval; lra.
Qed.

Lemma clip1_unit q :
  exists q', clip1 (Fin 0) (Fin 1) (Fin q) = Fin q' /\ 0 <= q' /\ q' <= 1.
Proof.
  unfold clip1, clip_lower1. simpl. destruct (Py.ltb q 0) eqn:E; simpl.
  - exists 0. split; [reflexivity | lra].
  - apply ltb_ge in E. destruct (Py.ltb 1 q) eqn:E1.
    + exists 1. split; [reflexivity | lra].
    + apply ltb_ge in E1. exists q. auto.
Qed.

Lemma payback_of_fin r c s :
  Capex_USD r = Fin c -> Annual_Savings_USD r = Fin s ->
  payback_of r = if Py.ltb 0 s then Fin (c / s) else PInf.
Proof.
  intros Hc Hs. unfold payback_of. rewrite Hc, Hs. simpl.
  destruct (Py.ltb 0 s) eqn:E; [|reflexivity].
  apply ltb_lt in E. destruct (Qeq_bool s 0) eqn:E0; [|reflexivity].
  apply Qeq_bool_eq in E0. lra.
Qed.

Lemma clean1_cases r :
  gen_fin r ->
  clean1 (payback_of r) = NaN \/
  exists q, clean1 (payback_of r) = Fin q /\ ~ q == 0.
Proof.
  intros (c & s & e & Hc & Hs & _). rewrite (payback_of_fin r c s Hc Hs).
  destruct (Py.ltb 0 s); [|left; reflexivity].
  unfold clean1. simpl. destruct (Qeq_bool (c / s) 0) eqn:E.
  - left. reflexivity.
  - right. eexists. split; [reflexivity|]. apply Qeq_bool_neq. exact E.
Qed.

Lemma min_p_finite df r q :
  (forall r', In r' df -> gen_fin r') -> In r df ->
  clean1 (payback_of r) = Fin q ->
  exists m, min_p df = Fin m.
Proof.
  intros Hfin Hr Hq. unfold min_p.
  assert (Hin : In (Fin q) (payback_clean df)).
  { unfold payback_clean, replace_inf_zero. rewrite map_map.
    rewrite <- Hq. apply (in_map (fun r => clean1 (payback_of r))). exact Hr. }
  destruct (isna_all (payback_clean df)) eqn:E.
  { unfold isna_all in E. rewrite forallb_forall in E.
    specialize (E _ Hin). discriminate. }
  simpl. rewrite col_min_skipna.
  set (y := filter (fun e => negb (isna e)) (payback_clean df)).
  assert (Hy : all_fin y).
  { intros e He. unfold y in He. apply filter_In in He.
    destruct He as (He & Hn). unfold payback_clean, replace_inf_zero in He.
    rewrite map_map in He. apply in_map_iff in He.
    destruct He as (r' & <- & Hr').
    destruct (clean1_cases r' (Hfin r' Hr')) as [E'|(q' & E' & _)];
      fold (clean1 (payback_of r')) in *; rewrite E' in *;
      [discriminate | eauto]. }
  assert (Hne : y <> []).
  { intros E0. assert (In (Fin q) y) by (apply filter_In; auto).
    rewrite E0 in H. destruct H. }
  destruct (all_fin_min_max y Hne Hy) as (m & _ & Em & _). eauto.
Qed.

Lemma norm_p1_bounds df r :
  (forall r', In r' df -> gen_fin r') -> In r df ->
  exists q, norm_p1 df r = Fin q /\ 0 <= q /\ q <= 1.
Proof.
  intros Hfin Hr. unfold norm_p1.
  destruct (clean1_cases r (Hfin r Hr)) as [E|(q & E & Hq)]; rewrite E; simpl.
  - exists 0. split; [reflexivity | lra].
  - destruct (min_p_finite df r q Hfin Hr E) as (m & ->). simpl.
    destruct (Qeq_bool q 0) eqn:E0.
    { apply Qeq_bool_eq in E0. contradiction. }
    apply clip1_unit.
Qed.

Lemma goal_weights_cases goal :
  _goal_weights goal = (6 # 10, 2 # 10, 2 # 10) \/
  _goal_weights goal = (3 # 10, 6 # 10, 1 # 10) \/
  _goal_weights goal = (4 # 10, 4 # 10, 2 # 10).
Proof.
  unfold _goal_weights.
  destruct (String.eqb goal "Lower my bill"); auto.
  destruct (String.eqb goal _); auto.
Qed.

(** On a frame of finite metrics every score is a finite number of the
    unit interval. *)
Lemma rank_score_bounds goal df r :
  (forall r', In r' df -> gen_fin r') -> In r df ->
  exists q, Score_0to1 (rank_row goal df r) = Fin q /\ 0 <= q /\ q <= 1.
Proof.
  intros Hfin Hr.
  destruct (normalised_bounds Annual_Savings_USD df r) as (s & Es & Hs);
    [intros r' Hr'; destruct (Hfin r' Hr') as (c & s & e & _ & -> & _); eauto
    | exact Hr |].
  destruct (normalised_bounds CO2e_Reduction_tpy df r) as (c & Ec & Hc);
    [intros r' Hr'; destruct (Hfin r' Hr') as (c & s' & e & _ & _ & ->); eauto
    | exact Hr |].
  destruct (norm_p1_bounds df r Hfin Hr) as (p & Ep & Hp).
  unfold rank_row. cbn [Score_0to1]. rewrite Es, Ec, Ep.
  destruct (goal_weights_cases goal) as [-> | [-> | ->]]; simpl;
    (eexists; split; [reflexivity | lra]).
Qed.

Ltac solve_gen_fin :=
  unfold gen_fin; cbn [Capex_USD Annual_Savings_USD CO2e_Reduction_tpy];
  eexists _, _, _; repeat split; reflexivity.

(** Every candidate row has finite capital cost, savings and CO2. *)
Lemma candidate_rows_fin env a r :
  In r (candidate_rows env a) -> gen_fin r.
Proof.
  unfold candidate_rows. intros H.
  apply in_app_or in H. destruct H as [H|H].
  { destruct H as [<-|[]]. unfold rooftop_row.
    destruct (pv_kwh_of env a) as (pv_kwh, used). solve_gen_fin. }
  apply in_app_or in H. destruct H as [H|H].
  { unfold ground_rows in H.
    destruct (in_list (category a) _); [|destruct H].
    destruct (Py.ltb 0 _); [|destruct H].
    destruct (_pv_kwh_year _ _ _ _ _ _ _) as (extra_kwh, used).
    destruct H as [<-|[]]. solve_gen_fin. }
  apply in_app_or in H. destruct H as [H|H].
  { destruct H as [<-|[<-|[]]].
    - unfold community_solar_row. solve_gen_fin.
    - unfold green_power_row. solve_gen_fin. }
  unfold wind_rows in H. destruct (positive_opt (wind_acres a)); [|destruct H].
  destruct H as [<-|[]]. solve_gen_fin.
Qed.

Lemma candidate_rows_rooftop_first env a :
  exists rest, candidate_rows env a = rooftop_row env a :: rest.
Proof. unfold candidate_rows. simpl. eauto. Qed.

Lemma rank_frame_In goal df r' :
  In r' (rank_frame goal df) <-> exists r, In r df /\ r' = rank_row goal df r.
Proof.
  rewrite rank_frame_map, in_map_iff. split; intros (r & H1 & H2); eauto.
Qed.

Lemma rank_frame_notna goal df r' :
  (forall r, In r df -> gen_fin r) ->
  In r' (rank_frame goal df) -> isna (Score_0to1 r') = false.
Proof.
  intros Hfin H. apply rank_frame_In in H. destruct H as (r & Hr & ->).
  destruct (rank_score_bounds goal df r Hfin Hr) as (q & -> & _).
  reflexivity.
Qed.

End TransitionFacts.

Module RankingFacts.
Import Models.

Lemma sort_values_desc_In {A} (key : A -> fnum) srt l r :
  sorter_ok srt -> (forall x, In x l -> isna (key x) = false) ->
  (In r (sort_values_desc srt key l) <-> In r l).
Proof.
  intros Hok Hl.
  pose proof (sort_values_desc_perm key srt l Hok Hl) as P. split.
  - apply Permutation_in. apply Permutation_sym. exact P.
  - apply Permutation_in. exact P.
Qed.

Lemma mcda_frame_notna df r' :
  Recommender.frame_ok df ->
  In r' (Recommender.mcda_frame df) ->
  isna (Recommender.MCDA_Score_0to1 r') = false.
Proof.
  intros Hf H. rewrite RecommenderFacts.mcda_frame_map in H.
  apply in_map_iff in H. destruct H as (r & <- & Hr).
  destruct (RecommenderFacts.mcda_score_bounds df r Hf Hr) as (q & -> & _).
  reflexivity.
Qed.

(** A table returned by [score_options] is the scored frame, reordered. *)
Lemma score_options_inv srt scen tbl :
  sorter_ok srt ->
  Recommender.score_options srt scen = Some tbl ->
  exists rows,
    Recommender.option_rows scen = Some rows /\
    Recommender.frame_ok rows /\
    Permutation (Recommender.mcda_frame rows) tbl /\
    tbl = srt _ Recommender.MCDA_Score_0to1 (Recommender.mcda_frame rows).
Proof.
  intros Hok H. unfold Recommender.score_options in H.
  destruct (Recommender.option_rows scen) as [rows|] eqn:E; [|discriminate].
  injection H as <-. exists rows.
  pose proof (RecommenderFacts.option_rows_frame_ok scen rows E) as Hf.
  split; [reflexivity|]. split; [exact Hf|].
  assert (Hn : forall r, In r (Recommender.mcda_frame rows) ->
                         isna (Recommender.MCDA_Score_0to1 r) = false).
  { intros r. apply mcda_frame_notna. exact Hf. }
  split.
  - apply sort_values_desc_perm; assumption.
  - apply sort_values_desc_notna. exact Hn.
Qed.

Lemma rank_options_inv srt env a :
  sorter_ok srt ->
  let frame := Transition.rank_frame (Transition.goal a)
                 (Transition.candidate_rows env a) in
  Permutation frame (fst (Transition._rank_options srt env a)) /\
  fst (Transition._rank_options srt env a) = srt _ Transition.Score_0to1 frame.
Proof.
  intros Hok frame.
  assert (Hn : forall r, In r frame ->
                         isna (Transition.Score_0to1 r) = false).
  { intros r. apply TransitionFacts.rank_frame_notna.
    intros r'. apply TransitionFacts.candidate_rows_fin. }
  unfold Transition._rank_options. cbn [fst]. split.
  - apply sort_values_desc_perm; assumption.
  - apply sort_values_desc_notna. exact Hn.
Qed.

End RankingFacts.

(** ** Row count of [score_options] *)

Import Models.

(** [score_options] returns a table exactly when the capital recovery
    factor of [lcoe] can be computed: the power [(1 + discount) ** years]
    is defined and differs from 1. *)
Lemma score_options_returns srt scen :
  Recommender.score_options srt scen <> None <->
  exists p crf,
    Recommender.py_pow (1 + discount_rate scen) (analysis_years scen) = Some p /\
    Recommender.py_div (discount_rate scen * p) (p - 1) = Some crf.
Proof.
  unfold Recommender.score_options, Recommender.option_rows,
    Recommender.lcoe.
  destruct (Recommender.py_pow _ _) as [p|] eqn:Ep.
  - destruct (Recommender.py_div (discount_rate scen * p) (p - 1))
      as [crf|] eqn:Ed.
    + split; [|intros _; discriminate].
      intros _. exists p, crf. split; [reflexivity | exact Ed].
    + split; [intros H; exfalso; apply H; reflexivity|].
      intros (p' & crf & H1 & H2). injection H1 as <-.
      rewrite Ed in H2. discriminate.
  - split; [intros H; exfalso; apply H; reflexivity|].
    intros (p' & crf & H & _). discriminate.
Qed.

(** With a zero discount rate [lcoe] divides by zero and no table is
    returned. *)
Lemma score_options_zero_discount :
  Recommender.score_options insertion_sorter Examples.scenario_zero_discount
  = None.
Proof. vm_compute. reflexivity. Qed.

(** C10 (recommender.py, [Recommender.score_options]).  Every table that
    [score_options] returns has five rows for a residential site and four
    rows otherwise: the heat pump water heater row is there exactly for
    [building_type == "residential"], and the solar PV, efficiency, EV and
    mode-shift rows are always there.  A table is returned whenever the
    capital recovery factor of [lcoe] is defined. *)
Theorem score_options_row_count :
  forall srt scen tbl,
    sorter_ok srt ->
    Recommender.score_options srt scen = Some tbl ->
    let residential := String.eqb (building_type (site scen)) "residential" in
    let has l := exists r, In r tbl /\
                           Recommender.Option_label (Recommender.option_cols r) = l in
    List.length tbl = (if residential then 5 else 4)%nat /\
    (has Recommender.HeatPumpWaterHeater <-> residential = true) /\
    (exists kw, has (Recommender.SolarPV kw)) /\
    has Recommender.EfficiencyLED /\
    has Recommender.TransportEV /\
    has Recommender.TransportModeShift.
Proof.
  intros srt scen tbl Hok H residential has.
  destruct (RankingFacts.score_options_inv srt scen tbl Hok H)
    as (rows & Hrows & Hf & Hperm & _).
  destruct (RecommenderFacts.option_rows_shape scen rows Hrows)
    as (pv & eff & hp & ev & mode & Erows & (kw & Lpv) & Leff & Lhp & Lev &
        Lmode & _).
  rewrite RecommenderFacts.mcda_frame_map in Hperm.
  assert (Hin : forall r, In r rows ->
                  exists r', In r' tbl /\ Recommender.option_cols r' = r).
  { intros r Hr. exists (Recommender.score_row rows r). split; [|reflexivity].
    apply (Permutation_in _ Hperm). apply in_map. exact Hr. }
  assert (Hback : forall r', In r' tbl -> In (Recommender.option_cols r') rows).
  { intros r' Hr'. apply (Permutation_in _ (Permutation_sym Hperm)) in Hr'.
    apply in_map_iff in Hr'. destruct Hr' as (r & <- & Hr). exact Hr. }
  assert (Hhas : forall r l, In r rows -> Recommender.Option_label r = l -> has l).
  { intros r l Hr Hl. destruct (Hin r Hr) as (r' & Hr' & E).
    unfold has. exists r'. split; [exact Hr'|]. rewrite E. exact Hl. }
  fold residential in Erows.
  split.
  { rewrite <- (Permutation_length Hperm), length_map, Erows.
    destruct residential; reflexivity. }
  split.
  { split.
    - intros (r' & Hr' & Hl). apply Hback in Hr'. rewrite Erows in Hr'.
      destruct residential; [reflexivity|]. simpl in Hr'.
      destruct Hr' as [E|[E|[E|[E|[]]]]]; rewrite <- E in Hl; congruence.
    - intros Hres. apply (Hhas hp); [|exact Lhp].
      rewrite Erows, Hres. simpl. auto. }
  split.
  { exists kw. apply (Hhas pv); [|exact Lpv]. rewrite Erows. simpl. auto. }
  split.
  { apply (Hhas eff); [|exact Leff]. rewrite Erows. simpl. auto. }
  split.
  { apply (Hhas ev); [|exact Lev]. rewrite Erows.
    destruct residential; simpl; auto. }
  apply (Hhas mode); [|exact Lmode]. rewrite Erows.
  destruct residential; simpl; auto 6.
Qed.

Lemma score_options_row_count_witness :
  exists tbl,
    Recommender.score_options insertion_sorter Examples.scenario_10000
      = Some tbl /\
    List.length tbl = 5%nat.
Proof.
  destruct (Recommender.score_options insertion_sorter Examples.scenario_10000)
    as [tbl|] eqn:E.
  - exists tbl. split; [reflexivity|].
    apply (score_options_row_count insertion_sorter Examples.scenario_10000 tbl
             insertion_sorter_ok E).
  - vm_compute in E. discriminate.
Defined.

(** A commercial site gets four rows. *)
Lemma score_options_commercial_rows :
  option_map (@List.length _)
    (Recommender.score_options insertion_sorter Examples.scenario_commercial)
  = Some 4%nat.
Proof. vm_compute. reflexivity. Qed.

(** ** Range of the composite scores *)

(** C4 (recommender.py [score_options], feature_transition_generation.py
    [_rank_options] and [_goal_weights]).  Every composite score of a
    returned table ([MCDA_Score_0to1], [Score_0to1]) is a finite number
    between 0 and 1, and the weights combined into it sum to 1: the fixed
    preset of [score_options] and every preset of [_goal_weights]. *)
Theorem composite_scores_unit_interval :
  (forall srt scen tbl r,
      sorter_ok srt ->
      Recommender.score_options srt scen = Some tbl -> In r tbl ->
      exists q, Recommender.MCDA_Score_0to1 r = Fin q /\ 0 <= q /\ q <= 1) /\
  (forall srt env a r,
      sorter_ok srt ->
      In r (fst (Transition._rank_options srt env a)) ->
      exists q, Transition.Score_0to1 r = Fin q /\ 0 <= q /\ q <= 1) /\
  Recommender.w_Simple_Payback_yr + Recommender.w_Annual_Savings_USD
    + Recommender.w_CO2e_Reduction_tpy + Recommender.w_Practicality == 1 /\
  (forall goal,
      let '(w_s, w_c, w_p) := Transition._goal_weights goal in
      w_s + w_c + w_p == 1 /\ 0 <= w_s /\ 0 <= w_c /\ 0 <= w_p).
Proof.
  split; [|split; [|split]].
  - intros srt scen tbl r Hok H Hr.
    destruct (RankingFacts.score_options_inv srt scen tbl Hok H)
      as (rows & _ & Hf & Hperm & _).
    apply (Permutation_in _ (Permutation_sym Hperm)) in Hr.
    rewrite RecommenderFacts.mcda_frame_map in Hr.
    apply in_map_iff in Hr. destruct Hr as (r0 & <- & Hr0).
    apply RecommenderFacts.mcda_score_bounds; assumption.
  - intros srt env a r Hok Hr.
    destruct (RankingFacts.rank_options_inv srt env a Hok) as (Hperm & _).
    apply (Permutation_in _ (Permutation_sym Hperm)) in Hr.
    apply TransitionFacts.rank_frame_In in Hr. destruct Hr as (r0 & Hr0 & ->).
    apply TransitionFacts.rank_score_bounds; [|exact Hr0].
    intros r'. apply TransitionFacts.candidate_rows_fin.
  - reflexivity.
  - intros goal.
    destruct (TransitionFacts.goal_weights_cases goal) as [-> | [-> | ->]];
      repeat split; discriminate.
Qed.

Lemma composite_scores_unit_interval_witness :
  (exists r q,
      In r (fst (Transition._rank_options insertion_sorter Transition.no_nrel
                   Examples.rank_args_10000)) /\
      Transition.Score_0to1 r = Fin q /\ 0 <= q /\ q <= 1) /\
  (exists tbl r q,
      Recommender.score_options insertion_sorter Examples.scenario_10000
        = Some tbl /\
      In r tbl /\ Recommender.MCDA_Score_0to1 r = Fin q /\ 0 <= q /\ q <= 1).
Proof.
  split.
  - destruct (fst (Transition._rank_options insertion_sorter Transition.no_nrel
                     Examples.rank_args_10000)) as [|r0 rest] eqn:E.
    { vm_compute in E. discriminate. }
    assert (Hin : In r0 (fst (Transition._rank_options insertion_sorter
                                Transition.no_nrel Examples.rank_args_10000))).
    { rewrite E. left. reflexivity. }
    destruct (proj1 (proj2 composite_scores_unit_interval)
                insertion_sorter Transition.no_nrel Examples.rank_args_10000 r0
                insertion_sorter_ok Hin) as (q & Hq).
    exists r0, q. split; [left; reflexivity | exact Hq].
  - destruct (Recommender.score_options insertion_sorter
                Examples.scenario_10000) as [[|r0 rest]|] eqn:E.
    + vm_compute in E. discriminate.
    + destruct (proj1 composite_scores_unit_interval
                  insertion_sorter Examples.scenario_10000 (r0 :: rest) r0
                  insertion_sorter_ok E (or_introl eq_refl)) as (q & Hq).
      exists (r0 :: rest), r0, q. split; [reflexivity|].
      split; [left; reflexivity | exact Hq].
    + vm_compute in E. discriminate.
Defined.

(** ** Finite metrics and simple payback *)

Lemma simple_payback_rule capex s :
  (0 < s -> Recommender.simple_payback capex s = Fin (capex / s)) /\
  (Recommender.simple_payback capex s = PInf <-> s <= 0).
Proof.
  unfold Recommender.simple_payback. destruct (Py.ltb 0 s) eqn:E.
  - apply ltb_lt in E. split; [reflexivity|].
    split; [discriminate | lra].
  - apply ltb_ge in E. split; [lra|]. split; auto.
Qed.

Lemma np_where_payback_rule c s :
  (0 < s -> (if Py.ltb 0 s then Fin (c / s) else PInf) = Fin (c / s)) /\
  ((if Py.ltb 0 s then Fin (c / s) else PInf) = PInf <-> s <= 0).
Proof.
  destruct (Py.ltb 0 s) eqn:E.
  - apply ltb_lt in E. split; [reflexivity|].
    split; [discriminate | lra].
  - apply ltb_ge in E. split; [lra|]. split; auto.
Qed.

(** C5 (recommender.py [simple_payback] and [score_options],
    feature_transition_generation.py [_rank_options]).  Every option row
    of a returned table has finite capital cost, annual savings and CO2
    reduction; its simple payback is capital cost / annual savings when
    the savings are positive, and it is positive infinity exactly when the
    savings are zero or negative. *)
Theorem option_rows_finite_metrics_and_payback :
  (forall srt scen tbl r,
      sorter_ok srt ->
      Recommender.score_options srt scen = Some tbl -> In r tbl ->
      exists c s e,
        Recommender.Capex_USD (Recommender.option_cols r) = Fin c /\
        Recommender.Annual_Savings_USD (Recommender.option_cols r) = Fin s /\
        Recommender.CO2e_Reduction_tpy (Recommender.option_cols r) = Fin e /\
        (0 < s ->
         Recommender.Simple_Payback_yr (Recommender.option_cols r)
           = Fin (c / s)) /\
        (Recommender.Simple_Payback_yr (Recommender.option_cols r) = PInf
         <-> s <= 0)) /\
  (forall srt env a r,
      sorter_ok srt ->
      In r (fst (Transition._rank_options srt env a)) ->
      exists c s e,
        Transition.Capex_USD (Transition.gen_cols r) = Fin c /\
        Transition.Annual_Savings_USD (Transition.gen_cols r) = Fin s /\
        Transition.CO2e_Reduction_tpy (Transition.gen_cols r) = Fin e /\
        (0 < s -> Transition.Payback_yr r = Fin (c / s)) /\
        (Transition.Payback_yr r = PInf <-> s <= 0)).
Proof.
  split.
  - intros srt scen tbl r Hok H Hr.
    destruct (RankingFacts.score_options_inv srt scen tbl Hok H)
      as (rows & _ & (Hrows & _) & Hperm & _).
    apply (Permutation_in _ (Permutation_sym Hperm)) in Hr.
    rewrite RecommenderFacts.mcda_frame_map in Hr.
    apply in_map_iff in Hr. destruct Hr as (r0 & <- & Hr0).
    destruct (Hrows r0 Hr0) as (c & s & e & p & Hc & _ & Hs & He & _ & Hp).
    exists c, s, e. cbn [Recommender.option_cols Recommender.score_row].
    rewrite Hp. repeat split; try assumption;
      apply (simple_payback_rule c s).
  - intros srt env a r Hok Hr.
    destruct (RankingFacts.rank_options_inv srt env a Hok) as (Hperm & _).
    apply (Permutation_in _ (Permutation_sym Hperm)) in Hr.
    apply TransitionFacts.rank_frame_In in Hr. destruct Hr as (r0 & Hr0 & ->).
    destruct (TransitionFacts.candidate_rows_fin env a r0 Hr0)
      as (c & s & e & Hc & Hs & He).
    exists c, s, e.
    cbn [Transition.gen_cols Transition.Payback_yr Transition.rank_row].
    rewrite (TransitionFacts.payback_of_fin r0 c s Hc Hs).
    repeat split; try assumption; apply (np_where_payback_rule c s).
Qed.

Lemma option_rows_finite_metrics_and_payback_witness :
  (exists r c s e,
      In r (fst (Transition._rank_options insertion_sorter Transition.no_nrel
                   Examples.rank_args_10000)) /\
      Transition.Capex_USD (Transition.gen_cols r) = Fin c /\
      Transition.Annual_Savings_USD (Transition.gen_cols r) = Fin s /\
      Transition.CO2e_Reduction_tpy (Transition.gen_cols r) = Fin e /\
      (0 < s -> Transition.Payback_yr r = Fin (c / s)) /\
      (Transition.Payback_yr r = PInf <-> s <= 0)) /\
  (exists tbl r c s e,
      Recommender.score_options insertion_sorter Examples.scenario_10000
        = Some tbl /\ In r tbl /\
      Recommender.Capex_USD (Recommender.option_cols r) = Fin c /\
      Recommender.Annual_Savings_USD (Recommender.option_cols r) = Fin s /\
      Recommender.CO2e_Reduction_tpy (Recommender.option_cols r) = Fin e /\
      (0 < s ->
       Recommender.Simple_Payback_yr (Recommender.option_cols r)
         = Fin (c / s)) /\
      (Recommender.Simple_Payback_yr (Recommender.option_cols r) = PInf
       <-> s <= 0)).
Proof.
  split.
  - destruct (fst (Transition._rank_options insertion_sorter Transition.no_nrel
                     Examples.rank_args_10000)) as [|r0 rest] eqn:E.
    { vm_compute in E. discriminate. }
    assert (Hin : In r0 (fst (Transition._rank_options insertion_sorter
                                Transition.no_nrel Examples.rank_args_10000))).
    { rewrite E. left. reflexivity. }
    destruct (proj2 option_rows_finite_metrics_and_payback
                insertion_sorter Transition.no_nrel Examples.rank_args_10000 r0
                insertion_sorter_ok Hin) as (c & s & e & H).
    exists r0, c, s, e. split; [left; reflexivity | exact H].
  - destruct (Recommender.score_options insertion_sorter
                Examples.scenario_10000) as [[|r0 rest]|] eqn:E.
    + vm_compute in E. discriminate.
    + destruct (proj1 option_rows_finite_metrics_and_payback
                  insertion_sorter Examples.scenario_10000 (r0 :: rest) r0
                  insertion_sorter_ok E (or_introl eq_refl))
        as (c & s & e & H).
      exists (r0 :: rest), r0, c, s, e. split; [reflexivity|].
      split; [left; reflexivity | exact H].
    + vm_compute in E. discriminate.
Defined.

(** ** Normalisation of the "higher is better" columns *)

Lemma norm_max1_value x q :
  all_fin x -> In (Fin q) x ->
  exists m M,
    col_min x = Fin m /\ col_max x = Fin M /\ m <= q /\ q <= M /\
    Recommender.norm_max1 x (Fin q)
      = Fin ((q + - m) / (M + - m + Tools.eps)).
Proof.
  intros Hfin Hq.
  assert (Hne : x <> []) by (destruct x; [destruct Hq | congruence]).
  destruct (all_fin_min_max x Hne Hfin) as (m & M & Em & EM & _ & _ & Hb).
  destruct (Hb q Hq) as (Hlo & Hhi). pose proof eps_pos as He.
  exists m, M. repeat split; try assumption.
  unfold Recommender.norm_max1. rewrite Em, EM. simpl.
  destruct (Qeq_bool (M + - m + Tools.eps) 0) eqn:E; [|reflexivity].
  apply Qeq_bool_eq in E. lra.
Qed.

(** Counterexample to C2 as stated: for the 10,000 kWh scenario the
    efficiency row saves 144 USD while the best row saves 1,610.28 USD, so
    savings / maximum is about 0.089; [score_options] gives it the savings
    score 0, because it subtracts the column minimum first. *)
Lemma savings_score_is_not_divided_by_max :
  (exists tbl r,
      Recommender.score_options insertion_sorter Examples.scenario_10000
        = Some tbl /\ In r tbl /\
      Recommender.Option_label (Recommender.option_cols r)
        = Recommender.EfficiencyLED /\
      feq (Recommender.Annual_Savings_USD (Recommender.option_cols r))
          (Fin 144) /\
      feq (col_max (map (fun r' => Recommender.Annual_Savings_USD
                                     (Recommender.option_cols r')) tbl))
          (Fin (161028 # 100)) /\
      feq (Recommender.score_savings r) (Fin 0)) /\
  ~ Stated.savings_score_divides_by_max.
Proof.
  split.
  - destruct (Recommender.score_options insertion_sorter
                Examples.scenario_10000) as [tbl|] eqn:E;
      [|vm_compute in E; discriminate].
    vm_compute in E. injection E as <-.
    eexists. eexists. split; [reflexivity|].
    split; [right; right; right; left; reflexivity|].
    split; [reflexivity|].
    vm_compute. repeat split; reflexivity.
  - intros H.
    destruct (Recommender.score_options insertion_sorter
                Examples.scenario_10000) as [tbl|] eqn:E;
      [|vm_compute in E; discriminate].
    specialize (H insertion_sorter Examples.scenario_10000 tbl
                  insertion_sorter_ok E).
    vm_compute in E. injection E as <-.
    match type of H with
    | forall r, In r (_ :: _ :: _ :: ?r3 :: _) -> _ =>
        specialize (H r3 ltac:(right; right; right; left; reflexivity))
    end.
    vm_compute in H. discriminate H.
Qed.

Lemma metric_col_eq (p : Recommender.option_row -> fnum) df :
  (forall r, In r df -> exists q, p r = Fin q) ->
  map (fun r => fillna1 (Fin 0) (p r)) df = map p df.
Proof.
  intros H. apply map_ext_in. intros r Hr.
  destruct (H r Hr) as (q & ->). reflexivity.
Qed.

Lemma min_max_score_value (p : Recommender.option_row -> fnum) df r :
  (forall r', In r' df -> exists q, p r' = Fin q) -> In r df ->
  exists s m M,
    p r = Fin s /\ col_min (map p df) = Fin m /\ col_max (map p df) = Fin M /\
    m <= s /\ s <= M /\
    Recommender.norm_max1 (map (fun r => fillna1 (Fin 0) (p r)) df)
                          (fillna1 (Fin 0) (p r))
      = Fin ((s + - m) / (M + - m + Tools.eps)).
Proof.
  intros Hfin Hr. rewrite (metric_col_eq p df Hfin).
  destruct (Hfin r Hr) as (s & Es). rewrite Es. unfold fillna1. simpl.
  assert (Hall : all_fin (map p df)).
  { intros e He. apply in_map_iff in He. destruct He as (r' & <- & Hr').
    apply Hfin. exact Hr'. }
  assert (Hin : In (Fin s) (map p df)).
  { rewrite <- Es. apply in_map. exact Hr. }
  destruct (norm_max1_value (map p df) s Hall Hin)
    as (m & M & Em & EM & Hlo & Hhi & Hv).
  exists s, m, M. auto 10.
Qed.

(** C2, amended (feature_transition_generation.py [_rank_options],
    recommender.py [norm_max]).  In [_rank_options] each "higher is
    better" column (annual savings, CO2 reduction) is clipped at zero and
    each entry is divided by the maximum of the clipped column; when that
    maximum is zero the divisor is 1 and every normalised value is zero.
    [Recommender.score_options] does not divide by the maximum: it
    rescales each column between its minimum and its maximum,
    (x - min) / (max - min + 1e-9). *)
Theorem higher_is_better_normalisation :
  (forall df,
      (forall r, In r df -> Transition.gen_fin r) ->
      Transition.norm_s df
        = map (Transition.normalised Transition.Annual_Savings_USD df) df /\
      Transition.norm_c df
        = map (Transition.normalised Transition.CO2e_Reduction_tpy df) df /\
      forall r p,
        In r df ->
        p = Transition.Annual_Savings_USD \/
        p = Transition.CO2e_Reduction_tpy ->
        exists v M,
          clip_lower1 (Fin 0) (p r) = Fin v /\
          col_max (clip_lower (Fin 0) (map p df)) = Fin M /\
          (~ M == 0 -> Transition.normalised p df r = Fin (v / M)) /\
          (M == 0 -> feq (Transition.normalised p df r) (Fin 0))) /\
  (forall srt scen tbl r,
      sorter_ok srt ->
      Recommender.score_options srt scen = Some tbl -> In r tbl ->
      exists rows s m M e me Me,
        Recommender.option_rows scen = Some rows /\
        Recommender.Annual_Savings_USD (Recommender.option_cols r) = Fin s /\
        col_min (map Recommender.Annual_Savings_USD rows) = Fin m /\
        col_max (map Recommender.Annual_Savings_USD rows) = Fin M /\
        Recommender.score_savings r
          = Fin ((s + - m) / (M + - m + Tools.eps)) /\
        Recommender.CO2e_Reduction_tpy (Recommender.option_cols r) = Fin e /\
        col_min (map Recommender.CO2e_Reduction_tpy rows) = Fin me /\
        col_max (map Recommender.CO2e_Reduction_tpy rows) = Fin Me /\
        Recommender.score_co2e r
          = Fin ((e + - me) / (Me + - me + Tools.eps))).
Proof.
  split.
  - intros df Hfin.
    split; [apply TransitionFacts.norm_s_map|].
    split; [apply TransitionFacts.norm_c_map|].
    intros r p Hr Hp.
    assert (Hpf : forall r', In r' df -> exists q, p r' = Fin q).
    { intros r' Hr'. destruct (Hfin r' Hr') as (c & s & e & _ & Hs & He).
      destruct Hp as [-> | ->]; eauto. }
    destruct (TransitionFacts.normalised_spec p df r Hpf Hr)
      as (v & M & Ev & EM & Hv & HM & Hn).
    exists v, M. split; [exact Ev|]. split; [exact EM|]. split.
    + intros HM0. rewrite Hn. destruct (Qeq_bool M 0) eqn:E; [|reflexivity].
      apply Qeq_bool_eq in E. contradiction.
    + intros HM0. rewrite Hn. simpl.
      assert (Hv0 : v == 0) by lra.
      destruct (Qeq_bool M 0); rewrite Hv0; reflexivity.
  - intros srt scen tbl r Hok H Hr.
    destruct (RankingFacts.score_options_inv srt scen tbl Hok H)
      as (rows & Hrows & (Hok' & _) & Hperm & _).
    apply (Permutation_in _ (Permutation_sym Hperm)) in Hr.
    rewrite RecommenderFacts.mcda_frame_map in Hr.
    apply in_map_iff in Hr. destruct Hr as (r0 & <- & Hr0).
    destruct (min_max_score_value Recommender.Annual_Savings_USD rows r0)
      as (s & m & M & Es & Em & EM & _ & _ & Hs);
      [intros r' Hr'; destruct (Hok' r' Hr')
         as (c & s & e & p & _ & _ & -> & _); eauto | exact Hr0 |].
    destruct (min_max_score_value Recommender.CO2e_Reduction_tpy rows r0)
      as (e & me & Me & Ee & Eme & EMe & _ & _ & He);
      [intros r' Hr'; destruct (Hok' r' Hr')
         as (c & s' & e & p & _ & _ & _ & -> & _); eauto | exact Hr0 |].
    exists rows, s, m, M, e, me, Me.
    cbn [Recommender.option_cols Recommender.score_row
         Recommender.score_savings Recommender.score_co2e].
    repeat split; assumption.
Qed.

Lemma higher_is_better_normalisation_witness :
  (exists v M,
      clip_lower1 (Fin 0)
        (Transition.Annual_Savings_USD (Examples.idle_gen_row 100)) = Fin v /\
      col_max (clip_lower (Fin 0)
                 (map Transition.Annual_Savings_USD Examples.idle_gen_frame))
        = Fin M /\
      (~ M == 0 ->
       Transition.normalised Transition.Annual_Savings_USD
         Examples.idle_gen_frame (Examples.idle_gen_row 100) = Fin (v / M)) /\
      (M == 0 ->
       feq (Transition.normalised Transition.Annual_Savings_USD
              Examples.idle_gen_frame (Examples.idle_gen_row 100)) (Fin 0))) /\
  (exists tbl r s m M,
      Recommender.score_options insertion_sorter Examples.scenario_10000
        = Some tbl /\ In r tbl /\
      Recommender.Annual_Savings_USD (Recommender.option_cols r) = Fin s /\
      Recommender.score_savings r = Fin ((s + - m) / (M + - m + Tools.eps))).
Proof.
  split.
  - apply (proj1 higher_is_better_normalisation Examples.idle_gen_frame).
    + intros r [<-|[<-|[]]]; unfold Transition.gen_fin; simpl;
        eexists _, _, _; repeat split; reflexivity.
    + left. reflexivity.
    + left. reflexivity.
  - destruct (Recommender.score_options insertion_sorter
                Examples.scenario_10000) as [[|r0 rest]|] eqn:E.
    + vm_compute in E. discriminate.
    + destruct (proj2 higher_is_better_normalisation
                  insertion_sorter Examples.scenario_10000 (r0 :: rest) r0
                  insertion_sorter_ok E (or_introl eq_refl))
        as (rows & s & m & M & e & me & Me & _ & Hs & _ & _ & Hv & _).
      exists (r0 :: rest), r0, s, m, M. split; [reflexivity|].
      split; [left; reflexivity|]. split; assumption.
    + vm_compute in E. discriminate.
Defined.

(** ** The degenerate frame: no savings and no CO2 reduction *)






(** ** Order of the returned tables *)




(** With no community-solar discount the community solar and green power
    rows of the 10,000 kWh scenario get the same score; the returned
    table keeps them in insertion order, community solar first. *)
Lemma rank_ties_example :
  match Transition.rank_frame "Balanced"
          (Transition.candidate_rows Transition.no_nrel
             Examples.rank_args_tie) with
  | [_; community; green] =>
      feqb (Transition.Score_0to1 community) (Transition.Score_0to1 green)
      = true
  | _ => False
  end /\
  map (fun r => Transition.Technology (Transition.gen_cols r))
      (fst (Transition._rank_options small_frame_sorter Transition.no_nrel
              Examples.rank_args_tie))
    = [Transition.RooftopPV (71 # 10); Transition.CommunitySolar (5 # 10);
       Transition.GreenPower (5 # 10)].
Proof. split; vm_compute; reflexivity. Qed.

(** ** The end-to-end rooftop scenario *)

Lemma rooftop_row_in_table srt env a :
  sorter_ok srt ->
  In (Transition.rank_row (Transition.goal a) (Transition.candidate_rows env a)
        (Transition.rooftop_row env a))
     (fst (Transition._rank_options srt env a)).
Proof.
  intros Hok.
  destruct (RankingFacts.rank_options_inv srt env a Hok) as (Hperm & _).
  apply (Permutation_in _ Hperm).
  rewrite TransitionFacts.rank_frame_map. apply in_map.
  destruct (TransitionFacts.candidate_rows_rooftop_first env a) as (rest & ->).
  left. reflexivity.
Qed.

(** Counterexample to C1 as stated: in the scenario the rooftop row of the
    table has an adjusted yield of 7,983.4104 kWh/yr, not about 8,230; the
    cap of 8,000 kWh does not bind, the savings are not 1,440 USD and the
    CO2 reduction is not 3.04 t. *)
Lemma rooftop_scenario_figures_fail :
  exists r,
    In r (fst (Transition._rank_options insertion_sorter Transition.no_nrel
                 Examples.rank_args_10000)) /\
    Transition.is_RooftopPV (Transition.Technology (Transition.gen_cols r))
      = true /\
    feq (Transition.Annual_kWh (Transition.gen_cols r))
        (Fin (79834104 # 10000)) /\
    ~ feq (Transition.Annual_Savings_USD (Transition.gen_cols r)) (Fin 1440) /\
    ~ feq (Transition.CO2e_Reduction_tpy (Transition.gen_cols r))
          (Fin (304 # 100)) /\
    ~ Stated.rooftop_scenario_figures r.
Proof.
  eexists. split.
  { apply (rooftop_row_in_table insertion_sorter Transition.no_nrel
             Examples.rank_args_10000 insertion_sorter_ok). }
  split; [vm_compute; reflexivity|].
  split; [vm_compute; reflexivity|].
  split; [vm_compute; discriminate|].
  split; [vm_compute; discriminate|].
  intros (kwh & E & Hlo & _).
  vm_compute in E. injection E as <-. vm_compute in Hlo.
  apply Hlo. reflexivity.
Qed.

(** C1, amended (feature_transition_generation.py [_pv_kwh_year] and
    [_rank_options]).  With no coordinates and no NREL key, annual load
    10,000 kWh, rate 0.18 USD/kWh, grid intensity 0.38 kg/kWh, target
    coverage 80 %, tilt 27 degrees and shading 8 %, the rooftop row is
    sized at max(1.0, round(10000/1400, 1)) = 7.1 kWdc; the yield before
    adjustment is 7.1 x 300 x 4.2 = 8,946 kWh/yr; the tilt factor is
    1 - |27 - 30| x 0.01 = 0.97 and the shading factor 0.92, so the
    adjusted yield is 7,983.4104 kWh/yr; this is below the cap of 8,000
    kWh, so the useful energy is 7,983.4104 kWh (79.834104 % of the
    load), the savings are 7,983.4104 x 0.18 = 1,437.013872 USD and the
    CO2 reduction is 7,983.4104 x 0.38 / 1000 = 3.033695952 t/yr. *)
Theorem rooftop_rule_of_thumb_scenario :
  forall srt,
    sorter_ok srt ->
    exists r kw kwh pct s e,
      In r (fst (Transition._rank_options srt Transition.no_nrel
                   Examples.rank_args_10000)) /\
      Transition.Technology (Transition.gen_cols r) = Transition.RooftopPV kw /\
      kw == Qmax 1 (Py.round1 (10000 / 1400)) /\ kw == 71 # 10 /\
      kw * 300 * (42 # 10) == 8946 /\
      Transition.Annual_kWh (Transition.gen_cols r) = Fin kwh /\
      kwh == 8946 * (97 # 100) * (92 # 100) /\ kwh == 79834104 # 10000 /\
      kwh == fst (Transition._pv_kwh_year Transition.no_nrel None None kw 27 8 14) /\
      Transition.Load_Covered_pct (Transition.gen_cols r) = Fin pct /\
      pct == Qmin kwh 8000 / 10000 * 100 /\ pct == 79834104 # 1000000 /\
      Transition.Annual_Savings_USD (Transition.gen_cols r) = Fin s /\
      s == Qmin kwh 8000 * (18 # 100) /\ s == 1437013872 # 1000000 /\
      Transition.CO2e_Reduction_tpy (Transition.gen_cols r) = Fin e /\
      e == Qmin kwh 8000 * (38 # 100) / 1000 /\
      e == 3033695952 # 1000000000.
Proof.
  intros srt Hok.
  pose (a := Examples.rank_args_10000). pose (env := Transition.no_nrel).
  exists (Transition.rank_row (Transition.goal a)
            (Transition.candidate_rows env a) (Transition.rooftop_row env a)).
  exists (Transition.kw_roof_of a).
  exists (fst (Transition.pv_kwh_of env a)).
  exists (Transition.pv_useful_kwh_of env a / Transition.annual_kwh_of a * 100).
  exists (Transition.pv_useful_kwh_of env a * (18 # 100)).
  exists (Transition.pv_useful_kwh_of env a * (38 # 100) / 1000).
  split; [apply rooftop_row_in_table; exact Hok|].
  do 16 (split; [vm_compute; reflexivity|]).
  vm_compute. reflexivity.
Qed.

Lemma rooftop_rule_of_thumb_scenario_witness :
  exists r s,
    In r (fst (Transition._rank_options insertion_sorter Transition.no_nrel
                 Examples.rank_args_10000)) /\
    Transition.Annual_Savings_USD (Transition.gen_cols r) = Fin s /\
    s == 1437013872 # 1000000.
Proof.
  destruct (rooftop_rule_of_thumb_scenario insertion_sorter insertion_sorter_ok)
    as (r & kw & kwh & pct & s & e & Hin & _ & _ & _ & _ & _ & _ & _ & _ &
        _ & _ & _ & Hs & _ & Hs' & _).
  exists r, s. exact (conj Hin (conj Hs Hs')).
Defined.

(** ** Remote look-ups *)

(** [NRELClient.pvwatts_ac_annual] never raises, and a [None] result comes
    with a diagnostic in [last_error]. *)
Lemma pvwatts_ac_annual_total lib http self params :
  exists self' v,
    Remote.pvwatts_ac_annual lib http self params = (self', Remote.Returned v) /\
    (v = None -> Remote.nrel_last_error self' <> None).
Proof.
  unfold Remote.pvwatts_ac_annual.
  destruct (negb (Remote.nrel_available _)).
  - eexists. eexists. split; [reflexivity|]. intros _. discriminate.
  - destruct (Remote.pvwatts_try lib _) as [[msg|x]|e];
      eexists; eexists; (split; [reflexivity|]);
      intros H; discriminate.
Qed.

(** [EIA._get_v2] never raises, and a [None] result comes with a
    diagnostic in [last_error]. *)
Lemma get_v2_total lib http self path params :
  exists self' v,
    Remote._get_v2 lib http self path params = (self', Remote.Returned v) /\
    (v = None -> Remote.last_error self' <> None).
Proof.
  unfold Remote._get_v2.
  destruct (negb (Remote.available _)).
  - eexists. eexists. split; [reflexivity|]. intros _. discriminate.
  - destruct (Remote.get_v2_try _) as [[msg|raw]|e].
    + eexists. eexists. split; [reflexivity|]. intros _. discriminate.
    + destruct ((_ =? 0)%Z || _).
      * eexists. eexists. split; [reflexivity|]. intros _. discriminate.
      * eexists. eexists. split; [reflexivity|]. intros H. discriminate.
    + eexists. eexists. split; [reflexivity|]. intros _. discriminate.
Qed.

(** [fetch_series] on anything but electricity prices returns [None] and
    records why. *)
Lemma fetch_series_unsupported lib http self year state fuel series sector freq :
  (String.eqb (Remote.lower fuel) "electricity"
   && String.eqb (Remote.lower series) "price") = false ->
  exists self',
    Remote.fetch_series lib http self year state fuel series sector freq
      = (self', Remote.Returned None) /\
    Remote.last_error self' <> None.
Proof.
  intros H. unfold Remote.fetch_series. rewrite H.
  eexists. split; [reflexivity|]. discriminate.
Qed.

(** C9 (eia_client.py, [EIA.fetch_retail_price] and [EIA.fetch_series]).
    The look-up does not always return [None] on a failure: when EIA
    answers 200 with a record whose [price] is the text "Not Available",
    [_get_v2] succeeds, and the conversion [df["price"].astype(float)],
    which is outside every [try], raises [ValueError] to the caller;
    [last_error] stays unset. *)
Theorem fetch_retail_price_raises_on_text_price :
  forall lib,
    Remote.float_of_str lib "Not Available" = None ->
    exists self',
      Remote.fetch_retail_price lib Examples.not_available_http
        Examples.eia_client 2024 "MI" "total"
        = (self', Remote.Raised "ValueError") /\
      Remote.fetch_series lib Examples.not_available_http
        Examples.eia_client 2024 "MI" "electricity" "price" "total" "annual"
        = (self', Remote.Raised "ValueError") /\
      Remote.last_error self' = None.
Proof.
  intros lib Hf.
  eexists. split; [|split].
  - unfold Remote.fetch_retail_price. cbn. rewrite Hf. reflexivity.
  - unfold Remote.fetch_series. cbn. rewrite Hf. reflexivity.
  - reflexivity.
Qed.

Lemma fetch_retail_price_raises_on_text_price_witness :
  exists self',
    Remote.fetch_retail_price Examples.digits_lib Examples.not_available_http
      Examples.eia_client 2024 "MI" "total"
      = (self', Remote.Raised "ValueError") /\
    Remote.fetch_series Examples.digits_lib Examples.not_available_http
      Examples.eia_client 2024 "MI" "electricity" "price" "total" "annual"
      = (self', Remote.Raised "ValueError") /\
    Remote.last_error self' = None.
Proof.
  apply (fetch_retail_price_raises_on_text_price Examples.digits_lib).
  vm_compute. reflexivity.
Defined.

(* ================================================================== *)
(** * Further properties *)

(** ** tools.py: charging under a tariff that covers the whole day *)




Lemma leb_gt a b : Py.leb a b = false <-> b < a.
Proof.
  unfold Py.leb. rewrite Qgt_alt. destruct (a ?= b); split; congruence.
Qed.



Ltac decide_hour :=
  repeat match goal with
    | H : Py.leb _ _ = true |- _ => apply leb_le in H
    | H : Py.leb _ _ = false |- _ => apply leb_gt in H
    | H : Py.ltb _ _ = true |- _ => apply ltb_lt in H
    | H : Py.ltb _ _ = false |- _ => apply ltb_ge in H
    end;
  unfold inject_Z in *;
  first [ exfalso; lra
        | eexists; split; [reflexivity|]; split; discriminate ].

Ltac split_hours :=
  repeat match goal with
    | |- context [Py.leb ?a ?b] => destruct (Py.leb a b) eqn:?; simpl
    | |- context [Py.ltb ?a ?b] => destruct (Py.ltb a b) eqn:?; simpl
    end.

Lemma planA_covers :
  Formulas.covers_every_hour Formulas.planA (14 # 100) (25 # 100).
Proof.
  intros x Hlo Hhi. unfold Formulas.planA, first_match, block_matches.
  split_hours; decide_hour.
Qed.

Lemma planB_covers :
  Formulas.covers_every_hour Formulas.planB (14 # 100) (26 # 100).
Proof.
  intros x Hlo Hhi. unfold Formulas.planB, first_match, block_matches.
  split_hours; decide_hour.
Qed.

(** X2 (app.py, transport page; tools.py [ev_tou_cost]).  The two
    time-of-use plans passed to [ev_tou_cost] cover every hour of the
    day, plan A with prices from 0.14 to 0.25 and plan B from 0.14 to
    0.26 USD/kWh; hence no clock value leaves the charging loop idle on
    that page. *)
Theorem app_plans_cover_every_hour :
  Formulas.covers_every_hour Formulas.planA (14 # 100) (25 # 100) /\
  Formulas.covers_every_hour Formulas.planB (14 # 100) (26 # 100) /\
  forall st : ev_state,
    first_match (Py.fmod (h st) 24) Formulas.planA <> None /\
    first_match (Py.fmod (h st) 24) Formulas.planB <> None.
Proof.
  split; [exact planA_covers|]. split; [exact planB_covers|].
  intros st. destruct (fmod_range (h st) 24) as [Hlo Hhi]; [reflexivity|].
  destruct (planA_covers _ Hlo Hhi) as (a & -> & _).
  destruct (planB_covers _ Hlo Hhi) as (b & -> & _).
  split; discriminate.
Qed.


(** ** tools.py: closed-form formulas *)

Lemma py_div_none a b : Recommender.py_div a b = None <-> b == 0.
Proof.
  unfold Recommender.py_div. destruct (Qeq_bool b 0) eqn:E.
  - apply Qeq_bool_eq in E. split; auto.
  - apply Qeq_bool_neq in E. split; [discriminate | contradiction].
Qed.

Lemma py_div_some a b : ~ b == 0 -> Recommender.py_div a b = Some (a / b).
Proof.
  intros H. unfold Recommender.py_div. destruct (Qeq_bool b 0) eqn:E.
  - apply Qeq_bool_eq in E. contradiction.
  - reflexivity.
Qed.

(** X3 (tools.py, [pv_area_for_avg_power]).  The function raises
    ZeroDivisionError exactly when efficiency times insolation is zero;
    otherwise it returns power x 24 / (efficiency x insolation), and
    halving the efficiency doubles the area. *)
Theorem pv_area_halving_efficiency :
  forall p eta G,
    (Formulas.pv_area_for_avg_power p eta G = None <-> eta * G == 0) /\
    (~ eta * G == 0 ->
     exists a a2,
       Formulas.pv_area_for_avg_power p eta G = Some a /\
       Formulas.pv_area_for_avg_power p (eta / 2) G = Some a2 /\
       a == p * 24 / (eta * G) /\ a2 == 2 * a).
Proof.
  intros p eta G. split; [apply py_div_none|].
  intros H. unfold Formulas.pv_area_for_avg_power.
  assert (H2 : ~ eta / 2 * G == 0).
  { intros E. apply H.
    setoid_replace (eta * G) with (2 * (eta / 2 * G)) by field.
    rewrite E. ring. }
  rewrite (py_div_some _ _ H), (py_div_some _ _ H2).
  eexists. eexists. split; [reflexivity|]. split; [reflexivity|].
  split; [reflexivity|]. field. split; intros E; apply H; rewrite E; ring.
Qed.

Lemma pv_area_halving_efficiency_witness :
  exists a a2,
    Formulas.pv_area_for_avg_power 1 (2 # 10) 4 = Some a /\
    Formulas.pv_area_for_avg_power 1 ((2 # 10) / 2) 4 = Some a2 /\
    a == 1 * 24 / ((2 # 10) * 4) /\ a2 == 2 * a.
Proof.
  apply (proj2 (pv_area_halving_efficiency 1 (2 # 10) 4)). discriminate.
Defined.

(** X4 (tools.py, [carbon_intensity_from_formula] and
    [carbon_intensity_from_fc_hhv]).  For a fuel with at least one carbon
    atom the formula version is the mass-fraction version at
    fc = 12 nC / (12 nC + nH); the intensity is positive and strictly
    decreasing in the heating value; with no atoms at all the carbon
    fraction is 0/0 and the function raises. *)
Theorem carbon_intensity_formula :
  forall nC nH hhv,
    (0 < nC)%Z -> (0 <= nH)%Z -> 0 < hhv ->
    exists v,
      Formulas.carbon_intensity_from_formula nC nH hhv = Some v /\
      Formulas.carbon_intensity_from_fc_hhv
        (inject_Z nC * 12 / (inject_Z nC * 12 + inject_Z nH * 1)) hhv = Some v /\
      0 < v /\
      (forall hhv2 v2,
          hhv < hhv2 ->
          Formulas.carbon_intensity_from_formula nC nH hhv2 = Some v2 ->
          v2 < v) /\
      Formulas.carbon_intensity_from_formula 0 0 hhv = None.
Proof.
  intros nC nH hhv HC HH Hh.
  assert (HC' : 0 < inject_Z nC) by (change 0 with (inject_Z 0); rewrite <- Zlt_Qlt; exact HC).
  assert (HH' : 0 <= inject_Z nH) by (change 0 with (inject_Z 0); rewrite <- Zle_Qle; exact HH).
  set (mC := inject_Z nC * 12). set (mH := inject_Z nH * 1).
  assert (Hm : 0 < mC + mH) by (unfold mC, mH; lra).
  assert (Hfc : 0 < mC / (mC + mH)).
  { apply Qlt_shift_div_l; [exact Hm | unfold mC; lra]. }
  set (fc := mC / (mC + mH)) in *.
  assert (Hk : 0 < fc * (44 / 12)).
  { apply Qmult_lt_0_compat; [exact Hfc | reflexivity]. }
  assert (Eform : forall x, Formulas.carbon_intensity_from_formula nC nH x
                            = Formulas.carbon_intensity_from_fc_hhv fc x).
  { intros x. unfold Formulas.carbon_intensity_from_formula. fold mC mH.
    rewrite py_div_some by lra. reflexivity. }
  exists (fc * (44 / 12) / hhv).
  split; [rewrite Eform; apply py_div_some; lra|].
  split; [apply py_div_some; lra|].
  split; [apply Qlt_shift_div_l; [exact Hh | lra]|].
  split; [|reflexivity].
  intros hhv2 v2 Hlt E. rewrite Eform in E.
  unfold Formulas.carbon_intensity_from_fc_hhv in E.
  rewrite py_div_some in E by lra. injection E as <-.
  set (k := fc * (44 / 12)) in *.
  apply Qlt_shift_div_r; [lra|].
  assert (Hd : k / hhv * hhv2 == k + k / hhv * (hhv2 - hhv)) by (field; lra).
  rewrite Hd.
  assert (0 < k / hhv) by (apply Qlt_shift_div_l; [exact Hh | lra]).
  assert (0 < k / hhv * (hhv2 - hhv)) by (apply Qmult_lt_0_compat; lra).
  lra.
Qed.

Lemma carbon_intensity_formula_witness :
  exists v,
    Formulas.carbon_intensity_from_formula 1 4 (555 # 10) = Some v /\
    0 < v.
Proof.
  destruct (carbon_intensity_formula 1 4 (555 # 10))
    as (v & Hv & _ & Hpos & _); [lia | lia | reflexivity |].
  exists v. exact (conj Hv Hpos).
Defined.

(** X5 (tools.py, [capacity_factor]).  For a positive rating and a
    positive number of days, the capacity factor of the energy delivered
    at a constant fraction [cf] of the rating is [cf] again, and any
    energy between zero and rating x 24 x days gives a factor between 0
    and 1; a zero rating or zero days raises ZeroDivisionError. *)
Theorem capacity_factor_range :
  forall ac_kw days,
    (Formulas.capacity_factor 1 ac_kw 0 = None /\
     Formulas.capacity_factor 1 0 days = None) /\
    (0 < ac_kw -> (0 < days)%Z ->
     (forall cf,
         exists v,
           Formulas.capacity_factor (ac_kw * 24 * inject_Z days * cf) ac_kw days
             = Some v /\ v == cf) /\
     (forall kwh,
         0 <= kwh -> kwh <= ac_kw * 24 * inject_Z days ->
         exists v,
           Formulas.capacity_factor kwh ac_kw days = Some v /\
           0 <= v /\ v <= 1)).
Proof.
  intros ac days. split.
  { split; apply py_div_none; [change (inject_Z 0) with 0|]; ring. }
  intros Hac Hd.
  assert (Hd' : 0 < inject_Z days)
    by (change 0 with (inject_Z 0); rewrite <- Zlt_Qlt; exact Hd).
  assert (Hden : 0 < ac * 24 * inject_Z days).
  { apply Qmult_lt_0_compat; [lra | exact Hd']. }
  split.
  - intros cf. unfold Formulas.capacity_factor. rewrite py_div_some by lra.
    eexists. split; [reflexivity|]. field. lra.
  - intros kwh H0 H1. unfold Formulas.capacity_factor.
    rewrite py_div_some by lra.
    eexists. split; [reflexivity|]. apply Qdiv_unit_interval; assumption.
Qed.

Lemma capacity_factor_range_witness :
  exists v, Formulas.capacity_factor 360 1 30 = Some v /\ 0 <= v /\ v <= 1.
Proof.
  apply (proj2 (proj2 (capacity_factor_range 1 30) eq_refl eq_refl) 360).
  - discriminate.
  - vm_compute. discriminate.
Defined.

(** ** Wind estimators *)

(** X6 (feature_transition_generation.py [_wind_kwh_year] and the wind
    block of [_rank_options]; tools.py [wind_region_potential]).  The
    page estimator is the regional formula on acres / 247.105 km2,
    converted from TWh to kWh.  [_rank_options] adds a wind row only for
    a positive acreage; with a positive capacity factor its capital cost
    is the installed capacity (acres / 247.105 x density x 1000 kW) times
    the cost per kW, and with a capacity factor of zero or less it is 0. *)
Theorem wind_row_capacity :
  (forall acres density cf,
      Transition._wind_kwh_year acres density cf
      == Formulas.wind_region_potential (acres / (247105 # 1000)) density cf
         * 1000000000) /\
  (forall a,
      match Transition.wind_acres a with
      | None => Transition.wind_rows a = []
      | Some acres =>
          (acres <= 0 -> Transition.wind_rows a = []) /\
          (0 < acres ->
           exists r c,
             Transition.wind_rows a = [r] /\
             Transition.Technology r = Transition.OnshoreWind acres /\
             Transition.Capex_USD r = Fin c /\
             (0 < Transition.wind_cf a ->
              c == acres / (247105 # 1000) * Transition.wind_density_mw_km2 a
                   * 1000 * Transition.wind_cost_kw a) /\
             (Transition.wind_cf a <= 0 -> c == 0))
      end).
Proof.
  split.
  - intros acres density cf.
    unfold Transition._wind_kwh_year, Formulas.wind_region_potential. field.
  - intros a. unfold Transition.wind_rows, Transition.positive_opt.
    destruct (Transition.wind_acres a) as [acres|]; [|reflexivity].
    destruct (Py.ltb 0 acres) eqn:E.
    + apply ltb_lt in E. split; [intros H; lra|]. intros _.
      eexists. eexists. split; [reflexivity|]. split; [reflexivity|].
      split; [reflexivity|].
      destruct (Py.ltb 0 (Transition.wind_cf a)) eqn:Ec.
      * apply ltb_lt in Ec. split; [|intros H; lra]. intros _.
        unfold Transition._wind_kwh_year. field. lra.
      * apply ltb_ge in Ec. split; [intros H; lra|]. intros _. ring.
    + apply ltb_ge in E. split; [reflexivity|]. intros H. lra.
Qed.

Lemma wind_row_capacity_witness :
  exists r c,
    Transition.wind_rows FurtherExamples.rank_args_wind = [r] /\
    Transition.Capex_USD r = Fin c /\
    c == 100 / (247105 # 1000) * (425 # 100) * 1000 * 1500.
Proof.
  pose proof (proj2 wind_row_capacity FurtherExamples.rank_args_wind) as H.
  cbn [Transition.wind_acres FurtherExamples.rank_args_wind] in H.
  destruct H as [_ H].
  destruct (H ltac:(reflexivity)) as (r & c & Hr & _ & Hc & Hpos & _).
  exists r, c. split; [exact Hr|]. split; [exact Hc|].
  apply Hpos. reflexivity.
Defined.

(** ** Capital recovery factor and LCOE *)

Lemma growth_above_one rate years :
  0 < rate -> (0 < years)%Z ->
  Recommender.py_pow (1 + rate) years = Some ((1 + rate) ^ years) /\
  1 < (1 + rate) ^ years.
Proof.
  intros Hr Hy. split.
  - unfold Recommender.py_pow.
    destruct (Qeq_bool (1 + rate) 0) eqn:E; [|reflexivity].
    apply Qeq_bool_eq in E. lra.
  - apply Qpower_1_lt; [lra | exact Hy].
Qed.

(** X7 (recommender.py, [Recommender.score_options] and [lcoe]; app.py,
    the sidebar sliders).  On the range that the sidebar sliders allow, a
    discount rate from 0.01 to 0.12 and 10 to 30 analysis years,
    [score_options] returns a table.  At a discount rate of zero it
    raises, whatever the number of years: the capital recovery factor of
    [lcoe] is then 0 / 0. *)
Theorem score_options_total_on_slider_range :
  forall srt scen,
    (1 # 100 <= discount_rate scen -> discount_rate scen <= 12 # 100 ->
     (10 <= analysis_years scen <= 30)%Z ->
     exists tbl, Recommender.score_options srt scen = Some tbl) /\
    (discount_rate scen == 0 -> Recommender.score_options srt scen = None).
Proof.
  intros srt scen. split.
  - intros Hd _ Hy.
    assert (Hd0 : 0 < discount_rate scen) by lra.
    assert (Hy0 : (0 < analysis_years scen)%Z) by lia.
    destruct (growth_above_one _ _ Hd0 Hy0) as (Ep & Hp).
    assert (H : Recommender.score_options srt scen <> None).
    { apply score_options_returns. eexists. eexists. split; [exact Ep|].
      apply py_div_some. lra. }
    destruct (Recommender.score_options srt scen) as [tbl|];
      [eauto | congruence].
  - intros Hd.
    destruct (Recommender.score_options srt scen) as [tbl|] eqn:E;
      [|reflexivity].
    exfalso.
    assert (H : Recommender.score_options srt scen <> None)
      by (rewrite E; discriminate).
    apply score_options_returns in H. destruct H as (p & crf & Ep & Ec).
    assert (Hp : p == 1).
    { unfold Recommender.py_pow in Ep.
      destruct (Qeq_bool (1 + discount_rate scen) 0 && _); [discriminate|].
      injection Ep as <-. rewrite Hd.
      setoid_replace (1 + 0) with 1 by ring. apply Qpower_1. }
    assert (Hn : Recommender.py_div (discount_rate scen * p) (p - 1) = None).
    { apply py_div_none. rewrite Hp. ring. }
    rewrite Hn in Ec. discriminate.
Qed.

Lemma score_options_total_on_slider_range_witness :
  exists tbl,
    Recommender.score_options insertion_sorter Examples.scenario_10000
      = Some tbl.
Proof.
  apply (proj1 (score_options_total_on_slider_range insertion_sorter
                  Examples.scenario_10000)).
  - discriminate.
  - discriminate.
  - split; discriminate.
Defined.

(** X8 (feature_calculations.py [_crf]; recommender.py [lcoe]).  For a
    rate from 0.1 % to 50 % and 1 to 50 years [_crf] is defined, exceeds
    the rate, and is the factor that [lcoe] applies: [lcoe] is infinite
    for a generation of zero or less and (capex x crf + O&M) / generation
    otherwise.  At a rate of zero [_crf] returns 1 / years, whereas
    [lcoe] raises ZeroDivisionError. *)
Theorem crf_and_lcoe :
  forall rate years capex om gen,
    (1 <= years <= 50)%Z ->
    (1 # 1000 <= rate -> rate <= 1 # 2 ->
     exists crf,
       Calculations._crf rate years = Some crf /\ rate < crf /\
       Recommender.lcoe capex om gen rate years
         = Some (if Py.leb gen 0 then PInf
                 else Fin ((capex * crf + om) / gen))) /\
    Calculations._crf 0 years = Some (1 / inject_Z years) /\
    Recommender.lcoe capex om gen 0 years = None.
Proof.
  intros rate years capex om gen Hy0.
  assert (Hy : (0 < years)%Z) by lia.
  split; [|split].
  - intros Hr0 _. assert (Hr : 0 < rate) by lra.
    destruct (growth_above_one _ _ Hr Hy) as (Ep & Hp).
    set (p := (1 + rate) ^ years) in *.
    exists (rate * p / (p - 1)).
    assert (Hd : ~ p - 1 == 0) by lra.
    split; [|split].
    + unfold Calculations._crf.
      replace (Py.leb rate 0) with false
        by (symmetry; apply leb_gt; exact Hr).
      rewrite Ep. apply py_div_some. exact Hd.
    + apply Qlt_shift_div_l; [lra|].
      assert (rate * (p - 1) < rate * p)
        by (apply Qmult_lt_l; [exact Hr | lra]).
      lra.
    + unfold Recommender.lcoe. rewrite Ep, (py_div_some _ _ Hd). reflexivity.
  - unfold Calculations._crf. simpl. apply py_div_some.
    change 0 with (inject_Z 0). rewrite inject_Z_injective. lia.
  - unfold Recommender.lcoe.
    assert (Ep : Recommender.py_pow (1 + 0) years = Some ((1 + 0) ^ years)).
    { reflexivity. }
    rewrite Ep.
    assert (E1 : (1 + 0) ^ years == 1).
    { setoid_replace (1 + 0) with 1 by ring. apply Qpower_1. }
    assert (Hn : Recommender.py_div (0 * (1 + 0) ^ years) ((1 + 0) ^ years - 1)
                 = None).
    { apply py_div_none. rewrite E1. ring. }
    rewrite Hn. reflexivity.
Qed.

Lemma crf_and_lcoe_witness :
  exists crf,
    Calculations._crf (7 # 100) 25 = Some crf /\ 7 # 100 < crf /\
    Recommender.lcoe 12780 (1917 # 10) 8946 (7 # 100) 25
      = Some (if Py.leb 8946 0 then PInf
              else Fin ((12780 * crf + (1917 # 10)) / 8946)).
Proof.
  apply (proj1 (crf_and_lcoe (7 # 100) 25 12780 (1917 # 10) 8946
                  ltac:(split; discriminate))).
  - discriminate.
  - discriminate.
Defined.

(** ** feature_calculations.py: input helpers *)

(** X9 (feature_calculations.py, [_safe_int] and [_safe_float]).
    [_safe_float] never raises.  [_safe_int] returns no value for a
    missing or empty input, for text that [float()] rejects and for NaN;
    it returns the truncated number for a finite input; and for an input
    that [float()] reads as an infinity the [OverflowError] of [int()] is
    not caught and reaches the caller. *)
Theorem safe_int_edge_cases :
  forall parse label s,
    s <> ""%string ->
    (parse s = None \/ parse s = Some NaN ->
     exists msg,
       Calculations._safe_int parse label (Some s)
         = Remote.Returned (None, Some msg)) /\
    (forall q,
        parse s = Some (Fin q) ->
        Calculations._safe_int parse label (Some s)
          = Remote.Returned (Some (Z.quot (Qnum q) (Zpos (Qden q))), None)) /\
    (parse s = Some PInf \/ parse s = Some NInf ->
     Calculations._safe_int parse label (Some s)
       = Remote.Raised "OverflowError" /\
     Calculations._safe_float parse label (Some s) = (parse s, None)) /\
    Calculations._safe_int parse label None = Remote.Returned (None, None) /\
    Calculations._safe_int parse label (Some ""%string)
      = Remote.Returned (None, None).
Proof.
  intros parse label s Hs.
  assert (E : String.eqb s "" = false) by (apply String.eqb_neq; exact Hs).
  unfold Calculations._safe_int, Calculations._safe_float. rewrite E.
  split; [|split; [|split; [|split]]].
  - intros [-> | ->]; eexists; reflexivity.
  - intros q ->. reflexivity.
  - intros [H | H]; rewrite H; split; reflexivity.
  - reflexivity.
  - reflexivity.
Qed.

Lemma safe_int_edge_cases_witness :
  Calculations._safe_int
    (fun s => if String.eqb s "inf" then Some PInf else None)
    "Years" (Some "inf"%string)
  = Remote.Raised "OverflowError".
Proof.
  apply (safe_int_edge_cases
           (fun s => if String.eqb s "inf" then Some PInf else None)
           "Years"%string "inf"%string).
  - discriminate.
  - left. reflexivity.
Defined.

(** ** feature_transition_generation.py: the PV rule of thumb *)

(** X10 (feature_transition_generation.py, [_pv_kwh_year], fallback
    branch).  The rule-of-thumb yield is kWdc x 1260 x tilt factor x
    shading factor, where the tilt factor lies between 0.5 and 1 and is 1
    exactly at a tilt of 30 degrees, and the shading factor is never
    negative, at most 1 for a shading of 0 % or more, and 0 from 100 %
    on.  For a non-negative size the yield is therefore between 0 and
    kWdc x 1260 x shading factor. *)
Theorem pv_rule_of_thumb_bounds :
  forall lat lon kwdc tilt_deg shading_pct,
    exists tilt_factor shading_factor,
      Transition.pv_rule_of_thumb lat lon kwdc tilt_deg shading_pct
        == kwdc * 1260 * tilt_factor * shading_factor /\
      1 # 2 <= tilt_factor /\ tilt_factor <= 1 /\
      (tilt_factor == 1 <-> tilt_deg == 30) /\
      0 <= shading_factor /\
      (0 <= shading_pct -> shading_factor <= 1) /\
      (100 <= shading_pct -> shading_factor == 0) /\
      (0 <= kwdc ->
       0 <= Transition.pv_rule_of_thumb lat lon kwdc tilt_deg shading_pct /\
       Transition.pv_rule_of_thumb lat lon kwdc tilt_deg shading_pct
         <= kwdc * 1260 * shading_factor).
Proof.
  intros lat lon kwdc tilt shading.
  set (tf := 1 - Qmin (1 # 2) (Qabs (tilt - 30) * (1 # 100))).
  set (sf := Qmax 0 (1 - shading / 100)).
  exists tf, sf.
  assert (Habs : 0 <= Qabs (tilt - 30)) by apply Qabs_nonneg.
  assert (Hm1 : Qmin (1 # 2) (Qabs (tilt - 30) * (1 # 100)) <= 1 # 2)
    by apply Q.le_min_l.
  assert (Hm0 : 0 <= Qmin (1 # 2) (Qabs (tilt - 30) * (1 # 100))).
  { apply Q.min_glb; [discriminate | lra]. }
  assert (Hsf0 : 0 <= sf) by apply Q.le_max_l.
  assert (Hval : Transition.pv_rule_of_thumb lat lon kwdc tilt shading
                 == kwdc * 1260 * tf * sf).
  { unfold Transition.pv_rule_of_thumb, DataConnectors.solar_resource_GHI.
    fold tf sf. destruct lat, lon; ring. }
  split; [exact Hval|].
  split; [unfold tf; lra|]. split; [unfold tf; lra|].
  split.
  { unfold tf. split.
    - intros H.
      assert (Hz : Qmin (1 # 2) (Qabs (tilt - 30) * (1 # 100)) == 0) by lra.
      destruct (Q.min_spec (1 # 2) (Qabs (tilt - 30) * (1 # 100)))
        as [[_ E]|[_ E]]; rewrite E in Hz; [lra|].
      assert (Ha : Qabs (tilt - 30) == 0) by lra.
      pose proof (Qle_Qabs (tilt - 30)) as H1.
      pose proof (Qle_Qabs (- (tilt - 30))) as H2.
      rewrite Qabs_opp in H2. lra.
    - intros H.
      assert (Ha : Qabs (tilt - 30) == 0).
      { setoid_replace (tilt - 30) with 0 by lra. reflexivity. }
      rewrite Ha. rewrite Q.min_r; [ring | discriminate]. }
  split; [exact Hsf0|].
  split.
  { intros H. unfold sf.
    assert (0 <= shading / 100)
      by (apply Qle_shift_div_l; [reflexivity | lra]).
    apply Q.max_lub; lra. }
  split.
  { intros H. unfold sf.
    assert (1 <= shading / 100)
      by (apply Qle_shift_div_l; [reflexivity | lra]).
    rewrite Q.max_l; [reflexivity | lra]. }
  intros Hk. rewrite Hval.
  assert (H1 : 0 <= kwdc * 1260 * sf).
  { apply Qmult_le_0_compat; [lra | exact Hsf0]. }
  assert (Htf : 1 # 2 <= tf /\ tf <= 1) by (unfold tf; lra).
  setoid_replace (kwdc * 1260 * tf * sf) with (kwdc * 1260 * sf * tf) by ring.
  split.
  - apply Qmult_le_0_compat; lra.
  - assert (0 <= kwdc * 1260 * sf * (1 - tf))
      by (apply Qmult_le_0_compat; lra).
    lra.
Qed.

Lemma pv_rule_of_thumb_bounds_witness :
  exists tilt_factor shading_factor,
    Transition.pv_rule_of_thumb None None (71 # 10) 27 8
      == (71 # 10) * 1260 * tilt_factor * shading_factor /\
    shading_factor <= 1 /\
    0 <= Transition.pv_rule_of_thumb None None (71 # 10) 27 8.
Proof.
  destruct (pv_rule_of_thumb_bounds None None (71 # 10) 27 8)
    as (tf & sf & Hv & _ & _ & _ & _ & Hs & _ & Hk).
  exists tf, sf. split; [exact Hv|].
  split; [apply Hs; discriminate|].
  apply Hk. discriminate.
Defined.

(** ** feature_transition_generation.py: live data or fallback *)

Lemma pv_kwh_year_flag env lat lon kwdc tilt_deg shading_pct losses_pct :
  snd (Transition._pv_kwh_year env lat lon kwdc tilt_deg shading_pct
         losses_pct) = true ->
  lat <> None /\ lon <> None /\ Transition.nrel_available env = true.
Proof.
  unfold Transition._pv_kwh_year.
  destruct lat as [la|], lon as [lo|]; simpl; try discriminate.
  destruct (Transition.nrel_available env); [|discriminate].
  intros _. repeat split; discriminate.
Qed.

Lemma rank_options_flag srt env a :
  snd (Transition._rank_options srt env a) = true ->
  lat (site (Transition.scen a)) <> None /\
  lon (site (Transition.scen a)) <> None /\
  Transition.nrel_available env = true.
Proof.
  intros H. unfold Transition._rank_options in H. cbn [snd] in H.
  unfold Transition.pvwatts_used_any_of in H.
  apply orb_true_iff in H. destruct H as [H|H].
  - apply (pv_kwh_year_flag _ _ _ _ _ _ _ H).
  - unfold Transition.ground_rows in H.
    destruct (Transition.in_list _ _); [|discriminate].
    destruct (Py.ltb 0 _); [|discriminate].
    destruct (Transition._pv_kwh_year env _ _ _ _ _ _) as (k, u) eqn:E.
    simpl in H. subst u.
    apply (pv_kwh_year_flag env (lat (site (Transition.scen a)))
             (lon (site (Transition.scen a)))
             (Qmax 0 (Transition.annual_kwh_of a / 1000
                      - Transition.kw_roof_of a))
             (Transition.tilt a) (Transition.shading a)
             (Transition.pv_losses_pct a)).
    rewrite E. reflexivity.
Qed.

(** X11 (feature_transition_generation.py, [_pv_kwh_year] and
    [_rank_options]; nrel_client.py, [NRELClient.__init__]).  Without
    both coordinates [_pv_kwh_year] builds no client and returns the
    rule-of-thumb yield with the flag unset, whatever the secrets.  With
    both coordinates it builds the client first, and raises when the
    constructor does; otherwise it reports PVWatts as used exactly when
    an API key is available and the PVWatts call returned a value, which
    it then returns unchanged, and it returns the rule-of-thumb yield
    when the flag is unset.  So [_rank_options] never returns the flag
    [pvwatts_used_any] set without coordinates or without a key. *)
Theorem pvwatts_flag_meaning :
  (forall c lat lon kwdc tilt_deg shading_pct losses_pct,
      lat = None \/ lon = None ->
      Page._pv_kwh_year c lat lon kwdc tilt_deg shading_pct losses_pct
      = Some (Transition.pv_rule_of_thumb lat lon kwdc tilt_deg shading_pct,
              false)) /\
  (forall la lo kwdc tilt_deg shading_pct losses_pct,
      Page._pv_kwh_year None (Some la) (Some lo) kwdc tilt_deg shading_pct
        losses_pct = None) /\
  (forall env la lo kwdc tilt_deg shading_pct losses_pct,
      exists v used,
        Page._pv_kwh_year (Some env) (Some la) (Some lo) kwdc tilt_deg
          shading_pct losses_pct = Some (v, used) /\
        (used = true <->
         Transition.nrel_available env = true /\
         Transition.nrel_pvwatts_ac_annual env la lo kwdc tilt_deg losses_pct
           = Some v) /\
        (used = false <->
         Transition.nrel_available env = false \/
         Transition.nrel_pvwatts_ac_annual env la lo kwdc tilt_deg losses_pct
           = None) /\
        (used = false ->
         v = Transition.pv_rule_of_thumb (Some la) (Some lo) kwdc tilt_deg
               shading_pct)) /\
  (forall srt c a tbl,
      Page._rank_options srt c a = Some (tbl, true) ->
      lat (site (Transition.scen a)) <> None /\
      lon (site (Transition.scen a)) <> None /\
      exists env, c = Some env /\ Transition.nrel_available env = true).
Proof.
  split; [|split; [|split]].
  - intros c lat lon kwdc t s l H. unfold Page._pv_kwh_year.
    destruct lat as [la|], lon as [lo|]; try reflexivity.
    destruct H; discriminate.
  - reflexivity.
  - intros env la lo kwdc t s l.
    unfold Page._pv_kwh_year, Transition._pv_kwh_year.
    destruct (Transition.nrel_available env) eqn:Ea.
    + destruct (Transition.nrel_pvwatts_ac_annual env la lo kwdc t l)
        as [ac|] eqn:Ep.
      * exists ac, true. split; [reflexivity|].
        split; [split; auto|].
        split; [|discriminate].
        split; [discriminate | intros [H|H]; discriminate].
      * eexists. exists false. split; [reflexivity|].
        split; [split; [discriminate | intros (_ & H); discriminate]|].
        split; [split; auto | reflexivity].
    + eexists. exists false. split; [reflexivity|].
      split; [split; [discriminate | intros (H & _); discriminate]|].
      split; [split; auto | reflexivity].
  - intros srt c a tbl H. unfold Page._rank_options in H.
    destruct (lat (site (Transition.scen a))) as [la|] eqn:Ela;
      destruct (lon (site (Transition.scen a))) as [lo|] eqn:Elo.
    + destruct c as [env|]; [|discriminate].
      assert (Hs : snd (Transition._rank_options srt env a) = true)
        by (injection H as _ E; exact E).
      apply rank_options_flag in Hs. destruct Hs as (_ & _ & Ha).
      split; [discriminate|]. split; [discriminate|].
      exists env. split; [reflexivity | exact Ha].
    + assert (Hs : snd (Transition._rank_options srt Transition.no_nrel a)
                   = true) by (injection H as _ E; exact E).
      apply rank_options_flag in Hs. destruct Hs as (_ & _ & Ha).
      discriminate Ha.
    + assert (Hs : snd (Transition._rank_options srt Transition.no_nrel a)
                   = true) by (injection H as _ E; exact E).
      apply rank_options_flag in Hs. destruct Hs as (_ & _ & Ha).
      discriminate Ha.
    + assert (Hs : snd (Transition._rank_options srt Transition.no_nrel a)
                   = true) by (injection H as _ E; exact E).
      apply rank_options_flag in Hs. destruct Hs as (_ & _ & Ha).
      discriminate Ha.
Qed.

Lemma pvwatts_flag_meaning_witness :
  Page._pv_kwh_year None None None (71 # 10) 27 8 14
  = Some (Transition.pv_rule_of_thumb None None (71 # 10) 27 8, false).
Proof.
  apply (proj1 pvwatts_flag_meaning None None None (71 # 10) 27 8 14).
  left. reflexivity.
Defined.

(** ** feature_transition_generation.py: the candidate rows *)

Lemma ground_rows_kinds env a :
  map (fun r => Views.kind_of (Transition.Technology r))
      (fst (Transition.ground_rows env a))
  = if Views.ground_applies a then [Views.KGround] else [].
Proof.
  unfold Transition.ground_rows, Views.ground_applies.
  destruct (Transition.in_list _ _); [|reflexivity]. simpl.
  destruct (Py.ltb 0 _); [|reflexivity].
  destruct (Transition._pv_kwh_year _ _ _ _ _ _ _). reflexivity.
Qed.

Lemma wind_rows_kinds a :
  map (fun r => Views.kind_of (Transition.Technology r))
      (Transition.wind_rows a)
  = if Views.wind_applies a then [Views.KWind] else [].
Proof.
  unfold Transition.wind_rows, Views.wind_applies.
  destruct (Transition.positive_opt _); reflexivity.
Qed.

(** X12 (feature_transition_generation.py, [_rank_options]).  The
    candidate rows are, in insertion order: rooftop PV; ground/carport PV
    only for the categories Business, Community and City and only when
    annual_kwh / 1000 exceeds the rooftop size; community solar; green
    power; onshore wind only for a positive acreage.  The returned table
    holds the same rows, so it has between three and five rows and is
    never empty. *)
Theorem rank_options_rows :
  forall srt env a,
    sorter_ok srt ->
    map (fun r => Views.kind_of (Transition.Technology r))
        (Transition.candidate_rows env a)
    = [Views.KRooftop]
        ++ (if Views.ground_applies a then [Views.KGround] else [])
        ++ [Views.KCommunity; Views.KGreen]
        ++ (if Views.wind_applies a then [Views.KWind] else []) /\
    Permutation
      (map Transition.gen_cols (fst (Transition._rank_options srt env a)))
      (Transition.candidate_rows env a) /\
    (3 <= List.length (fst (Transition._rank_options srt env a)) <= 5)%nat.
Proof.
  intros srt env a Hok.
  assert (Hk : map (fun r => Views.kind_of (Transition.Technology r))
                   (Transition.candidate_rows env a)
               = [Views.KRooftop]
                   ++ (if Views.ground_applies a then [Views.KGround] else [])
                   ++ [Views.KCommunity; Views.KGreen]
                   ++ (if Views.wind_applies a then [Views.KWind] else [])).
  { unfold Transition.candidate_rows. rewrite !map_app.
    rewrite ground_rows_kinds, wind_rows_kinds.
    unfold Transition.rooftop_row.
    destruct (Transition.pv_kwh_of env a). reflexivity. }
  destruct (RankingFacts.rank_options_inv srt env a Hok) as (Hperm & _).
  assert (Hp : Permutation
                 (map Transition.gen_cols
                    (fst (Transition._rank_options srt env a)))
                 (Transition.candidate_rows env a)).
  { apply Permutation_sym.
    eapply Permutation_trans;
      [|apply Permutation_map; exact Hperm].
    rewrite TransitionFacts.rank_frame_map, map_map. simpl.
    rewrite map_id. apply Permutation_refl. }
  split; [exact Hk|]. split; [exact Hp|].
  pose proof (Permutation_length Hp) as Hl. rewrite length_map in Hl.
  rewrite Hl.
  rewrite <- (length_map (fun r => Views.kind_of (Transition.Technology r))).
  rewrite Hk.
  destruct (Views.ground_applies a), (Views.wind_applies a); simpl; lia.
Qed.

Lemma rank_options_rows_witness :
  (3 <= List.length
          (fst (Transition._rank_options insertion_sorter Transition.no_nrel
                  Examples.rank_args_10000)) <= 5)%nat.
Proof.
  apply (rank_options_rows insertion_sorter Transition.no_nrel
           Examples.rank_args_10000 insertion_sorter_ok).
Defined.

(** X13 (feature_transition_generation.py, [_rank_options], rooftop and
    ground/carport blocks).  For a positive annual load and a target
    share that is not negative, the "Load covered" percentages of the
    rooftop row and of the ground/carport row add up to at most
    [target_load_pct], up to the relative slack 1e-9 that absorbs the
    rounding of the divisions and products in binary64 (the model
    computes in exact rationals). *)
Theorem onsite_pv_within_target :
  forall env a,
    0 < Transition.annual_kwh_of a ->
    0 <= Transition.target_load_pct a ->
    let rows := Transition.rooftop_row env a
                  :: fst (Transition.ground_rows env a) in
    (forall r, In r rows ->
               exists p, Transition.Load_Covered_pct r = Fin p) /\
    fold_right Qplus 0
      (map (fun r => Views.fin_value (Transition.Load_Covered_pct r)) rows)
      <= Transition.target_load_pct a * (1 + eps).
Proof.
  intros env a Hann Htgt rows. subst rows.
  set (cap := Transition.annual_kwh_of a * (Transition.target_load_pct a / 100)).
  assert (Hpv : Transition.pv_useful_kwh_of env a <= cap) by apply Q.le_min_r.
  assert (Hconv : forall u, u <= cap ->
            u / Transition.annual_kwh_of a * 100
            <= Transition.target_load_pct a * (1 + eps)).
  { intros u Hu.
    apply Qle_trans with (Transition.target_load_pct a);
      [|assert (He : eps == 1 # 1000000000) by reflexivity;
        rewrite He; lra].
    setoid_replace (Transition.target_load_pct a)
      with (cap / Transition.annual_kwh_of a * 100)
      by (unfold cap; field; lra).
    apply Qmult_le_compat_r; [|discriminate].
    apply Qmult_le_compat_r; [exact Hu|].
    apply Qinv_le_0_compat. lra. }
  unfold Transition.rooftop_row, Transition.ground_rows.
  destruct (Transition.pv_kwh_of env a) as (pv_kwh, used) eqn:Epv.
  destruct (Transition.in_list _ _);
    [destruct (Py.ltb 0 _);
     [destruct (Transition._pv_kwh_year env _ _ _ _ _ _) as (extra_kwh, u2)|]|];
    cbn [fst map fold_right Transition.Load_Covered_pct Views.fin_value].
  - split.
    { intros r [<-|[<-|[]]]; eexists; reflexivity. }
    fold cap. set (pvu := Transition.pv_useful_kwh_of env a) in *.
    set (ex := Qmin extra_kwh (Qmax 0 (cap - pvu))).
    assert (Hex : ex <= cap - pvu).
    { unfold ex. eapply Qle_trans; [apply Q.le_min_r|].
      rewrite Q.max_r; lra. }
    match goal with
    | |- ?L <= _ =>
        assert (Hs : L == (pvu + ex) / Transition.annual_kwh_of a * 100)
          by (field; lra);
        rewrite Hs
    end.
    apply Hconv. lra.
  - split.
    { intros r [<-|[]]; eexists; reflexivity. }
    match goal with
    | |- ?L <= _ =>
        assert (Hs : L == Transition.pv_useful_kwh_of env a
                            / Transition.annual_kwh_of a * 100)
          by (field; lra);
        rewrite Hs
    end.
    apply Hconv. exact Hpv.
  - split.
    { intros r [<-|[]]; eexists; reflexivity. }
    match goal with
    | |- ?L <= _ =>
        assert (Hs : L == Transition.pv_useful_kwh_of env a
                            / Transition.annual_kwh_of a * 100)
          by (field; lra);
        rewrite Hs
    end.
    apply Hconv. exact Hpv.
Qed.

Lemma onsite_pv_within_target_witness :
  fold_right Qplus 0
    (map (fun r => Views.fin_value (Transition.Load_Covered_pct r))
         (Transition.rooftop_row Transition.no_nrel Examples.rank_args_10000
            :: fst (Transition.ground_rows Transition.no_nrel
                      Examples.rank_args_10000)))
    <= 80 * (1 + eps).
Proof.
  apply (proj2 (onsite_pv_within_target Transition.no_nrel
                  Examples.rank_args_10000 eq_refl ltac:(discriminate))).
Defined.

(** X14 (feature_transition_generation.py, [_rank_options], scoring
    step).  A row whose capital cost is zero or whose savings are zero or
    negative gets the payback score 0: its payback is 0 or infinite, both
    are replaced by NaN before normalising, and NaN scores 0.  This
    always holds for the community solar and the green power rows, whose
    capital cost is 0. *)
Theorem no_payback_credit_without_capex :
  (forall df r c s,
      Transition.Capex_USD r = Fin c ->
      Transition.Annual_Savings_USD r = Fin s ->
      c == 0 \/ s <= 0 ->
      Transition.norm_p1 df r = Fin 0) /\
  (forall df a,
      Transition.norm_p1 df (Transition.community_solar_row a) = Fin 0 /\
      Transition.norm_p1 df (Transition.green_power_row a) = Fin 0).
Proof.
  assert (H : forall df r c s,
             Transition.Capex_USD r = Fin c ->
             Transition.Annual_Savings_USD r = Fin s ->
             c == 0 \/ s <= 0 ->
             Transition.norm_p1 df r = Fin 0).
  { intros df r c s Hc Hs Hcase. unfold Transition.norm_p1.
    rewrite (TransitionFacts.payback_of_fin r c s Hc Hs).
    destruct (Py.ltb 0 s) eqn:E; [|reflexivity].
    apply ltb_lt in E. destruct Hcase as [Hz|Hz]; [|lra].
    assert (Hq : Qeq_bool (c / s) 0 = true).
    { apply Qeq_bool_iff. rewrite Hz. unfold Qdiv. ring. }
    unfold Transition.clean1. simpl. rewrite Hq. reflexivity. }
  split; [exact H|].
  intros df a. split.
  - eapply H; [reflexivity | reflexivity | left; reflexivity].
  - eapply H; [reflexivity | reflexivity | left; reflexivity].
Qed.

Lemma no_payback_credit_without_capex_witness :
  Transition.norm_p1 Examples.idle_gen_frame (Examples.idle_gen_row 100)
  = Fin 0.
Proof.
  apply (proj1 no_payback_credit_without_capex Examples.idle_gen_frame
           (Examples.idle_gen_row 100) 100 0 eq_refl eq_refl).
  right. discriminate.
Defined.

(** ** conversions.py *)

Lemma lookup_In u table f :
  Conversions.lookup u table = Some f -> In (u, f) table.
Proof.
  induction table as [|[k v] rest IH]; simpl; [discriminate|].
  destruct (String.eqb u k) eqn:E.
  - apply String.eqb_eq in E. intros H. injection H as <-. subst k.
    left. reflexivity.
  - intros H. right. apply IH. exact H.
Qed.

Lemma units_positive u f :
  Conversions.lookup u Conversions.UNITS = Some f -> 0 < f.
Proof.
  intros H. apply lookup_In in H.
  assert (Hall : Forall (fun kv => 0 < snd kv) Conversions.UNITS).
  { unfold Conversions.UNITS. repeat constructor. }
  rewrite Forall_forall in Hall. apply (Hall (u, f) H).
Qed.

(** X15 (conversions.py, [convert_value]).  The function raises
    ValueError exactly when one of the two units is not a key of [UNITS];
    between supported units it returns value x UNITS[from] / UNITS[to],
    and converting a unit to itself returns the value. *)
Theorem convert_value_supported :
  forall v a b,
    (Conversions.convert_value v a b = None <->
     Conversions.lookup a Conversions.UNITS = None \/
     Conversions.lookup b Conversions.UNITS = None) /\
    (forall f t,
        Conversions.lookup a Conversions.UNITS = Some f ->
        Conversions.lookup b Conversions.UNITS = Some t ->
        Conversions.convert_value v a b = Some (v * (f / t)) /\
        exists w, Conversions.convert_value v a a = Some w /\ w == v).
Proof.
  intros v a b. unfold Conversions.convert_value. split.
  - destruct (Conversions.lookup a Conversions.UNITS),
      (Conversions.lookup b Conversions.UNITS); split; intros H;
      try discriminate; auto; destruct H; discriminate.
  - intros f t Ha Hb. rewrite Ha, Hb. split; [reflexivity|].
    eexists. split; [reflexivity|].
    pose proof (units_positive a f Ha). field. lra.
Qed.

Lemma convert_value_supported_witness :
  Conversions.convert_value 1 "kWh" "MJ" = Some (1 * (3600000 / 1000000)) /\
  exists w, Conversions.convert_value 1 "kWh" "kWh" = Some w /\ w == 1.
Proof.
  apply (proj2 (convert_value_supported 1 "kWh"%string "MJ"%string));
    reflexivity.
Defined.

Lemma lookup64_In u f :
  Conversions64.lookup u Conversions64.UNITS = Some f ->
  In f (map snd Conversions64.UNITS).
Proof.
  generalize Conversions64.UNITS. intros table.
  induction table as [|[k v] rest IH]; simpl; [discriminate|].
  destruct (String.eqb u k).
  - intros H. injection H as <-. left. reflexivity.
  - intros H. right. apply IH. exact H.
Qed.

Lemma units64_round_trips :
  forallb (fun f => forallb (Conversions64.round_trip_ok f)
                            (map snd Conversions64.UNITS))
          (map snd Conversions64.UNITS) = true.
Proof. vm_compute. reflexivity. Qed.

(** X16 (conversions.py, [convert_value]).  Between supported units a
    conversion never divides by zero.  In exact arithmetic conversions
    compose and invert; in binary64 they do so up to rounding: the model
    on rationals states both with a relative slack of 1e-12, and the
    replay on binary64 values shows that 1.0 converted from any unit to
    any other and back lands within 2^-53 of 1.0, but not always on it:
    1 J in kWh and back is 0.9999999999999999. *)
Theorem convert_value_round_trip :
  (forall v a b c w,
      Conversions.convert_value v a b = Some w ->
      (exists back,
          Conversions.convert_value w b a = Some back /\
          Qabs (back - v) <= (1 # 1000000000000) * Qabs v) /\
      (forall x,
          Conversions.convert_value w b c = Some x ->
          exists y,
            Conversions.convert_value v a c = Some y /\
            Qabs (y - x) <= (1 # 1000000000000) * Qabs x)) /\
  (forall a b f t,
      Conversions64.lookup a Conversions64.UNITS = Some f ->
      Conversions64.lookup b Conversions64.UNITS = Some t ->
      exists w back,
        Conversions64.convert_value PrimFloat.one a b = Conversions64.Value w /\
        Conversions64.convert_value w b a = Conversions64.Value back /\
        Conversions64.near_one back = true) /\
  (exists w back,
      Conversions64.convert_value PrimFloat.one "J" "kWh"
        = Conversions64.Value w /\
      Conversions64.convert_value w "kWh" "J" = Conversions64.Value back /\
      PrimFloat.eqb back PrimFloat.one = false /\
      back = PrimFloat.next_down PrimFloat.one).
Proof.
  split; [|split].
  - intros v a b c w H. unfold Conversions.convert_value in *.
    destruct (Conversions.lookup a Conversions.UNITS) as [f|] eqn:Ea;
      [|discriminate].
    destruct (Conversions.lookup b Conversions.UNITS) as [t|] eqn:Eb;
      [|discriminate].
    injection H as <-.
    pose proof (units_positive a f Ea) as Hf.
    pose proof (units_positive b t Eb) as Ht.
    assert (Hslack : forall p q, p == q ->
              Qabs (p - q) <= (1 # 1000000000000) * Qabs q).
    { intros p q E.
      setoid_replace (p - q) with 0 by (rewrite E; ring).
      apply Qmult_le_0_compat; [discriminate | apply Qabs_nonneg]. }
    split.
    + eexists. split; [reflexivity|]. apply Hslack. field. lra.
    + intros x Hx.
      destruct (Conversions.lookup c Conversions.UNITS) as [u|] eqn:Ec;
        [|discriminate].
      injection Hx as <-. pose proof (units_positive c u Ec) as Hu.
      eexists. split; [reflexivity|]. apply Hslack. field. lra.
  - intros a b f t Ea Eb.
    pose proof units64_round_trips as Hall.
    rewrite forallb_forall in Hall.
    specialize (Hall f (lookup64_In a f Ea)).
    rewrite forallb_forall in Hall.
    specialize (Hall t (lookup64_In b t Eb)).
    unfold Conversions64.round_trip_ok in Hall.
    apply andb_true_iff in Hall. destruct Hall as (Hz & Hn).
    apply andb_true_iff in Hz. destruct Hz as (Hf & Ht).
    apply negb_true_iff in Hf. apply negb_true_iff in Ht.
    unfold Conversions64.convert_value. rewrite Ea, Eb, Hf, Ht.
    eexists. eexists. split; [reflexivity|]. split; [reflexivity|].
    exact Hn.
  - eexists. eexists.
    split; [vm_compute; reflexivity|].
    split; [vm_compute; reflexivity|].
    split; vm_compute; reflexivity.
Qed.

Lemma convert_value_round_trip_witness :
  exists back,
    Conversions.convert_value (1 * (3600000 / 1000000)) "MJ" "kWh" = Some back /\
    Qabs (back - 1) <= (1 # 1000000000000) * Qabs 1.
Proof.
  apply (proj1 (proj1 convert_value_round_trip 1 "kWh"%string "MJ"%string
                  "J"%string (1 * (3600000 / 1000000)) eq_refl)).
Defined.

(** ** eia_client.py and nrel_client.py: contracts of the look-ups *)

(** X17 (eia_client.py, [EIA._get_v2]).  [_get_v2] never raises and keeps
    the API key.  It returns None with a diagnostic in [last_error], or a
    payload with [last_error] cleared and [last_url] set to the request
    URL; a returned payload is always a JSON object whose [data] member
    is present and non-empty.  Without an API key no request is made:
    the result does not depend on the network and [last_url] is None. *)
Theorem get_v2_contract :
  forall lib http self path params,
    exists self' v,
      Remote._get_v2 lib http self path params = (self', Remote.Returned v) /\
      Remote.api_key self' = Remote.api_key self /\
      (v = None -> Remote.last_error self' <> None) /\
      (forall data,
          v = Some data ->
          Remote.last_error self' = None /\
          Remote.last_url self'
            = Some (Remote.cat Remote.base_v2
                      (Remote.cat "/" (Remote.lstrip_slash path))) /\
          exists fields rows,
            data = Remote.JObj fields /\
            Remote.dict_get "data" fields = Some rows /\
            Remote.truthy rows = true) /\
      (Remote.available self = false ->
       Remote.last_url self' = None /\ v = None /\
       forall http',
         Remote._get_v2 lib http' self path params
         = Remote._get_v2 lib http self path params).
Proof.
  intros lib http self path params. unfold Remote._get_v2.
  change (Remote.available
            {| Remote.api_key := Remote.api_key self;
               Remote.last_error := None; Remote.last_url := None |})
    with (Remote.available self).
  destruct (Remote.available self) eqn:Ea; simpl.
  - destruct (Remote.get_v2_try _) as [[msg|raw]|e].
    + eexists. eexists. split; [reflexivity|]. split; [reflexivity|].
      split; [intros _; discriminate|].
      split; [intros data H; discriminate | intros H; discriminate].
    + destruct ((Remote.total_of lib (Remote._normalize_v2_payload raw) =? 0)%Z
                || Remote.data_missing (Remote._normalize_v2_payload raw))
        eqn:Ec.
      * eexists. eexists. split; [reflexivity|]. split; [reflexivity|].
        split; [intros _; discriminate|].
        split; [intros data H; discriminate | intros H; discriminate].
      * eexists. eexists. split; [reflexivity|]. split; [reflexivity|].
        split; [intros H; discriminate|].
        split; [|intros H; discriminate].
        intros data H. injection H as <-.
        split; [reflexivity|]. split; [reflexivity|].
        apply orb_false_iff in Ec. destruct Ec as (_ & Ed).
        unfold Remote.data_missing in Ed.
        destruct (Remote._normalize_v2_payload raw) as [| | | | |fields];
          try discriminate.
        destruct (Remote.dict_get "data" fields) as [rows|] eqn:Er;
          [|discriminate].
        exists fields, rows. split; [reflexivity|]. split; [exact Er|].
        apply negb_false_iff in Ed. exact Ed.
    + eexists. eexists. split; [reflexivity|]. split; [reflexivity|].
      split; [intros _; discriminate|].
      split; [intros data H; discriminate | intros H; discriminate].
  - eexists. eexists. split; [reflexivity|]. split; [reflexivity|].
    split; [intros _; discriminate|].
    split; [intros data H; discriminate|].
    intros _. split; [reflexivity|]. split; reflexivity.
Qed.

Lemma get_v2_contract_witness :
  exists self' data,
    Remote._get_v2 Examples.digits_lib Examples.not_available_http
      Examples.eia_client "electricity/retail-sales/data" []
      = (self', Remote.Returned (Some data)) /\
    Remote.last_error self' = None.
Proof.
  destruct (get_v2_contract Examples.digits_lib Examples.not_available_http
              Examples.eia_client "electricity/retail-sales/data"%string [])
    as (self' & v & H & _ & _ & Hd & _).
  destruct v as [data|]; [|vm_compute in H; discriminate H].
  exists self', data. split; [exact H|].
  apply (Hd data eq_refl).
Defined.

Lemma pvwatts_try_agree lib r x :
  Remote.pvwatts_try lib r = Remote.Returned (inr x) ->
  exists outputs v,
    RemoteMore.pvwatts_full_try lib r
      = Remote.Returned (inr (Remote.JObj outputs)) /\
    Remote.dict_get "ac_annual" outputs = Some v /\
    Remote.py_float lib v = Some x.
Proof.
  unfold Remote.pvwatts_try, RemoteMore.pvwatts_full_try.
  destruct r as [msg|status body]; [discriminate|].
  destruct (Remote.is_http_error status); [discriminate|].
  destruct body as [[| | | | |data]|]; try discriminate.
  match goal with
  | |- context [if Remote.truthy ?e then _ else _] =>
      destruct (Remote.truthy e) eqn:Et
  end.
  - match goal with
    | |- context [match ?e with Remote.JArr _ => _ | _ => _ end] =>
        destruct e; try discriminate
    end.
    destruct (Remote.join_errors _); discriminate.
  - destruct (Remote.dict_get "outputs" data) as [[| | | | |outputs]|];
      try discriminate.
    destruct (Remote.dict_get "ac_annual" outputs) as [v|] eqn:Ev;
      [|discriminate].
    destruct v; try discriminate;
      (destruct (Remote.py_float lib _) as [y|] eqn:Ey; [|discriminate]);
      intros H; injection H as <-.
    all: match goal with
         | |- context [Remote.truthy (Remote.JObj ?o)] =>
             assert (Ho : Remote.truthy (Remote.JObj o) = true)
               by (destruct o; [discriminate Ev | reflexivity])
         end.
    all: simpl in Ho |- *; rewrite Ho; eexists; eexists;
      (split; [reflexivity|]); split; [exact Ev | exact Ey].
Qed.

(** X18 (nrel_client.py, [NRELClient.pvwatts_ac_annual] and
    [pvwatts_full]).  Neither call raises; each returns None together
    with a diagnostic in [last_error], or a value with [last_error]
    cleared.  The two agree: whenever [pvwatts_ac_annual] returns a
    number for a response, [pvwatts_full] returns for the same response
    an [outputs] object whose [ac_annual] member converts to that
    number. *)
Theorem pvwatts_calls_agree :
  forall lib http self params,
    exists s1 v1 s2 v2,
      Remote.pvwatts_ac_annual lib http self params
        = (s1, Remote.Returned v1) /\
      RemoteMore.pvwatts_full lib http self params
        = (s2, Remote.Returned v2) /\
      (v1 = None <-> Remote.nrel_last_error s1 <> None) /\
      (v2 = None <-> Remote.nrel_last_error s2 <> None) /\
      (forall x,
          v1 = Some x ->
          exists outputs v,
            v2 = Some (Remote.JObj outputs) /\
            Remote.dict_get "ac_annual" outputs = Some v /\
            Remote.py_float lib v = Some x).
Proof.
  intros lib http self params.
  unfold Remote.pvwatts_ac_annual, RemoteMore.pvwatts_full.
  destruct (negb (Remote.nrel_available _)).
  { do 4 eexists. split; [reflexivity|]. split; [reflexivity|].
    split; [split; [discriminate | reflexivity]|].
    split; [split; [discriminate | reflexivity]|].
    intros x H. discriminate. }
  destruct (Remote.pvwatts_try lib _) as [[msg|x]|e] eqn:E1.
  - destruct (RemoteMore.pvwatts_full_try lib _) as [[msg2|o]|e2];
      do 4 eexists; (split; [reflexivity|]); (split; [reflexivity|]);
      (split; [split; [discriminate | reflexivity]|]);
      (split; [split; first [discriminate | reflexivity
                            | intros H; exfalso; apply H; reflexivity
                            | intros H; discriminate]|]);
      intros x H; discriminate.
  - destruct (pvwatts_try_agree lib _ x E1) as (outputs & v & E2 & Ev & Ef).
    rewrite E2. do 4 eexists. split; [reflexivity|]. split; [reflexivity|].
    split; [split; [discriminate | intros H; exfalso; apply H; reflexivity]|].
    split; [split; [discriminate | intros H; exfalso; apply H; reflexivity]|].
    intros y H. injection H as <-. exists outputs, v. auto.
  - destruct (RemoteMore.pvwatts_full_try lib _) as [[msg2|o]|e2];
      do 4 eexists; (split; [reflexivity|]); (split; [reflexivity|]);
      (split; [split; [discriminate | reflexivity]|]);
      (split; [split; first [discriminate | reflexivity
                            | intros H; exfalso; apply H; reflexivity
                            | intros H; discriminate]|]);
      intros x H; discriminate.
Qed.

Lemma pvwatts_calls_agree_witness :
  exists s1 s2 outputs v,
    Remote.pvwatts_ac_annual Examples.digits_lib FurtherExamples.pvwatts_http
      FurtherExamples.nrel_client [] = (s1, Remote.Returned (Some (Fin 8000))) /\
    RemoteMore.pvwatts_full Examples.digits_lib FurtherExamples.pvwatts_http
      FurtherExamples.nrel_client []
      = (s2, Remote.Returned (Some (Remote.JObj outputs))) /\
    Remote.nrel_last_error s1 = None /\
    Remote.dict_get "ac_annual" outputs = Some v /\
    Remote.py_float Examples.digits_lib v = Some (Fin 8000).
Proof.
  destruct (pvwatts_calls_agree Examples.digits_lib
              FurtherExamples.pvwatts_http FurtherExamples.nrel_client [])
    as (s1 & v1 & s2 & v2 & H1 & H2 & _ & _ & Hag).
  assert (E1 : v1 = Some (Fin 8000)).
  { vm_compute in H1. injection H1 as _ E. symmetry. exact E. }
  assert (Es : Remote.nrel_last_error s1 = None).
  { vm_compute in H1. injection H1 as E _. rewrite <- E. reflexivity. }
  destruct (Hag (Fin 8000) E1) as (outputs & v & E2 & Ev & Ef).
  exists s1, s2, outputs, v.
  rewrite H1, H2, E1, E2. repeat split; assumption.
Defined.

(** ** Retail prices *)

Lemma get_v2_flag lib http self path params :
  exists self' v,
    Remote._get_v2 lib http self path params = (self', Remote.Returned v) /\
    match v with
    | None => Remote.last_error self' <> None
    | Some _ => Remote.last_error self' = None
    end.
Proof.
  unfold Remote._get_v2.
  destruct (negb (Remote.available _)).
  - eexists. eexists. split; [reflexivity|]. discriminate.
  - destruct (Remote.get_v2_try _) as [[msg|raw]|e].
    + eexists. eexists. split; [reflexivity|]. discriminate.
    + destruct ((_ =? 0)%Z || _).
      * eexists. eexists. split; [reflexivity|]. discriminate.
      * eexists. eexists. split; [reflexivity|]. reflexivity.
    + eexists. eexists. split; [reflexivity|]. discriminate.
Qed.

Lemma astype_float_length lib col rs xs :
  Remote.astype_float lib col rs = Remote.Returned xs ->
  List.length xs = List.length rs.
Proof.
  revert xs. induction rs as [|r rest IH]; intros xs H; simpl in H.
  - injection H as <-. reflexivity.
  - destruct (match Remote.dict_get col r with
              | None | Some Remote.JNull => Some NaN
              | Some v => Remote.py_float lib v
              end) as [x|];
      [|destruct (Remote.dict_get col r) as [[| | | | |]|]; discriminate].
    destruct (Remote.astype_float lib col rest) as [ys|e]; [|discriminate].
    injection H as <-. simpl. f_equal. apply IH. reflexivity.
Qed.

Lemma astype_float_numeric lib rs :
  forallb RemoteMore.numeric_price rs = true ->
  exists xs, Remote.astype_float lib "price" rs = Remote.Returned xs.
Proof.
  induction rs as [|r rest IH]; intros H; simpl in H |- *.
  - eexists. reflexivity.
  - apply andb_true_iff in H. destruct H as [Hr Hrest].
    destruct (IH Hrest) as (xs & ->).
    unfold RemoteMore.numeric_price in Hr.
    destruct (Remote.dict_get "price" r) as [[| | | | |]|];
      try discriminate; simpl; eexists; reflexivity.
Qed.

(** X19 (eia_client.py, [EIA.fetch_retail_price]).  Whenever the
    look-up returns, [None] comes with a diagnostic in [last_error] and
    a frame comes with [last_error] cleared.  A returned frame has both
    price columns exactly when its records have a [price] column; the
    cents column then has one entry per record and the dollar column is
    the cents column divided by 100, entry by entry. *)
Theorem fetch_retail_price_frame :
  forall lib http self year state sector self' res,
    Remote.fetch_retail_price lib http self year state sector
      = (self', Remote.Returned res) ->
    match res with
    | None => Remote.last_error self' <> None
    | Some f =>
        Remote.last_error self' = None /\
        if Remote.has_column "price" (Remote.records f)
        then exists cents,
               Remote.price_cents_per_kwh f = Some cents /\
               List.length cents = List.length (Remote.records f) /\
               Remote.price_usd_per_kwh f
                 = Some (map (fun c => fdiv c (Fin 100)) cents)
        else Remote.price_cents_per_kwh f = None /\
             Remote.price_usd_per_kwh f = None
    end.
Proof.
  intros lib http self year state sector self' res.
  unfold Remote.fetch_retail_price.
  match goal with
  | |- context [Remote._get_v2 lib http self ?p ?q] =>
      destruct (get_v2_flag lib http self p q) as (s1 & v & -> & Hv)
  end.
  destruct v as [raw|].
  - match goal with
    | |- context [Remote.DataFrame lib ?rows] =>
        destruct (Remote.DataFrame lib rows) as [rs|e]
    end; [|discriminate].
    destruct (Remote.has_column "price" rs) eqn:Ec.
    + destruct (Remote.astype_float lib "price" rs) as [cents|e] eqn:Ea;
        [|discriminate].
      intros H. injection H as <- <-. simpl. split; [exact Hv|].
      rewrite Ec. exists cents. split; [reflexivity|].
      split; [exact (astype_float_length _ _ _ _ Ea) | reflexivity].
    + intros H. injection H as <- <-. simpl. split; [exact Hv|].
      rewrite Ec. split; reflexivity.
  - intros H. injection H as <- <-. exact Hv.
Qed.

Lemma fetch_retail_price_frame_witness :
  exists self' f,
    Remote.fetch_retail_price Examples.digits_lib FurtherExamples.priced_http
      Examples.eia_client 2024 "MI" "total"
      = (self', Remote.Returned (Some f)) /\
    Remote.last_error self' = None /\
    Remote.price_cents_per_kwh f = Some [Fin (1825 # 100); NaN] /\
    Remote.price_usd_per_kwh f
      = Some (map (fun c => fdiv c (Fin 100)) [Fin (1825 # 100); NaN]).
Proof.
  destruct (Remote.fetch_retail_price Examples.digits_lib
              FurtherExamples.priced_http Examples.eia_client 2024
              "MI" "total") as [self' [[f|]|e]] eqn:E;
    try (vm_compute in E; discriminate E).
  pose proof (fetch_retail_price_frame _ _ _ _ _ _ _ _ E) as H.
  cbv beta iota in H. destruct H as [He H].
  assert (Ec : Remote.price_cents_per_kwh f = Some [Fin (1825 # 100); NaN]).
  { vm_compute in E. injection E as _ E. rewrite <- E. reflexivity. }
  assert (Eh : Remote.has_column "price" (Remote.records f) = true).
  { vm_compute in E. injection E as _ E. rewrite <- E. reflexivity. }
  rewrite Eh in H. destruct H as (cents & Hc & _ & Hu).
  exists self', f. split; [reflexivity|]. split; [exact He|].
  split; [exact Ec|].
  rewrite Hu. rewrite Ec in Hc. injection Hc as <-. reflexivity.
Defined.

(** X20 (eia_client.py, [EIA.fetch_retail_price]).  When the request
    layer hands back a payload whose [data] member is a list of records
    in each of which [price] is absent, null, a number or a boolean, the
    look-up raises nothing: it returns a frame with exactly those
    records and leaves the client as [_get_v2] left it. *)
Theorem fetch_retail_price_numeric_returns :
  forall lib http self year state sector self' fields items rs,
    Remote._get_v2 lib http self "electricity/retail-sales/data"
      (RemoteMore.retail_params lib year state sector)
      = (self', Remote.Returned (Some (Remote.JObj fields))) ->
    Remote.dict_get "data" fields = Some (Remote.JArr items) ->
    Remote.rows_of_objects items = Some rs ->
    forallb RemoteMore.numeric_price rs = true ->
    exists f,
      Remote.fetch_retail_price lib http self year state sector
        = (self', Remote.Returned (Some f)) /\
      Remote.records f = rs.
Proof.
  intros lib http self year state sector self' fields items rs Hg Hd Hr Hn.
  unfold Remote.fetch_retail_price.
  change (Remote._get_v2 lib http self "electricity/retail-sales/data"
            (RemoteMore.retail_params lib year state sector)
          = (self', Remote.Returned (Some (Remote.JObj fields)))) in Hg.
  unfold RemoteMore.retail_params in Hg. cbv zeta in Hg |- *.
  rewrite Hg. rewrite Hd. unfold Remote.DataFrame. rewrite Hr.
  destruct (astype_float_numeric lib rs Hn) as (xs & ->).
  destruct (Remote.has_column "price" rs);
    eexists; split; reflexivity.
Qed.

Lemma fetch_retail_price_numeric_returns_witness :
  exists f,
    Remote.fetch_retail_price Examples.digits_lib FurtherExamples.priced_http
      Examples.eia_client 2024 "MI" "total"
      = ({| Remote.api_key := Some "KEY"%string;
            Remote.last_error := None;
            Remote.last_url :=
              Some (Remote.cat Remote.base_v2
                      "/electricity/retail-sales/data") |},
         Remote.Returned (Some f)) /\
    List.length (Remote.records f) = 2%nat.
Proof.
  edestruct (fetch_retail_price_numeric_returns Examples.digits_lib
               FurtherExamples.priced_http Examples.eia_client 2024
               "MI"%string "total"%string) as (f & Hf & Hrs).
  - vm_compute. reflexivity.
  - vm_compute. reflexivity.
  - vm_compute. reflexivity.
  - vm_compute. reflexivity.
  - exists f. split.
    + rewrite Hf. vm_compute. reflexivity.
    + rewrite Hrs. reflexivity.
Defined.

(** ** The EV row of [score_options] *)

Lemma ev_row_of_rows scen rows r :
  Recommender.option_rows scen = Some rows ->
  In r rows ->
  Recommender.Option_label r = Recommender.TransportEV ->
  exists s e,
    Recommender.Annual_Savings_USD r = Fin s /\
    Recommender.CO2e_Reduction_tpy r = Fin e /\
    Recommender.Simple_Payback_yr r = Recommender.simple_payback 10000 s /\
    s == Qmax 0 (1680 - 3600 * elec_rate_usd_per_kwh scen) /\
    e == Qmax 0 ((42672 # 10) - 3600 * grid_emissions_kgco2e_per_kwh scen)
         / 1000.
Proof.
  unfold Recommender.option_rows. intros H Hin Hl.
  destruct (Recommender.lcoe _ _ _ _ _) as [pv_lcoe|]; [|discriminate].
  injection H as <-.
  destruct (String.eqb (building_type (site scen)) "residential");
    simpl in Hin;
    repeat (destruct Hin as [E|Hin];
            [rewrite <- E in Hl |- *; simpl in Hl; try discriminate Hl|]);
    try contradiction.
  all: cbn [Recommender.Annual_Savings_USD Recommender.CO2e_Reduction_tpy
            Recommender.Simple_Payback_yr].
  all: eexists; eexists; split; [reflexivity|]; split; [reflexivity|];
    split; [reflexivity|]; split.
  all: try (apply Qdiv_comp; [|reflexivity]).
  all: apply Q.max_compat; [reflexivity|];
    unfold Recommender.veh_vmt, Recommender.mpg_gas, Recommender.gas_price,
      Recommender.ef_gas, Recommender.kwh_per_mile_bev; field.
Qed.

(** X21 (recommender.py, [Recommender.score_options], the battery-EV
    row).  In every returned table the EV row has non-negative savings
    and CO2 reduction.  Below an electricity rate of 7/15 USD/kWh its
    savings are 1680 - 3600 x rate and its payback is 10000 divided by
    them; from that rate on the savings are zero and the payback is
    infinite.  Its CO2 reduction is zero exactly when the grid intensity
    is at least 889/750 kg/kWh. *)
Theorem ev_row_break_even :
  forall srt scen tbl r,
    sorter_ok srt ->
    Recommender.score_options srt scen = Some tbl ->
    In r tbl ->
    Recommender.Option_label (Recommender.option_cols r)
      = Recommender.TransportEV ->
    exists s e,
      Recommender.Annual_Savings_USD (Recommender.option_cols r) = Fin s /\
      Recommender.CO2e_Reduction_tpy (Recommender.option_cols r) = Fin e /\
      0 <= s /\ 0 <= e /\
      (elec_rate_usd_per_kwh scen < 7 # 15 ->
       s == 1680 - 3600 * elec_rate_usd_per_kwh scen /\
       exists p,
         Recommender.Simple_Payback_yr (Recommender.option_cols r) = Fin p /\
         p == 10000 / s) /\
      (7 # 15 <= elec_rate_usd_per_kwh scen ->
       s == 0 /\
       Recommender.Simple_Payback_yr (Recommender.option_cols r) = PInf) /\
      (e == 0 <-> 889 # 750 <= grid_emissions_kgco2e_per_kwh scen).
Proof.
  intros srt scen tbl r Hok H Hr Hl.
  destruct (RankingFacts.score_options_inv srt scen tbl Hok H)
    as (rows & Hrows & _ & Hperm & _).
  rewrite RecommenderFacts.mcda_frame_map in Hperm.
  apply (Permutation_in _ (Permutation_sym Hperm)) in Hr.
  apply in_map_iff in Hr. destruct Hr as (r0 & <- & Hr0).
  cbn [Recommender.score_row Recommender.option_cols] in Hl |- *.
  destruct (ev_row_of_rows scen rows r0 Hrows Hr0 Hl)
    as (s & e & Es & Ee & Ep & Hs & He).
  exists s, e. split; [exact Es|]. split; [exact Ee|].
  set (rate := elec_rate_usd_per_kwh scen) in *.
  set (grid := grid_emissions_kgco2e_per_kwh scen) in *.
  destruct (Q.max_spec 0 (1680 - 3600 * rate)) as [[Hlt Hm]|[Hge Hm]];
    rewrite Hm in Hs;
    destruct (Q.max_spec 0 ((42672 # 10) - 3600 * grid)) as [[Hlt' Hm']|[Hge' Hm']];
    rewrite Hm' in He.
  all: assert (He' : e * 1000 == e / 1 * 1000) by (field).
  all: split; [lra|]; split; [rewrite He; try (apply Qle_shift_div_l; lra); lra|].
  all: split; [intros Hrate; try lra|].
  all: try (split; [exact Hs|]; rewrite Ep; unfold Recommender.simple_payback;
            assert (Hpos : Py.ltb 0 s = true) by (apply ltb_lt; lra);
            rewrite Hpos; eexists; split; reflexivity).
  all: split; [intros Hrate; try lra|].
  all: try (split; [exact Hs|]; rewrite Ep; unfold Recommender.simple_payback;
            assert (Hz : Py.ltb 0 s = false) by (apply ltb_ge; lra);
            rewrite Hz; reflexivity).
  all: rewrite He; split; intros Hx.
  all: try lra.
  all: try (assert (Hy : ((42672 # 10) - 3600 * grid) == 0)
              by (setoid_replace ((42672 # 10) - 3600 * grid)
                    with (((42672 # 10) - 3600 * grid) / 1000 * 1000)
                    by (field); rewrite Hx; reflexivity); lra).
  all: try (unfold Qdiv; rewrite Qmult_0_l; reflexivity).
Qed.

Lemma ev_row_break_even_witness :
  exists tbl r s p,
    Recommender.score_options insertion_sorter Examples.scenario_10000
      = Some tbl /\
    In r tbl /\
    Recommender.Annual_Savings_USD (Recommender.option_cols r) = Fin s /\
    s == 1032 /\
    Recommender.Simple_Payback_yr (Recommender.option_cols r) = Fin p /\
    p == 10000 / s.
Proof.
  destruct (Recommender.score_options insertion_sorter Examples.scenario_10000)
    as [tbl|] eqn:E; [|vm_compute in E; discriminate E].
  assert (Hex : exists r,
             In r tbl /\
             Recommender.Option_label (Recommender.option_cols r)
               = Recommender.TransportEV).
  { assert (Hb : existsb
                   (fun r => match Recommender.Option_label
                                     (Recommender.option_cols r) with
                             | Recommender.TransportEV => true
                             | _ => false
                             end) tbl = true).
    { pose proof E as E'. vm_compute in E'. injection E' as <-.
      vm_compute. reflexivity. }
    apply existsb_exists in Hb. destruct Hb as (r & Hr & Hl).
    exists r. split; [exact Hr|].
    destruct (Recommender.Option_label (Recommender.option_cols r));
      try discriminate Hl; reflexivity. }
  destruct Hex as (r & Hr & Hl).
  destruct (ev_row_break_even insertion_sorter Examples.scenario_10000 tbl r
              insertion_sorter_ok E Hr Hl)
    as (s & e & Es & _ & _ & _ & Hlow & _ & _).
  destruct Hlow as (Hs & p & Ep & Hp); [vm_compute; reflexivity|].
  exists tbl, r, s, p. split; [reflexivity|]. split; [exact Hr|].
  split; [exact Es|]. split; [|split; [exact Ep | exact Hp]].
  rewrite Hs. vm_compute. reflexivity.
Defined.
